(** * Recruiter spam detection: the hybrid scoring and decision engine

    A shallow embedding of the scoring services of the repository
    (rule-based scoring, external verification, LLM scoring, and the
    scoring workflow that merges them) together with the properties of
    the specification that were checked against it.

    Conventions of the embedding.
    - A JavaScript number is a rational ([Q]); arithmetic is exact, so the
      binary floating-point rounding of the runtime is abstracted away.
      NaN and the infinities have no counterpart: a field that may hold
      no usable number is an [option Q].
    - [Math.sqrt v > t] with [t >= 0] is modelled by [t * t < v]
      (see [JS.sqrt_gt] and the lemma [sqrt_gt_real]).
    - A function that may throw returns a [JS.completion]; [try]/[catch]
      is [JS.try_catch].
    - Promises are modelled by their settled state ([JS.Settled]); the
      concurrent sub-calls of a chunk are evaluated in input order.
    - Timestamps, latencies and log output are left out. *)

From Stdlib Require Import ZArith QArith Qabs Qround Qminmax Lia.
From Stdlib Require Import Reals Qreals Psatz.
From Stdlib Require Import List String Ascii Bool.
Import ListNotations.

Open Scope Q_scope.

Set Warnings "-register-all".

(** ** The JavaScript fragment the services rely on *)

Module JS.

(** Normal or abrupt completion of a call. *)
Inductive completion (A : Type) : Type :=
| Return (value : A)
| Throw (message : string).
Arguments Return {A} value.
Arguments Throw {A} message.

Definition bind {A B} (c : completion A) (k : A -> completion B) : completion B :=
  match c with
  | Return a => k a
  | Throw m => Throw m
  end.

(** [try { body } catch (error) { handler(error.message) }] *)
Definition try_catch {A} (body : completion A) (handler : string -> completion A)
  : completion A :=
  match body with
  | Return a => Return a
  | Throw m => handler m
  end.

(** The state of a promise once settled, as [Promise.allSettled] reports it. *)
Inductive Settled (A : Type) : Type :=
| fulfilled (value : A)
| rejected (reason : string).
Arguments fulfilled {A} value.
Arguments rejected {A} reason.

Definition settle {A} (c : completion A) : Settled A :=
  match c with
  | Return a => fulfilled a
  | Throw m => rejected m
  end.

Definition Qltb (x y : Q) : bool := negb (Qle_bool y x).

(** [Math.round]: the nearest integer, halves rounded up. *)
Definition Math_round (x : Q) : Z := Qfloor (x + (1 # 2)).

Definition Math_max (x y : Q) : Q := Qmax x y.
Definition Math_min (x y : Q) : Q := Qmin x y.

(** [Math.sqrt(v) > t] for a threshold [t >= 0]. *)
Definition sqrt_gt (v t : Q) : bool := Qltb (t * t) v.

(** [x || d] on a field that should hold a number: [undefined], [NaN]
    (both [None]) and [0] are falsy and give [d]. *)
Definition or_number (x : option Q) (d : Q) : Q :=
  match x with
  | Some v => if Qeq_bool v 0 then d else v
  | None => d
  end.

(** [s || d] on a field that should hold a string: [undefined] and the
    empty string are falsy. *)
Definition truthy_string (s : option string) : bool :=
  match s with
  | Some EmptyString => false
  | Some _ => true
  | None => false
  end.

Definition or_string (s : option string) (d : string) : string :=
  match s with
  | Some EmptyString => d
  | Some v => v
  | None => d
  end.

(** [scores.reduce((sum, score) => sum + score)] on a non-empty array. *)
Definition reduce_sum (first : Q) (rest : list Q) : Q :=
  fold_left Qplus rest first.

Definition length_Q {A} (l : list A) : Q := inject_Z (Z.of_nat (List.length l)).

(** *** Strings (restricted to ASCII) *)

Definition is_digit (c : ascii) : bool :=
  let n := nat_of_ascii c in (48 <=? n)%nat && (n <=? 57)%nat.

Definition is_upper (c : ascii) : bool :=
  let n := nat_of_ascii c in (65 <=? n)%nat && (n <=? 90)%nat.

Definition is_lower (c : ascii) : bool :=
  let n := nat_of_ascii c in (97 <=? n)%nat && (n <=? 122)%nat.

Definition is_letter (c : ascii) : bool := is_upper c || is_lower c.

(** [\s] restricted to the ASCII white space characters. *)
Definition is_space (c : ascii) : bool :=
  let n := nat_of_ascii c in
  (n =? 32)%nat || ((9 <=? n)%nat && (n <=? 13)%nat).

Definition lower_char (c : ascii) : ascii :=
  if is_upper c then ascii_of_nat (nat_of_ascii c + 32) else c.

Definition upper_char (c : ascii) : ascii :=
  if is_lower c then ascii_of_nat (nat_of_ascii c - 32) else c.

Fixpoint map_string (f : ascii -> ascii) (s : string) : string :=
  match s with
  | EmptyString => EmptyString
  | String c r => String (f c) (map_string f r)
  end.

Definition toLowerCase (s : string) : string := map_string lower_char s.
Definition toUpperCase (s : string) : string := map_string upper_char s.

Fixpoint filter_string (keep : ascii -> bool) (s : string) : string :=
  match s with
  | EmptyString => EmptyString
  | String c r => if keep c then String c (filter_string keep r) else filter_string keep r
  end.

Fixpoint all_chars (p : ascii -> bool) (s : string) : bool :=
  match s with
  | EmptyString => true
  | String c r => p c && all_chars p r
  end.

(** Length of the longest prefix whose characters satisfy [p]. *)
Fixpoint count_while (p : ascii -> bool) (s : string) : nat :=
  match s with
  | String c r => if p c then S (count_while p r) else 0
  | EmptyString => 0
  end.

Fixpoint drop (n : nat) (s : string) : string :=
  match n, s with
  | S k, String _ r => drop k r
  | _, _ => s
  end.

Definition startsWith (s pre : string) : bool := String.prefix pre s.

(** [s.includes(sub)] *)
Fixpoint includes (s sub : string) : bool :=
  if String.prefix sub s then true
  else match s with
       | EmptyString => false
       | String _ r => includes r sub
       end.

Fixpoint trimStart (s : string) : string :=
  match s with
  | String c r => if is_space c then trimStart r else s
  | EmptyString => EmptyString
  end.

Fixpoint trimEnd (s : string) : string :=
  match s with
  | EmptyString => EmptyString
  | String c r =>
      match trimEnd r with
      | EmptyString => if is_space c then EmptyString else String c EmptyString
      | r' => String c r'
      end
  end.

Definition trim (s : string) : string := trimEnd (trimStart s).

Fixpoint reverse (s : string) : string :=
  match s with
  | EmptyString => EmptyString
  | String c r => (reverse r ++ String c EmptyString)%string
  end.

(** [s.split(sep)] for a one-character separator. *)
Fixpoint split (sep : ascii) (s : string) : list string :=
  match s with
  | EmptyString => [EmptyString]
  | String c r =>
      if Ascii.eqb c sep then EmptyString :: split sep r
      else match split sep r with
           | [] => [String c EmptyString]
           | piece :: pieces => String c piece :: pieces
           end
  end.

(** [array.includes(s)] on an array of strings. *)
Definition mem_string (s : string) (l : list string) : bool :=
  existsb (String.eqb s) l.

End JS.

(** ** External verification (externalVerification.js) *)

Module ExternalVerification.
Import JS.

(** What the rest of the system reads of a channel's result object. *)
Record ChannelResult : Type := {
  isValid : bool;
  score : option Q;          (* [typeof score === 'number'] iff [Some] *)
  error : option string;
  source : option string;
  apiCalled : bool
}.

Record ErrorEntry : Type := {
  err_source : string;
  err_message : string
}.

Record Results : Type := {
  email : option ChannelResult;
  phone : option ChannelResult;
  company : option ChannelResult;
  domain : option ChannelResult;
  apiCallsCount : nat;
  errors : list ErrorEntry;
  failure : option string    (* [error] of the object built when verifyAll itself failed *)
}.

(** handlePromiseResult: a rejected channel is given a result of its own. *)
Definition handlePromiseResult (result : Settled ChannelResult) (src : string)
  : ChannelResult :=
  match result with
  | fulfilled value => value
  | rejected reason =>
      {| isValid := false; score := Some 10; error := Some reason;
         source := Some src; apiCalled := false |}
  end.

Definition countApiCalls (rs : list ChannelResult) : nat :=
  List.length (filter apiCalled rs).

Definition collectErrors (rs : list ChannelResult) : list ErrorEntry :=
  flat_map (fun r =>
    if truthy_string (error r)
    then [ {| err_source := or_string (source r) "unknown";
              err_message := or_string (error r) "" |} ]
    else []) rs.

(** verifyAll, from the settled state of the four channel promises. *)
Definition verifyAll
    (emailResults phoneResults companyResults domainResults : Settled ChannelResult)
  : Results :=
  let e := handlePromiseResult emailResults "email" in
  let p := handlePromiseResult phoneResults "phone" in
  let c := handlePromiseResult companyResults "company" in
  let d := handlePromiseResult domainResults "domain" in
  {| email := Some e; phone := Some p; company := Some c; domain := Some d;
     apiCallsCount := countApiCalls [e; p; c; d];
     errors := collectErrors [e; p; c; d];
     failure := None |}.

(** *** The phone channel (verifyPhone) *)

Definition is_phone_punct (c : ascii) : bool :=
  is_space c || Ascii.eqb c "-" || Ascii.eqb c "(" || Ascii.eqb c ")" || Ascii.eqb c "+".

(** [phoneNumber.replace(/[\s\-\(\)\+]/g, '')] *)
Definition cleanPhone (phoneNumber : string) : string :=
  filter_string (fun c => negb (is_phone_punct c)) phoneNumber.

(** [/^[\d]{10,15}$/.test(cleanPhone)] *)
Definition isBasicValid (clean : string) : bool :=
  all_chars is_digit clean
  && (10 <=? String.length clean)%nat && (String.length clean <=? 15)%nat.

Record NumverifyData : Type := {
  nv_error : option string;   (* [data.error.info] when [data.error] is present *)
  nv_valid : bool;
  nv_line_type : string;
  nv_carrier : string
}.

(** Outcome of the HTTP call: a response body, or a failure such as a
    timeout of the client. *)
Inductive ApiOutcome (A : Type) : Type :=
| ApiResponse (data : A)
| ApiFailure (message : string).
Arguments ApiResponse {A} data.
Arguments ApiFailure {A} message.

Definition verifyPhone_try (keyConfigured : bool) (phoneNumber : string)
    (call : ApiOutcome NumverifyData) : completion ChannelResult :=
  let clean := cleanPhone phoneNumber in
  if negb keyConfigured then
    let ok := isBasicValid clean in
    Return {| isValid := ok; score := Some (if ok then 50 else 20);
              error := None; source := Some "validation"%string; apiCalled := false |}
  else
    match call with
    | ApiFailure m => Throw m
    | ApiResponse data =>
        match nv_error data with
        | Some info => Throw (or_string (Some info) "Numverify API error")
        | None =>
            let s0 : Q := if nv_valid data then 80 else 20 in
            let s1 := if String.eqb (nv_line_type data) "mobile" then s0 + 10 else s0 in
            let s2 := if (0 <? String.length (nv_carrier data))%nat then s1 + 5 else s1 in
            Return {| isValid := nv_valid data; score := Some (Math_min 100 s2);
                      error := None; source := Some "numverify"%string;
                      apiCalled := true |}
        end
    end.

Definition verifyPhone (keyConfigured : bool) (phoneNumber : option string)
    (call : ApiOutcome NumverifyData) : completion ChannelResult :=
  match phoneNumber with
  | None | Some EmptyString =>
      Return {| isValid := false; score := Some 0;
                error := Some "Phone number not provided"%string;
                source := Some "validation"%string; apiCalled := false |}
  | Some number =>
      try_catch (verifyPhone_try keyConfigured number call)
        (fun message =>
           let ok := isBasicValid (cleanPhone number) in
           Return {| isValid := ok; score := Some (if ok then 30 else 10);
                     error := Some message; source := Some "validation"%string;
                     apiCalled := false |})
  end.

End ExternalVerification.

(** ** LLM scoring (llmScoring.js) *)

Module LLMScoring.
Import JS.

(** A parsed JSON value. An object is a list of bindings in which the
    first binding of a key gives its value. *)
Inductive json : Type :=
| JNull
| JBool (b : bool)
| JNumber (n : Q)
| JString (s : string)
| JArray (items : list json)
| JObject (fields : list (string * json)).

Fixpoint lookup (key : string) (fields : list (string * json)) : option json :=
  match fields with
  | [] => None
  | (k, v) :: rest => if String.eqb k key then Some v else lookup key rest
  end.

(** [response.key]: reading a property of [null] throws a TypeError, a
    property that is absent (or read off a primitive or an array) is
    [undefined]. *)
Definition get (response : json) (key : string) : completion (option json) :=
  match response with
  | JNull => Throw ("Cannot read properties of null (reading '" ++ key ++ "')")
  | JObject fields => Return (lookup key fields)
  | _ => Return None
  end.

Record Result : Type := {
  score : Z;
  confidence : Z;
  reasoning : string;
  redFlags : list string;
  positiveIndicators : list string;
  recommendation : string;
  model : string;
  error : bool                 (* [error: true] is set by the fallback only *)
}.

(** [typeof v === 'number' && v >= 0 && v <= 100 ? Math.round(v) : fallback] *)
Definition validNumber (v : option json) (fallback : Z) : Z :=
  match v with
  | Some (JNumber n) =>
      if Qle_bool 0 n && Qle_bool n 100 then Math_round n else fallback
  | _ => fallback
  end.

Definition stringsOf (items : list json) : list string :=
  flat_map (fun j => match j with JString s => [s] | _ => [] end) items.

Definition validRecommendations : list string :=
  ["approve"; "flag"; "manual_review"]%string.

Definition normalizeResponse (modelName : string) (response : json) : completion Result :=
  bind (get response "score") (fun rScore =>
  bind (get response "confidence") (fun rConfidence =>
  bind (get response "reasoning") (fun rReasoning =>
  bind (get response "redFlags") (fun rRedFlags =>
  bind (get response "positiveIndicators") (fun rPositive =>
  bind (get response "recommendation") (fun rRecommendation =>
  Return {|
    score := validNumber rScore 50;
    confidence := validNumber rConfidence 50;
    reasoning :=
      match rReasoning with
      | Some (JString s) =>
          match trim s with
          | EmptyString => "No reasoning provided"
          | t => t
          end
      | _ => "No reasoning provided"
      end;
    redFlags := match rRedFlags with Some (JArray l) => stringsOf l | _ => [] end;
    positiveIndicators := match rPositive with Some (JArray l) => stringsOf l | _ => [] end;
    recommendation :=
      match rRecommendation with
      | Some (JString s) =>
          if mem_string s validRecommendations then s else "manual_review"
      | _ => "manual_review"
      end;
    model := modelName;
    error := false |})))))).

Definition getFallbackScore (modelName errorMessage : string) : Result :=
  {| score := 50;
     confidence := 0;
     reasoning := "LLM analysis failed: " ++ errorMessage ++ ". Manual review recommended.";
     redFlags := ["LLM_ANALYSIS_FAILED"%string];
     positiveIndicators := [];
     recommendation := "manual_review";
     model := modelName;
     error := true |}.

(** What buildPrompt reads of the rule-based results handed over as
    context: [details.flags.length] and [score]. [ctx_flags] is [None]
    when [details.flags] is undefined, as in the object that stands for
    a failed rule-based run. *)
Record RuleContext : Type := {
  ctx_flags : option nat;
  ctx_score : Q
}.

Definition buildPrompt_completes (ruleBasedResults : option RuleContext) : completion unit :=
  match ruleBasedResults with
  | None => Return tt
  | Some ctx =>
      match ctx_flags ctx with
      | Some _ => Return tt
      | None => Throw "Cannot read properties of undefined (reading 'length')"
      end
  end.

(** What the provider did with the request. *)
Inductive ProviderOutcome : Type :=
| CallFailed (message : string)      (* the call was rejected, whatever the cause *)
| ResponseText (text : string).

Section Adapter.
(** [JSON.parse], [None] when it throws a SyntaxError. *)
Variable JSON_parse : string -> option json.
Variable apiKeyConfigured : bool.
Variable modelName : string.

Definition scoreRecruiter_try (ruleBasedResults : option RuleContext)
    (outcome : ProviderOutcome) : completion Result :=
  if negb apiKeyConfigured then Throw "Gemini API key not configured"
  else
    bind (buildPrompt_completes ruleBasedResults) (fun _ =>
    match outcome with
    | CallFailed message => Throw message
    | ResponseText responseText =>
        match JSON_parse responseText with
        | None => Throw "Invalid JSON response from Gemini"
        | Some parsedResult => normalizeResponse modelName parsedResult
        end
    end).

Definition scoreRecruiter (ruleBasedResults : option RuleContext)
    (outcome : ProviderOutcome) : completion Result :=
  try_catch (scoreRecruiter_try ruleBasedResults outcome)
    (fun message => Return (getFallbackScore modelName message)).
End Adapter.

End LLMScoring.

(** ** Rule-based scoring (ruleBasedScoring.js) *)

Module RuleBasedScoring.
Import JS.

(** The attributes of a recruiter; [None] is a missing ([null] or
    [undefined]) attribute. *)
Record RecruiterData : Type := {
  fullName : option string;
  companyName : option string;
  websiteUrl : option string;
  businessEmail : option string;
  phoneNumber : option string;
  role : option string;
  industry : option string
}.

Inductive Severity : Type := high | medium | low.

Record Flag : Type := {
  type : string;
  severity : Severity;
  message : string;
  impact : Z
}.

Record Check : Type := {
  score : Q;
  flags : list Flag
}.

Definition suspiciousKeywords_company : list string :=
  ["fake"; "scam"; "test"; "xxx"; "123"; "temp"; "sample";
   "demo"; "placeholder"; "example"; "null"; "undefined"]%string.

Definition suspiciousKeywords_role : list string :=
  ["CEO"; "founder"; "owner"; "president"; "VP"; "director"]%string.

Definition suspiciousKeywords_industry : list string :=
  ["adult"; "gambling"; "cryptocurrency"; "mlm"; "pyramid"]%string.

Definition freeEmailProviders : list string :=
  ["gmail.com"; "yahoo.com"; "hotmail.com"; "outlook.com";
   "protonmail.com"; "mail.com"; "10minutemail.com";
   "tempmail.org"; "guerrillamail.com"]%string.

(** *** The spam patterns, one matcher per regular expression *)

(** [/^[a-z]+[0-9]{3,}@/i] *)
Definition email_letters_digits (s : string) : bool :=
  let n := count_while is_letter s in
  let r := drop n s in
  let m := count_while is_digit r in
  (1 <=? n)%nat && (3 <=? m)%nat && startsWith (drop m r) "@".

(** [/^(test|admin|info|contact)[\d]*@/i] *)
Definition email_generic_mailbox (s : string) : bool :=
  let l := toLowerCase s in
  existsb (fun w =>
    startsWith l w &&
    (let r := drop (String.length w) l in
     startsWith (drop (count_while is_digit r) r) "@"))
    ["test"; "admin"; "info"; "contact"]%string.

(** [/noreply|no-reply|donotreply/i] *)
Definition email_noreply (s : string) : bool :=
  let l := toLowerCase s in
  includes l "noreply" || includes l "no-reply" || includes l "donotreply".

Definition spamPatterns_email : list (string -> bool) :=
  [email_letters_digits; email_generic_mailbox; email_noreply].

(** [/^(\+?1)?[d]{3,}/] for a digit [d]: the optional group matches
    ["+1"], ["1"] or nothing. *)
Definition phone_repeated (d : ascii) (s : string) : bool :=
  let run r := (3 <=? count_while (Ascii.eqb d) r)%nat in
  (startsWith s "+1" && run (drop 2 s))
  || (startsWith s "1" && run (drop 1 s))
  || run s.

Definition spamPatterns_phone : list (string -> bool) :=
  [phone_repeated "0"; phone_repeated "1"; phone_repeated "9"].

Definition includes_any (s : string) (subs : list string) : bool :=
  existsb (includes s) subs.

(** [/localhost/i], [/192\.168\./], [/127\.0\.0\.1/],
    [/example\.(com|org|net)/i], [/test\.(com|org|net)/i] *)
Definition spamPatterns_website : list (string -> bool) :=
  [ (fun s => includes (toLowerCase s) "localhost");
    (fun s => includes s "192.168.");
    (fun s => includes s "127.0.0.1");
    (fun s => includes_any (toLowerCase s) ["example.com"; "example.org"; "example.net"]%string);
    (fun s => includes_any (toLowerCase s) ["test.com"; "test.org"; "test.net"]%string) ].

(** [/\d{3,}$/] *)
Definition ends_with_digits (s : string) : bool :=
  (3 <=? count_while is_digit (reverse s))%nat.

(** *** The loops that push a flag and subtract a penalty per hit *)

Definition penalize (hit : bool) (f : Flag) (penalty : Q) (acc : Check) : Check :=
  if hit then {| score := score acc - penalty; flags := flags acc ++ [f] |} else acc.

Definition for_each {A} (items : list A) (step : A -> Check -> Check) (acc : Check) : Check :=
  fold_left (fun acc item => step item acc) items acc.

Definition floored (c : Check) : Check :=
  {| score := Math_max 0 (score c); flags := flags c |}.

(** [value.toLowerCase()] on an attribute that may be missing. *)
Definition attr_toLowerCase (value : option string) : completion string :=
  match value with
  | Some s => Return (toLowerCase s)
  | None => Throw "Cannot read properties of undefined (reading 'toLowerCase')"
  end.

Definition text (value : option string) : string :=
  match value with Some s => s | None => "undefined" end.

(** The text between double quotes, as the messages print it. *)
Definition quoted (s : string) : string :=
  String (ascii_of_nat 34) s ++ String (ascii_of_nat 34) EmptyString.

Definition checkKeywords (data : RecruiterData) : completion Check :=
  let start := {| score := 85; flags := [] |} in
  bind (attr_toLowerCase (companyName data)) (fun companyLower =>
  let c1 := for_each suspiciousKeywords_company (fun keyword =>
    penalize (includes companyLower keyword)
      {| type := "suspicious_company_keyword"; severity := high;
         message := "Company name contains suspicious keyword: " ++ quoted keyword;
         impact := -15 |} 15) start in
  bind (attr_toLowerCase (role data)) (fun roleLower =>
  let c2 := for_each suspiciousKeywords_role (fun keyword =>
    penalize (includes roleLower keyword)
      {| type := "senior_role_flag"; severity := medium;
         message := "Role appears very senior: " ++ quoted (text (role data));
         impact := -5 |} 5) c1 in
  bind (attr_toLowerCase (industry data)) (fun industryLower =>
  let c3 := for_each suspiciousKeywords_industry (fun keyword =>
    penalize (includes industryLower keyword)
      {| type := "high_risk_industry"; severity := high;
         message := "Industry flagged as high-risk: " ++ quoted (text (industry data));
         impact := -20 |} 20) c2 in
  Return (floored c3)))).

(** [!value] on a string attribute: missing or empty. *)
Definition present (value : option string) : option string :=
  match value with
  | Some EmptyString => None
  | other => other
  end.

Record URL : Type := {
  protocol : string;
  hostname : string
}.

Definition occurrences (c : ascii) (s : string) : nat :=
  String.length (filter_string (Ascii.eqb c) s).

(** [Math.max(...Object.values(digitCounts))], 0 standing for the
    result on an empty string, which is below every threshold too. *)
Fixpoint maxRepeats_of (chars whole : string) : nat :=
  match chars with
  | EmptyString => 0%nat
  | String c r => Nat.max (occurrences c whole) (maxRepeats_of r whole)
  end.

Definition maxRepeats (s : string) : nat := maxRepeats_of s s.

Section Analyses.
(** The validator package and the URL class of the runtime. *)
Variable validator_isEmail : string -> bool.
Variable validator_isURL : string -> bool.      (* with [require_protocol] *)
Variable URL_parse : string -> option URL.      (* [None]: the constructor throws *)

Definition analyzeEmail (email : option string) : completion Check :=
  let invalid :=
    {| score := 30;
       flags := [ {| type := "invalid_email"; severity := high;
                     message := "Invalid email format"; impact := -50 |} ] |} in
  match present email with
  | None => Return invalid
  | Some e =>
      if negb (validator_isEmail e) then Return invalid
      else
        bind (attr_toLowerCase (nth_error (split "@" e) 1)) (fun domain =>
        let c0 := {| score := 80; flags := [] |} in
        let c1 := penalize (mem_string domain freeEmailProviders)
          {| type := "free_email_provider"; severity := medium;
             message := "Using free email provider instead of business domain";
             impact := -10 |} 10 c0 in
        let c2 := for_each spamPatterns_email (fun pattern =>
          penalize (pattern e)
            {| type := "spam_email_pattern"; severity := high;
               message := "Email matches spam pattern"; impact := -25 |} 25) c1 in
        let c3 := penalize ((String.length domain <? 4)%nat || (50 <? String.length domain)%nat)
          {| type := "suspicious_domain_length"; severity := medium;
             message := "Domain name has unusual length"; impact := -5 |} 5 c2 in
        Return (floored c3))
  end.

Definition analyzeWebsite_try (websiteUrl : option string) : completion Check :=
  let invalid :=
    {| score := 45;
       flags := [ {| type := "invalid_website_url"; severity := high;
                     message := "Invalid or missing website URL"; impact := -30 |} ] |} in
  match present websiteUrl with
  | None => Return invalid
  | Some w =>
      if negb (validator_isURL w) then Return invalid
      else
        match URL_parse w with
        | None => Throw "Invalid URL"
        | Some url =>
            let domain := toLowerCase (hostname url) in
            let c0 := {| score := 75; flags := [] |} in
            let c1 := for_each spamPatterns_website (fun pattern =>
              penalize (pattern w)
                {| type := "spam_website_pattern"; severity := high;
                   message := "Website URL matches spam pattern"; impact := -25 |} 25) c0 in
            let c2 :=
              if String.eqb (protocol url) "https:"
              then {| score := score c1 + 5; flags := flags c1 |}
              else penalize true
                {| type := "no_https"; severity := low;
                   message := "Website does not use HTTPS"; impact := -5 |} 5 c1 in
            let c3 := penalize (String.length domain <? 4)%nat
              {| type := "domain_too_short"; severity := medium;
                 message := "Website domain is very short"; impact := -10 |} 10 c2 in
            let c4 := penalize (4 <? List.length (split "." domain))%nat
              {| type := "too_many_subdomains"; severity := medium;
                 message := "Website has many subdomains"; impact := -5 |} 5 c3 in
            Return (floored c4)
        end
  end.

Definition analyzeWebsite (websiteUrl : option string) : completion Check :=
  try_catch (analyzeWebsite_try websiteUrl)
    (fun _ => Return
       {| score := 65;
          flags := [ {| type := "website_analysis_error"; severity := medium;
                        message := "Could not analyze website"; impact := -10 |} ] |}).

Definition analyzePhone (phoneNumber : option string) : Check :=
  match present phoneNumber with
  | None =>
      {| score := 65;
         flags := [ {| type := "missing_phone"; severity := medium;
                       message := "Phone number is missing"; impact := -15 |} ] |}
  | Some number =>
      let cleanPhone :=
        filter_string (fun c => negb (is_space c || Ascii.eqb c "-" || Ascii.eqb c "("
                                      || Ascii.eqb c ")" || Ascii.eqb c "+")) number in
      let c0 := {| score := 80; flags := [] |} in
      let c1 := penalize ((String.length cleanPhone <? 10)%nat
                          || (15 <? String.length cleanPhone)%nat)
        {| type := "invalid_phone_length"; severity := medium;
           message := "Phone number has invalid length"; impact := -10 |} 10 c0 in
      let c2 := for_each spamPatterns_phone (fun pattern =>
        penalize (pattern number)
          {| type := "spam_phone_pattern"; severity := high;
             message := "Phone number matches spam pattern"; impact := -20 |} 20) c1 in
      let c3 := penalize (5 <? maxRepeats cleanPhone)%nat
        {| type := "repeated_digits"; severity := medium;
           message := "Phone number has too many repeated digits"; impact := -15 |} 15 c2 in
      floored c3
  end.

Definition genericNames : list string :=
  ["company"; "business"; "corp"; "inc"; "ltd"; "llc"]%string.

Definition analyzeCompanyName (name : option string) : Check :=
  let invalid :=
    {| score := 55;
       flags := [ {| type := "invalid_company_name"; severity := high;
                     message := "Company name is too short or missing"; impact := -30 |} ] |} in
  match present name with
  | None => invalid
  | Some n =>
      if (String.length (trim n) <? 2)%nat then invalid
      else
        let nameLower := trim (toLowerCase n) in
        let c0 := {| score := 85; flags := [] |} in
        let c1 := penalize (ends_with_digits nameLower)
          {| type := "company_name_with_many_numbers"; severity := medium;
             message := "Company name ends with many numbers"; impact := -10 |} 10 c0 in
        let c2 := penalize
          (existsb (fun generic =>
             String.eqb nameLower generic || startsWith nameLower (generic ++ " "))
             genericNames)
          {| type := "generic_company_name"; severity := medium;
             message := "Company name is very generic"; impact := -5 |} 5 c1 in
        let c3 := penalize (String.eqb n (toUpperCase n) && (10 <? String.length n)%nat)
          {| type := "excessive_caps"; severity := low;
             message := "Company name is all capitals"; impact := -3 |} 3 c2 in
        floored c3
  end.

Definition vagueIndustries : list string :=
  ["other"; "various"; "multiple"; "general"]%string.

Definition analyzeIndustry (ind : option string) : Check :=
  match present ind with
  | Some i =>
      if (String.length (trim i) <? 2)%nat then
        {| score := 80;
           flags := [ {| type := "missing_industry"; severity := medium;
                         message := "Industry information is missing or too short";
                         impact := -10 |} ] |}
      else
        let industryLower := trim (toLowerCase i) in
        floored (penalize (mem_string industryLower vagueIndustries)
          {| type := "vague_industry"; severity := low;
             message := "Industry description is vague"; impact := -5 |} 5
          {| score := 90; flags := [] |})
  | None =>
      {| score := 80;
         flags := [ {| type := "missing_industry"; severity := medium;
                       message := "Industry information is missing or too short";
                       impact := -10 |} ] |}
  end.

Record Details : Type := {
  keywordScore : Q;
  emailDomainScore : Q;
  websiteScore : Q;
  phoneScore : Q;
  companyNameScore : Q;
  industryScore : Q;
  all_flags : list Flag
}.

Record Results : Type := {
  final : Z;                  (* [score] *)
  maxScore : Z;
  details : Details
}.

Definition categoryWeights : list ((Details -> Q) * Q) :=
  [ (keywordScore, 0.25); (emailDomainScore, 0.20); (websiteScore, 0.20);
    (phoneScore, 0.15); (companyNameScore, 0.15); (industryScore, 0.05) ].

Definition flagPenalty (fs : list Flag) : Q :=
  fold_left (fun penalty flag =>
    match severity flag with
    | high => penalty + 5
    | medium => penalty + 2
    | low => penalty + 1
    end) fs 0.

Definition calculateFinalScore (d : Details) : Z :=
  let weightedSum :=
    fold_left (fun sum cw => sum + fst cw d * snd cw) categoryWeights 0 in
  let totalWeight := fold_left (fun total cw => total + snd cw) categoryWeights 0 in
  let baseScore := if Qltb 0 totalWeight then weightedSum / totalWeight else 50 in
  let finalScore := Math_max 0 (Math_min 100 (baseScore - flagPenalty (all_flags d))) in
  Math_round finalScore.

(** scoreRecruiter: the [catch] block logs and rethrows, so an
    exception of a component is an exception of the call. *)
Definition scoreRecruiter (recruiterData : RecruiterData) : completion Results :=
  bind (checkKeywords recruiterData) (fun keywordResult =>
  bind (analyzeEmail (businessEmail recruiterData)) (fun emailResult =>
  bind (analyzeWebsite (websiteUrl recruiterData)) (fun websiteResult =>
  let phoneResult := analyzePhone (phoneNumber recruiterData) in
  let companyResult := analyzeCompanyName (companyName recruiterData) in
  let industryResult := analyzeIndustry (industry recruiterData) in
  let d :=
    {| keywordScore := score keywordResult;
       emailDomainScore := score emailResult;
       websiteScore := score websiteResult;
       phoneScore := score phoneResult;
       companyNameScore := score companyResult;
       industryScore := score industryResult;
       all_flags := flags keywordResult ++ flags emailResult ++ flags websiteResult
                    ++ flags phoneResult ++ flags companyResult ++ flags industryResult |} in
  Return {| final := calculateFinalScore d; maxScore := 100; details := d |}))).

End Analyses.

End RuleBasedScoring.

(** ** The scoring workflow (scoringWorkflow.js) *)

Module ScoringWorkflow.
Import JS.

Record Weights : Type := {
  ruleBased : Q;
  llm : Q;
  external : Q
}.

(** The fields of the service object set by its constructor. *)
Record Service : Type := {
  weights : Weights;
  spamThreshold : Q
}.

(** The constructor reads each setting from the environment; [None] is
    a variable that is unset or does not parse to a number. *)
Definition constructor (RULE_BASED_WEIGHT LLM_WEIGHT EXTERNAL_API_WEIGHT : option Q)
    (SPAM_THRESHOLD : option Z) : Service :=
  {| weights := {| ruleBased := or_number RULE_BASED_WEIGHT 0.3;
                   llm := or_number LLM_WEIGHT 0.4;
                   external := or_number EXTERNAL_API_WEIGHT 0.3 |};
     spamThreshold := or_number (option_map inject_Z SPAM_THRESHOLD) 70 |}.

Definition defaultService : Service := constructor None None None None.

(** The condition under which the constructor logs its warning. *)
Definition weightsWarning (w : Weights) : bool :=
  let totalWeight := 0 + ruleBased w + llm w + external w in
  Qltb 0.01 (Qabs (totalWeight - 1)).

Inductive ErrorValue : Type :=
| error_message (text : string)
| error_true.

(** What the workflow reads of the rule-based and of the LLM result. *)
Record Scored : Type := {
  score : option Q;
  confidence : option Q;
  error : option ErrorValue
}.

Definition numericScore (channel : option ExternalVerification.ChannelResult) : list Q :=
  match channel with
  | Some c =>
      match ExternalVerification.score c with
      | Some s => [s]
      | None => []
      end
  | None => []
  end.

Definition calculateExternalScore (externalData : option ExternalVerification.Results) : Q :=
  match externalData with
  | None => 50
  | Some d =>
      let scores :=
        numericScore (ExternalVerification.email d)
        ++ numericScore (ExternalVerification.phone d)
        ++ numericScore (ExternalVerification.company d)
        ++ numericScore (ExternalVerification.domain d) in
      match scores with
      | [] => 50
      | first :: rest => reduce_sum first rest / length_Q scores
      end
  end.

Definition average (first : Q) (rest : list Q) : Q :=
  reduce_sum first rest / length_Q (first :: rest).

(** [scores.reduce((sum, score) => sum + Math.pow(score - avg, 2), 0) / scores.length] *)
Definition variance (scores : list Q) (avg : Q) : Q :=
  fold_left (fun sum score => sum + (score - avg) * (score - avg)) scores 0
  / length_Q scores.

Definition consistency (ruleScore aiScore externalScore : Q) : Q :=
  variance [ruleScore; aiScore; externalScore]
           (average ruleScore [aiScore; externalScore]).

Definition allHigh (scores : list Q) : bool := forallb (fun s => Qltb 70 s) scores.
Definition allLow (scores : list Q) : bool := forallb (fun s => Qltb s 40) scores.

Definition calculateConfidence (ruleScore aiScore externalScore aiConfidence : Q) : Q :=
  let confidence := aiConfidence in
  let scores := [ruleScore; aiScore; externalScore] in
  let v := consistency ruleScore aiScore externalScore in
  let confidence :=
    if sqrt_gt v 20 then confidence - 15
    else if sqrt_gt v 10 then confidence - 8
    else confidence in
  let confidence :=
    if allHigh scores || allLow scores then confidence + 10 else confidence in
  Math_max 0 (Math_min 100 confidence).

Record Breakdown : Type := {
  ruleBasedWeighted : Q;
  llmWeighted : Q;
  externalWeighted : Q;
  usedWeights : Weights;
  rawScores : Q * Q * Q           (* ruleBased, llm, external *)
}.

Record FinalResults : Type := {
  finalScore : Z;
  finalConfidence : Z;            (* [confidence] *)
  breakdown : Breakdown
}.

Definition calculateFinalScore (this : Service) (ruleBasedScore llmScore : Scored)
    (externalVerification : option ExternalVerification.Results) : FinalResults :=
  let ruleScore := or_number (score ruleBasedScore) 50 in
  let aiScore := or_number (score llmScore) 50 in
  let externalScore := calculateExternalScore externalVerification in
  let w := weights this in
  let weightedScore :=
    ruleScore * ruleBased w + aiScore * llm w + externalScore * external w in
  let c := calculateConfidence ruleScore aiScore externalScore
             (or_number (confidence llmScore) 50) in
  {| finalScore := Math_round (Math_max 0 (Math_min 100 weightedScore));
     finalConfidence := Math_round c;
     breakdown :=
       {| ruleBasedWeighted := ruleScore * ruleBased w;
          llmWeighted := aiScore * llm w;
          externalWeighted := externalScore * external w;
          usedWeights := w;
          rawScores := (ruleScore, aiScore, externalScore) |} |}.

Inductive DecisionValue : Type := approved | flagged | pending_review.

Record Decision : Type := {
  decision : DecisionValue;
  recommendation : string
}.

Definition makeDecision (this : Service) (finalScore confidence : Q) : Decision :=
  if Qle_bool (spamThreshold this) finalScore && Qle_bool 70 confidence then
    {| decision := approved;
       recommendation := "Recruiter appears legitimate and can be auto-approved" |}
  else if Qltb finalScore 40 && Qle_bool 60 confidence then
    {| decision := flagged;
       recommendation := "High spam probability - recommend rejection" |}
  else if Qltb confidence 50 then
    {| decision := pending_review;
       recommendation := "Low confidence in assessment - requires human review" |}
  else
    {| decision := pending_review;
       recommendation := "Score in uncertain range - manual review recommended" |}.

Definition statusOf (d : DecisionValue) : string :=
  match d with
  | approved => "approved"
  | flagged => "flagged"
  | pending_review => "pending"
  end.

(** *** One scoring run (scoreRecruiter) *)

Record WorkflowError : Type := {
  source : string;
  cause : ErrorValue
}.

(** handlePromiseResult on the rule-based promise, as read by
    calculateFinalScore and collectAllErrors ... *)
Definition ruleView (r : Settled RuleBasedScoring.Results) : Scored :=
  match r with
  | fulfilled value =>
      {| score := Some (inject_Z (RuleBasedScoring.final value));
         confidence := None; error := None |}
  | rejected reason =>
      {| score := Some 50; confidence := None; error := Some (error_message reason) |}
  end.

(** ... and as read by the prompt builder of the LLM service. *)
Definition ruleContext (r : Settled RuleBasedScoring.Results) : LLMScoring.RuleContext :=
  match r with
  | fulfilled value =>
      {| LLMScoring.ctx_flags :=
           Some (List.length (RuleBasedScoring.all_flags (RuleBasedScoring.details value)));
         LLMScoring.ctx_score := inject_Z (RuleBasedScoring.final value) |}
  | rejected _ =>
      {| LLMScoring.ctx_flags := None; LLMScoring.ctx_score := 50 |}
  end.

(** handlePromiseResult on the external promise: the object built for a
    rejection has no channel at all. *)
Definition externalView (r : Settled ExternalVerification.Results)
  : ExternalVerification.Results :=
  match r with
  | fulfilled value => value
  | rejected reason =>
      {| ExternalVerification.email := None;
         ExternalVerification.phone := None;
         ExternalVerification.company := None;
         ExternalVerification.domain := None;
         ExternalVerification.apiCallsCount := 0;
         ExternalVerification.errors := [];
         ExternalVerification.failure := Some reason |}
  end.

Definition llmView (r : LLMScoring.Result) : Scored :=
  {| score := Some (inject_Z (LLMScoring.score r));
     confidence := Some (inject_Z (LLMScoring.confidence r));
     error := if LLMScoring.error r then Some error_true else None |}.

Definition truthy_error (e : option ErrorValue) : list ErrorValue :=
  match e with
  | Some (error_message EmptyString) => []
  | Some v => [v]
  | None => []
  end.

Definition collectAllErrors (rule llmResult : Scored)
    (ext : ExternalVerification.Results) : list WorkflowError :=
  map (fun v => {| source := "rule-based"; cause := v |}) (truthy_error (error rule))
  ++ map (fun v => {| source := "llm"; cause := v |}) (truthy_error (error llmResult))
  ++ map (fun v => {| source := "external"; cause := v |})
       (truthy_error (option_map error_message (ExternalVerification.failure ext)))
  ++ map (fun e => {| source := ExternalVerification.err_source e;
                      cause := error_message (ExternalVerification.err_message e) |})
       (ExternalVerification.errors ext).

(** The stored verification result. *)
Record VerificationResult : Type := {
  vr_recruiterId : string;
  vr_finalScore : Z;
  vr_decision : DecisionValue;
  vr_confidence : Z;
  vr_ruleBasedScore : option Q;
  vr_llmScore : LLMScoring.Result;
  vr_externalVerification : ExternalVerification.Results;
  vr_apiCallsCount : nat;
  vr_errors : list WorkflowError
}.

(** The value a successful run resolves to. *)
Record ScoringOutcome : Type := {
  recruiterId : string;
  out_finalScore : Z;
  out_decision : DecisionValue;
  out_confidence : Z;
  out_breakdown : Breakdown;
  out_recommendation : string;
  out_details : VerificationResult
}.

(** The collaborators of a run: the recruiter table, the three scoring
    services applied to a recruiter, and the two writes that end a run. *)
Record Collaborators : Type := {
  findByPk : string -> option RuleBasedScoring.RecruiterData;
  ruleBasedScoring :
    RuleBasedScoring.RecruiterData -> completion RuleBasedScoring.Results;
  externalVerification :
    RuleBasedScoring.RecruiterData -> completion ExternalVerification.Results;
  llmScoring :
    RuleBasedScoring.RecruiterData -> option LLMScoring.RuleContext
    -> completion LLMScoring.Result;
  store : VerificationResult -> completion unit
}.

(** scoreRecruiter. Its [catch] block records the failure and rethrows,
    so the call completes abruptly exactly when its body does. *)
Definition scoreRecruiter (this : Service) (env : Collaborators) (id : string)
  : completion ScoringOutcome :=
  match findByPk env id with
  | None => Throw ("Recruiter not found: " ++ id)
  | Some recruiter =>
      let ruleBasedResults := settle (ruleBasedScoring env recruiter) in
      let externalResults := settle (externalVerification env recruiter) in
      let processedRuleResults := ruleView ruleBasedResults in
      let processedExternalResults := externalView externalResults in
      bind (llmScoring env recruiter (Some (ruleContext ruleBasedResults))) (fun llmResults =>
      let finalResults :=
        calculateFinalScore this processedRuleResults (llmView llmResults)
          (Some processedExternalResults) in
      let d := makeDecision this (inject_Z (finalScore finalResults))
                 (inject_Z (finalConfidence finalResults)) in
      let verificationResult :=
        {| vr_recruiterId := id;
           vr_finalScore := finalScore finalResults;
           vr_decision := decision d;
           vr_confidence := finalConfidence finalResults;
           vr_ruleBasedScore := score processedRuleResults;
           vr_llmScore := llmResults;
           vr_externalVerification := processedExternalResults;
           vr_apiCallsCount := ExternalVerification.apiCallsCount processedExternalResults;
           vr_errors := collectAllErrors processedRuleResults (llmView llmResults)
                          processedExternalResults |} in
      bind (store env verificationResult) (fun _ =>
      Return {| recruiterId := id;
                out_finalScore := finalScore finalResults;
                out_decision := decision d;
                out_confidence := finalConfidence finalResults;
                out_breakdown := breakdown finalResults;
                out_recommendation := recommendation d;
                out_details := verificationResult |}))
  end.

(** *** Batch scoring (batchScoreRecruiters) *)

(** An element of [results]: one of the two objects the per-recruiter
    wrapper returns, or the reason of a promise that it left rejected. *)
Inductive BatchEntry : Type :=
| scored (id : string) (result : ScoringOutcome)   (* success: true *)
| failed (id : string) (message : string)          (* success: false *)
| reason (message : string).                       (* an Error: no success field *)

Definition success (e : BatchEntry) : bool :=
  match e with
  | scored _ _ => true
  | _ => false
  end.

Record BatchSummary : Type := {
  total : nat;
  successful : nat;
  failedCount : nat;              (* [failed] *)
  results : list BatchEntry
}.

Section Batch.
Variable this : Service.
Variable env : Collaborators.
Variable continueOnError : bool.

(** The wrapper mapped over a chunk, settled. *)
Definition scoreOne (id : string) : Settled BatchEntry :=
  settle
    (try_catch
       (bind (scoreRecruiter this env id) (fun result => Return (scored id result)))
       (fun message =>
          if continueOnError then Return (failed id message) else Throw message)).

Definition entryOf (r : Settled BatchEntry) : BatchEntry :=
  match r with
  | fulfilled value => value
  | rejected message => reason message
  end.

(** [for (let i = 0; i < recruiterIds.length; i += concurrency)], with
    [fuel] bounding the number of iterations; [None] when the bound
    is reached before the loop condition fails. *)
Fixpoint batchLoop (fuel : nat) (recruiterIds : list string) (concurrency i : nat)
    (acc : list BatchEntry) : option (list BatchEntry) :=
  if (i <? List.length recruiterIds)%nat then
    match fuel with
    | O => None
    | S fuel' =>
        let batch := firstn concurrency (skipn i recruiterIds) in
        let batchResults := map scoreOne batch in
        batchLoop fuel' recruiterIds concurrency (i + concurrency)
          (acc ++ map entryOf batchResults)
    end
  else Some acc.

Definition summarize (rs : list BatchEntry) : BatchSummary :=
  let ok := List.length (filter success rs) in
  {| total := List.length rs;
     successful := ok;
     failedCount := List.length rs - ok;
     results := rs |}.

Definition batchScoreRecruiters (fuel : nat) (recruiterIds : list string)
    (concurrency : nat) : option BatchSummary :=
  option_map summarize (batchLoop fuel recruiterIds concurrency 0 []).
End Batch.

End ScoringWorkflow.

(** ** The verification channels (externalVerification.js) *)

Module ExternalChannels.
Import JS ExternalVerification.

(** isValidApiKey, as a truth value; [None] is an unset variable. *)
Definition isValidApiKey (key : option string) : bool :=
  match key with
  | None => false
  | Some k =>
      negb (String.eqb k "")
      && negb (String.eqb (trim k) "")
      && negb (includes k "placeholder")
      && negb (includes k "your_")
      && negb (includes k "demo_")
      && negb (String.eqb k "your_gemini_api_key_here")
      && negb (String.eqb k "your_hunter_io_api_key")
      && negb (String.eqb k "your_clearbit_api_key")
      && negb (String.eqb k "your_numverify_api_key")
  end.

(** The two lookups of checkDNS, each settled. *)
Record DnsAnswer : Type := {
  mxResolved : bool;
  aResolved : bool
}.

Record DnsResult : Type := {
  dns_isValid : bool;
  hasMX : bool;
  hasA : bool
}.

Definition checkDNS (answer : DnsAnswer) : DnsResult :=
  {| dns_isValid := mxResolved answer || aResolved answer;
     hasMX := mxResolved answer;
     hasA := aResolved answer |}.

(** *** The email channel (verifyEmail) *)

(** [response.data.data] of the email verifier, the flags by their truth
    value. *)
Record HunterData : Type := {
  hd_result : string;
  hd_mx_records : bool;
  hd_smtp_server : bool;
  hd_smtp_check : bool
}.

Definition hunterScore (data : HunterData) : Q :=
  let score : Q :=
    if String.eqb (hd_result data) "deliverable" then 90
    else if String.eqb (hd_result data) "undeliverable" then 10
    else if String.eqb (hd_result data) "risky" then 30
    else 50 in
  let score := if hd_mx_records data then score + 5 else score in
  let score := if hd_smtp_server data then score + 5 else score in
  let score := if hd_smtp_check data then score + 10 else score in
  score.

Section Email.
Variable validator_isEmail : string -> bool.
Variable hunterKey : option string.

(** The [try] block; [dnsResult] is the answer to its DNS check, [call]
    what the request to the verifier (and the reading of its body) did. *)
Definition verifyEmail_try (dnsResult : DnsResult) (call : ApiOutcome HunterData)
  : completion ChannelResult :=
  if negb (isValidApiKey hunterKey) then
    Return {| isValid := dns_isValid dnsResult;
              score := Some (if dns_isValid dnsResult then 60 else 20);
              error := None; source := Some "dns"%string; apiCalled := false |}
  else
    match call with
    | ApiFailure m => Throw m
    | ApiResponse data =>
        Return {| isValid := String.eqb (hd_result data) "deliverable";
                  score := Some (Math_min 100 (hunterScore data));
                  error := None; source := Some "hunter"%string; apiCalled := true |}
    end.

(** verifyEmail; [retry] is the answer to the DNS check of the [catch]
    block. *)
Definition verifyEmail (email : option string) (first retry : DnsAnswer)
    (call : ApiOutcome HunterData) : completion ChannelResult :=
  let invalid :=
    {| isValid := false; score := Some 0; error := Some "Invalid email format"%string;
       source := Some "validation"%string; apiCalled := false |} in
  match email with
  | None | Some EmptyString => Return invalid
  | Some e =>
      if negb (validator_isEmail e) then Return invalid
      else
        try_catch (verifyEmail_try (checkDNS first) call)
          (fun message =>
             let dnsResult := checkDNS retry in
             Return {| isValid := dns_isValid dnsResult;
                       score := Some (if dns_isValid dnsResult then 40 else 10);
                       error := Some message; source := Some "dns"%string;
                       apiCalled := false |})
  end.
End Email.

(** *** The company channel (verifyCompany) *)

Record ClearbitData : Type := {
  cb_name : option string
}.

(** What the scraper reads off the fetched page. *)
Record Page : Type := {
  pg_contact : bool;
  pg_about : bool;
  pg_privacy : bool;
  pg_linkedin : bool;
  pg_twitter : bool;
  pg_facebook : bool;
  pg_length : nat
}.

Record WebData : Type := {
  hasContactPage : bool;
  hasAboutPage : bool;
  hasPrivacyPolicy : bool;
  linkedin : bool;
  twitter : bool;
  facebook : bool;
  contentLength : nat;
  isSSL : bool
}.

Definition scrapeWebsiteData (websiteUrl : string) (fetch : ApiOutcome Page)
  : completion WebData :=
  match fetch with
  | ApiFailure m => Throw m
  | ApiResponse page =>
      Return {| hasContactPage := pg_contact page;
                hasAboutPage := pg_about page;
                hasPrivacyPolicy := pg_privacy page;
                linkedin := pg_linkedin page;
                twitter := pg_twitter page;
                facebook := pg_facebook page;
                contentLength := pg_length page;
                isSSL := startsWith websiteUrl "https://" |}
  end.

Definition add_if (b : bool) (points score : Q) : Q :=
  if b then score + points else score.

Definition webBonus (webData : WebData) (score : Q) : Q :=
  add_if (5000 <? contentLength webData)%nat 5
    (add_if (twitter webData || facebook webData) 3
       (add_if (linkedin webData) 8
          (add_if (isSSL webData) 5
             (add_if (hasPrivacyPolicy webData) 3
                (add_if (hasAboutPage webData) 5
                   (add_if (hasContactPage webData) 5 score)))))).

(** [clearbitData.name && clearbitData.name.toLowerCase().includes(
    companyName.toLowerCase())]: reading the company name throws when it
    is missing and the lookup returned a name. *)
Definition nameMatches (companyName : option string) (clearbitData : ClearbitData)
  : completion bool :=
  match cb_name clearbitData with
  | None | Some EmptyString => Return false
  | Some name =>
      match companyName with
      | None => Throw "Cannot read properties of undefined (reading 'toLowerCase')"
      | Some company => Return (includes (toLowerCase name) (toLowerCase company))
      end
  end.

Definition combineCompanyData (companyName : option string)
    (clearbitData : option ClearbitData) (webData : option WebData)
  : completion ChannelResult :=
  bind (match clearbitData with
        | Some data => bind (nameMatches companyName data)
                         (fun matches => Return (add_if matches 10 85))
        | None => Return 40
        end) (fun afterClearbit =>
  let score :=
    match webData with
    | Some w =>
        webBonus w (match clearbitData with Some _ => afterClearbit | None => 60 end)
    | None => afterClearbit
    end in
  Return {| isValid := match clearbitData, webData with
                       | None, None => false
                       | _, _ => true
                       end;
            score := Some (Math_min 100 score);
            error := None;
            source := Some (match clearbitData with
                            | Some _ => "clearbit"
                            | None => "scraping"
                            end)%string;
            apiCalled := match clearbitData with Some _ => true | None => false end |}).

(** [try { data = await call } catch { }] with [data] initially [null]. *)
Definition attempt {A} (c : completion A) : option A :=
  match c with
  | Return a => Some a
  | Throw _ => None
  end.

Definition verifyCompany (clearbitKey : option string) (companyName websiteUrl : option string)
    (lookup : ApiOutcome ClearbitData) (fetch : ApiOutcome Page)
  : completion ChannelResult :=
  let url := match websiteUrl with Some EmptyString => None | other => other end in
  let clearbitData :=
    match url with
    | Some _ =>
        if isValidApiKey clearbitKey
        then match lookup with ApiResponse data => Some data | ApiFailure _ => None end
        else None
    | None => None
    end in
  let webScrapingData :=
    match url with
    | Some w => attempt (scrapeWebsiteData w fetch)
    | None => None
    end in
  try_catch (combineCompanyData companyName clearbitData webScrapingData)
    (fun message =>
       Return {| isValid := false; score := Some 30; error := Some message;
                 source := Some "verification"%string; apiCalled := false |}).

(** *** The domain channel (verifyDomain) *)

Section Domain.
Variable validator_isURL : string -> bool.          (* without options *)
Variable URL_parse : string -> option RuleBasedScoring.URL.

Definition verifyDomain_try (websiteUrl : option string) (answer : DnsAnswer)
  : completion ChannelResult :=
  let invalid :=
    {| isValid := false; score := Some 0; error := Some "Invalid URL"%string;
       source := Some "validation"%string; apiCalled := false |} in
  match websiteUrl with
  | None | Some EmptyString => Return invalid
  | Some w =>
      if negb (validator_isURL w) then Return invalid
      else
        match URL_parse w with
        | None => Throw "Invalid URL"
        | Some url =>
            let dnsResult := checkDNS answer in
            let score : Q := if dns_isValid dnsResult then 70 else 20 in
            let score :=
              add_if (String.eqb (RuleBasedScoring.protocol url) "https:") 10 score in
            let score :=
              add_if (List.length (split "." (RuleBasedScoring.hostname url)) <=? 2)%nat
                5 score in
            Return {| isValid := dns_isValid dnsResult;
                      score := Some (Math_min 100 score);
                      error := None; source := Some "dns"%string; apiCalled := false |}
        end
  end.

Definition verifyDomain (websiteUrl : option string) (answer : DnsAnswer)
  : completion ChannelResult :=
  try_catch (verifyDomain_try websiteUrl answer)
    (fun message =>
       Return {| isValid := false; score := Some 10; error := Some message;
                 source := Some "verification"%string; apiCalled := false |}).
End Domain.

(** *** verifyAll over the four channels *)

(** Everything outside the service that a verification depends on. *)
Record Providers : Type := {
  isEmail : string -> bool;
  isURL : string -> bool;
  parseURL : string -> option RuleBasedScoring.URL;
  hunterKey : option string;
  numverifyKey : option string;
  clearbitKey : option string;
  emailDns : DnsAnswer;
  emailDnsRetry : DnsAnswer;
  domainDns : DnsAnswer;
  hunterCall : ApiOutcome HunterData;
  numverifyCall : ApiOutcome NumverifyData;
  clearbitCall : ApiOutcome ClearbitData;
  pageFetch : ApiOutcome Page
}.

Definition verifyAllChannels (w : Providers) (recruiterData : RuleBasedScoring.RecruiterData)
  : Results :=
  verifyAll
    (settle (verifyEmail (isEmail w) (hunterKey w)
               (RuleBasedScoring.businessEmail recruiterData)
               (emailDns w) (emailDnsRetry w) (hunterCall w)))
    (settle (verifyPhone (isValidApiKey (numverifyKey w))
               (RuleBasedScoring.phoneNumber recruiterData) (numverifyCall w)))
    (settle (verifyCompany (clearbitKey w)
               (RuleBasedScoring.companyName recruiterData)
               (RuleBasedScoring.websiteUrl recruiterData)
               (clearbitCall w) (pageFetch w)))
    (settle (verifyDomain (isURL w) (parseURL w)
               (RuleBasedScoring.websiteUrl recruiterData) (domainDns w))).

End ExternalChannels.

(** ** The stored verification result (VerificationResult.js) *)

Module StoredResult.
Import JS ScoringWorkflow.

(** [channel?.score || 0] *)
Definition storedScore (channel : option ExternalVerification.ChannelResult) : Q :=
  match channel with
  | Some c => or_number (ExternalVerification.score c) 0
  | None => 0
  end.

Definition getExternalAPIWeightedScore
    (externalVerification : option ExternalVerification.Results) : Q :=
  match externalVerification with
  | None => 0
  | Some d =>
      let scores :=
        filter (fun s => Qltb 0 s)
          [ storedScore (ExternalVerification.email d);
            storedScore (ExternalVerification.phone d);
            storedScore (ExternalVerification.company d);
            storedScore (ExternalVerification.domain d) ] in
      match scores with
      | [] => 0
      | first :: rest => reduce_sum first rest / length_Q scores
      end
  end.

Record StoredBreakdown : Type := {
  sb_ruleBasedWeighted : option Q;      (* [None]: the product with a missing score *)
  sb_llmWeighted : Q;
  sb_externalWeighted : Q;
  sb_weights : Weights
}.

(** getScoreBreakdown; the weights are read from the environment again,
    with the defaults of the workflow. *)
Definition getScoreBreakdown (RULE_BASED_WEIGHT LLM_WEIGHT EXTERNAL_API_WEIGHT : option Q)
    (this : VerificationResult) : StoredBreakdown :=
  let ruleWeight := or_number RULE_BASED_WEIGHT 0.3 in
  let llmWeight := or_number LLM_WEIGHT 0.4 in
  let apiWeight := or_number EXTERNAL_API_WEIGHT 0.3 in
  {| sb_ruleBasedWeighted := option_map (fun s => s * ruleWeight) (vr_ruleBasedScore this);
     sb_llmWeighted := inject_Z (LLMScoring.score (vr_llmScore this)) * llmWeight;
     sb_externalWeighted :=
       getExternalAPIWeightedScore (Some (vr_externalVerification this)) * apiWeight;
     sb_weights := {| ruleBased := ruleWeight; llm := llmWeight; external := apiWeight |} |}.

End StoredResult.

(** ** Signup validation (middleware/validation.js) *)

Module Validation.
Import JS.

(** isValidPhone *)
Definition isValidPhone (value : string) : bool :=
  ExternalVerification.isBasicValid (ExternalVerification.cleanPhone value).

End Validation.

(** ** Notions used to state the properties *)

Module Audit.
Import JS.

(** The sum of the impacts of a list of flags. *)
Definition impactSum (fs : list RuleBasedScoring.Flag) : Q :=
  fold_right (fun f s => inject_Z (RuleBasedScoring.impact f) + s) 0 fs.

Definition hasType (t : string) (fs : list RuleBasedScoring.Flag) : bool :=
  existsb (fun f => String.eqb (RuleBasedScoring.type f) t) fs.

(** Before the floor at 0 the score of a check is its starting value plus
    the impacts of its flags, and at most the starting value. *)
Definition accounted (start : Q) (c : RuleBasedScoring.Check) : Prop :=
  RuleBasedScoring.score c == start + impactSum (RuleBasedScoring.flags c)
  /\ RuleBasedScoring.score c <= start.

(** The score of a finished check: the starting value plus the impacts of
    the flags, floored at 0. *)
Definition settled_at (start : Q) (c : RuleBasedScoring.Check) : Prop :=
  RuleBasedScoring.score c == Qmax 0 (start + impactSum (RuleBasedScoring.flags c))
  /\ 0 <= RuleBasedScoring.score c <= start.

(** The starting value of the website check: 75, and 5 more for a URL
    that is accepted, parses and uses HTTPS. *)
Definition websiteStart (isURL : string -> bool)
    (parseURL : string -> option RuleBasedScoring.URL) (website : option string) : Q :=
  match RuleBasedScoring.present website with
  | Some w =>
      if isURL w then
        match parseURL w with
        | Some url =>
            if String.eqb (RuleBasedScoring.protocol url) "https:" then 80 else 75
        | None => 75
        end
      else 75
  | None => 75
  end.

(** A recruiter on whom no check finds anything. *)
Definition spotless : RuleBasedScoring.RecruiterData :=
  {| RuleBasedScoring.fullName := Some "Sarah Johnson"%string;
     RuleBasedScoring.companyName := Some "TechCorp Solutions"%string;
     RuleBasedScoring.websiteUrl := Some "https://techcorp-solutions.com"%string;
     RuleBasedScoring.businessEmail := Some "sarah.johnson@techcorp-solutions.com"%string;
     RuleBasedScoring.phoneNumber := Some "+1-555-012-3456"%string;
     RuleBasedScoring.role := Some "Senior Technical Recruiter"%string;
     RuleBasedScoring.industry := Some "Technology"%string |}.

(** [d] with one more flag. *)
Definition withFlag (d : RuleBasedScoring.Details) (f : RuleBasedScoring.Flag)
  : RuleBasedScoring.Details :=
  {| RuleBasedScoring.keywordScore := RuleBasedScoring.keywordScore d;
     RuleBasedScoring.emailDomainScore := RuleBasedScoring.emailDomainScore d;
     RuleBasedScoring.websiteScore := RuleBasedScoring.websiteScore d;
     RuleBasedScoring.phoneScore := RuleBasedScoring.phoneScore d;
     RuleBasedScoring.companyNameScore := RuleBasedScoring.companyNameScore d;
     RuleBasedScoring.industryScore := RuleBasedScoring.industryScore d;
     RuleBasedScoring.all_flags := RuleBasedScoring.all_flags d ++ [f] |}.

(** A key that is not blank and has none of the three placeholder marks. *)
Definition usableKey (key : option string) : bool :=
  match key with
  | None => false
  | Some k =>
      negb (String.eqb (trim k) "")
      && negb (includes k "placeholder")
      && negb (includes k "your_")
      && negb (includes k "demo_")
  end.

(** The id a batch entry is about, when it names one. *)
Definition entryId (e : ScoringWorkflow.BatchEntry) : option string :=
  match e with
  | ScoringWorkflow.scored id _ => Some id
  | ScoringWorkflow.failed id _ => Some id
  | ScoringWorkflow.reason _ => None
  end.

(** The numeric scores of a channel list. *)
Definition scoreOf (c : ExternalVerification.ChannelResult) : Q :=
  match ExternalVerification.score c with
  | Some s => s
  | None => 0
  end.

End Audit.

(** ** The computations in the words of the specification *)

Module Spec.
Import JS ScoringWorkflow.

Definition clamp (x : Q) : Q := Qmax 0 (Qmin 100 x).

(** [finalScore = clamp(sum of score_i * weight_i, 0, 100)], rounded. *)
Definition finalScore (w : Weights) (ruleScore llmScore externalScore : Q) : Z :=
  Math_round
    (clamp (ruleScore * ruleBased w + llmScore * llm w + externalScore * external w)).

Definition mean (r a e : Q) : Q := (r + a + e) / 3.

(** The population variance of the three raw scores. *)
Definition variance (r a e : Q) : Q :=
  let m := mean r a e in
  ((r - m) * (r - m) + (a - m) * (a - m) + (e - m) * (e - m)) / 3.

(** The standard deviation of the three raw scores exceeds [t]. *)
Definition deviationExceeds (r a e t : Q) : bool := Qltb (t * t) (variance r a e).

Definition penalty (r a e : Q) : Q :=
  if deviationExceeds r a e 20 then 15
  else if deviationExceeds r a e 10 then 8
  else 0.

(** Agreement as claim C3 words it: all at least 70, or all below 40. *)
Definition agreementInclusive (r a e : Q) : bool :=
  (Qle_bool 70 r && Qle_bool 70 a && Qle_bool 70 e)
  || (Qltb r 40 && Qltb a 40 && Qltb e 40).

(** Agreement with a strict upper side: all above 70, or all below 40. *)
Definition agreementStrict (r a e : Q) : bool :=
  (Qltb 70 r && Qltb 70 a && Qltb 70 e)
  || (Qltb r 40 && Qltb a 40 && Qltb e 40).

Definition confidence (agreement : Q -> Q -> Q -> bool) (r a e c : Q) : Q :=
  clamp (c - penalty r a e + (if agreement r a e then 10 else 0)).

(** The sum of a list of scores, and their arithmetic mean. *)
Definition total (scores : list Q) : Q := fold_right Qplus 0 scores.

Definition arithmeticMean (scores : list Q) : Q := total scores / length_Q scores.

(** The scores of the channels whose result carries a numeric score. *)
Definition resolvedScores (d : ExternalVerification.Results) : list Q :=
  flat_map
    (fun channel =>
       match channel with
       | Some c =>
           match ExternalVerification.score c with
           | Some s => [s]
           | None => []
           end
       | None => []
       end)
    [ ExternalVerification.email d; ExternalVerification.phone d;
      ExternalVerification.company d; ExternalVerification.domain d ].

(** The score a settled channel brings to the aggregate. *)
Definition contribution (r : Settled ExternalVerification.ChannelResult) : option Q :=
  match r with
  | fulfilled value => ExternalVerification.score value
  | rejected _ => Some 10
  end.

(** What a batch entry says about which recruiter. *)
Inductive Verdict : Type :=
| succeeded (id : string)
| failedFor (id : string)
| anonymousError.

Definition verdict (e : BatchEntry) : Verdict :=
  match e with
  | scored id _ => succeeded id
  | failed id _ => failedFor id
  | reason _ => anonymousError
  end.

(** The neutral result of the semantic adapter: score 50, confidence 0,
    flagged as an error, manual review recommended. *)
Definition degraded (r : LLMScoring.Result) : Prop :=
  LLMScoring.score r = 50%Z /\ LLMScoring.confidence r = 0%Z
  /\ LLMScoring.error r = true
  /\ LLMScoring.recommendation r = "manual_review"%string.

End Spec.

(** ** Sample inputs *)

Module Samples.
Import JS ScoringWorkflow.

(** A channel result that carries the numeric score [s] and no error. *)
Definition channel (s : Q) : ExternalVerification.ChannelResult :=
  {| ExternalVerification.isValid := true;
     ExternalVerification.score := Some s;
     ExternalVerification.error := None;
     ExternalVerification.source := Some "dns"%string;
     ExternalVerification.apiCalled := false |}.

(** The verification results when all four channels resolve. *)
Definition channels (e p c d : Q) : option ExternalVerification.Results :=
  Some (ExternalVerification.verifyAll
          (fulfilled (channel e)) (fulfilled (channel p))
          (fulfilled (channel c)) (fulfilled (channel d))).

Definition ruleResult (s : Q) : Scored :=
  {| score := Some s; confidence := None; error := None |}.

Definition llmResult (s c : Q) : Scored :=
  {| score := Some s; confidence := Some c; error := None |}.

(** A result object with its score, or its confidence, replaced. *)
Definition withScore (s : Scored) (v : Q) : Scored :=
  {| score := Some v; confidence := confidence s; error := error s |}.

Definition withConfidence (s : Scored) (v : Q) : Scored :=
  {| score := score s; confidence := Some v; error := error s |}.

(** A parsed payload whose score is out of range and whose confidence is
    not a number. *)
Definition invalidPayload : LLMScoring.json :=
  LLMScoring.JObject
    [ ("score"%string, LLMScoring.JNumber 150);
      ("confidence"%string, LLMScoring.JString "high");
      ("reasoning"%string, LLMScoring.JString "Looks fine") ].

(** A parser that knows one response text. *)
Definition parseOnly (known : string) (value : LLMScoring.json) (text : string)
  : option LLMScoring.json :=
  if String.eqb text known then Some value else None.

(** A payload as the prompt asks for it. *)
Definition goodPayload : LLMScoring.json :=
  LLMScoring.JObject
    [ ("score"%string, LLMScoring.JNumber 88);
      ("confidence"%string, LLMScoring.JNumber 85);
      ("reasoning"%string, LLMScoring.JString "Consistent professional profile");
      ("redFlags"%string, LLMScoring.JArray []);
      ("positiveIndicators"%string, LLMScoring.JArray [LLMScoring.JString "Business domain"]);
      ("recommendation"%string, LLMScoring.JString "approve") ].

Definition recruiter : RuleBasedScoring.RecruiterData :=
  {| RuleBasedScoring.fullName := Some "Sarah Johnson"%string;
     RuleBasedScoring.companyName := Some "TechCorp Solutions"%string;
     RuleBasedScoring.websiteUrl := Some "https://techcorp-solutions.com"%string;
     RuleBasedScoring.businessEmail := Some "sarah.johnson@techcorp-solutions.com"%string;
     RuleBasedScoring.phoneNumber := Some "+1-555-0123"%string;
     RuleBasedScoring.role := Some "Senior Technical Recruiter"%string;
     RuleBasedScoring.industry := Some "Technology"%string |}.

(** The same recruiter without a company name. *)
Definition recruiterWithoutCompany : RuleBasedScoring.RecruiterData :=
  {| RuleBasedScoring.fullName := Some "Sarah Johnson"%string;
     RuleBasedScoring.companyName := None;
     RuleBasedScoring.websiteUrl := Some "https://techcorp-solutions.com"%string;
     RuleBasedScoring.businessEmail := Some "sarah.johnson@techcorp-solutions.com"%string;
     RuleBasedScoring.phoneNumber := Some "+1-555-0123"%string;
     RuleBasedScoring.role := Some "Senior Technical Recruiter"%string;
     RuleBasedScoring.industry := Some "Technology"%string |}.

(** Stand-ins for the validator package and the URL class. *)
Definition isEmail (s : string) : bool := includes s "@".
Definition isURL (s : string) : bool := startsWith s "http://" || startsWith s "https://".
Definition parseURL (s : string) : option RuleBasedScoring.URL :=
  if startsWith s "https://"
  then Some {| RuleBasedScoring.protocol := "https:";
               RuleBasedScoring.hostname := drop 8 s |}
  else if startsWith s "http://"
  then Some {| RuleBasedScoring.protocol := "http:";
               RuleBasedScoring.hostname := drop 7 s |}
  else None.

(** Collaborators over a recruiter table: the rule-based service itself,
    four resolved channels, a provider that answers with [goodPayload],
    and a store that accepts every result. *)
Definition collaborators (table : string -> option RuleBasedScoring.RecruiterData)
  : Collaborators :=
  {| findByPk := table;
     ruleBasedScoring := RuleBasedScoring.scoreRecruiter isEmail isURL parseURL;
     externalVerification := fun _ =>
       Return (ExternalVerification.verifyAll
                 (fulfilled (channel 60)) (fulfilled (channel 50))
                 (fulfilled (channel 78)) (fulfilled (channel 85)));
     llmScoring := fun _ ctx =>
       LLMScoring.scoreRecruiter (parseOnly "payload" goodPayload) true "gemini-pro"
         ctx (LLMScoring.ResponseText "payload");
     store := fun _ => Return tt |}.

(** A table that knows every id but [missing]. *)
Definition tableWithout (missing id : string) : option RuleBasedScoring.RecruiterData :=
  if String.eqb id missing then None else Some recruiter.

End Samples.

(** ** Further sample inputs *)

Module Cases.
Import JS ScoringWorkflow.

(** [data] with another role. *)
Definition withRole (data : RuleBasedScoring.RecruiterData) (r : string)
  : RuleBasedScoring.RecruiterData :=
  {| RuleBasedScoring.fullName := RuleBasedScoring.fullName data;
     RuleBasedScoring.companyName := RuleBasedScoring.companyName data;
     RuleBasedScoring.websiteUrl := RuleBasedScoring.websiteUrl data;
     RuleBasedScoring.businessEmail := RuleBasedScoring.businessEmail data;
     RuleBasedScoring.phoneNumber := RuleBasedScoring.phoneNumber data;
     RuleBasedScoring.role := Some r;
     RuleBasedScoring.industry := RuleBasedScoring.industry data |}.

End Cases.

(** * Properties *)

Import JS.

(** ** Facts about the JavaScript fragment *)

Lemma Qltb_true (x y : Q) : Qltb x y = true <-> x < y.
Proof.
  unfold Qltb. rewrite negb_true_iff, <- not_true_iff_false, Qle_bool_iff.
  split; intro H; [apply Qnot_le_lt | apply Qlt_not_le]; exact H.
Qed.

Lemma Qltb_false (x y : Q) : Qltb x y = false <-> y <= x.
Proof.
  unfold Qltb. rewrite negb_false_iff. apply Qle_bool_iff.
Qed.

Lemma Qle_bool_false (x y : Q) : Qle_bool x y = false <-> y < x.
Proof.
  rewrite <- not_true_iff_false, Qle_bool_iff.
  split; intro H; [apply Qnot_le_lt | apply Qlt_not_le]; exact H.
Qed.

(** Turns every comparison test of the goal into a fact in the context. *)
Ltac tests :=
  repeat match goal with
    | |- context [Qle_bool ?x ?y] =>
        let E := fresh "E" in
        destruct (Qle_bool x y) eqn:E;
        [apply Qle_bool_iff in E | apply Qle_bool_false in E]
    | |- context [Qltb ?x ?y] =>
        let E := fresh "E" in
        destruct (Qltb x y) eqn:E;
        [apply Qltb_true in E | apply Qltb_false in E]
    end.

Lemma clamp_range (x : Q) : 0 <= Math_max 0 (Math_min 100 x) <= 100.
Proof.
  unfold Math_max, Math_min.
  destruct (Q.max_spec 0 (Qmin 100 x)) as [[H E] | [H E]];
  destruct (Q.min_spec 100 x) as [[H' E'] | [H' E']];
  rewrite E; rewrite ?E' in *; lra.
Qed.

Lemma clamp_inside (x : Q) : 0 <= x <= 100 -> Math_max 0 (Math_min 100 x) == x.
Proof.
  intros Hx. unfold Math_max, Math_min.
  destruct (Q.max_spec 0 (Qmin 100 x)) as [[H E] | [H E]];
  destruct (Q.min_spec 100 x) as [[H' E'] | [H' E']];
  rewrite E; rewrite ?E' in *; lra.
Qed.

Lemma clamp_below (x : Q) : x <= 0 -> Math_max 0 (Math_min 100 x) == 0.
Proof.
  intros Hx. unfold Math_max, Math_min.
  destruct (Q.max_spec 0 (Qmin 100 x)) as [[H E] | [H E]];
  destruct (Q.min_spec 100 x) as [[H' E'] | [H' E']];
  rewrite E; rewrite ?E' in *; lra.
Qed.

Lemma clamp_above (x : Q) : 100 <= x -> Math_max 0 (Math_min 100 x) == 100.
Proof.
  intros Hx. unfold Math_max, Math_min.
  destruct (Q.max_spec 0 (Qmin 100 x)) as [[H E] | [H E]];
  destruct (Q.min_spec 100 x) as [[H' E'] | [H' E']];
  rewrite E; rewrite ?E' in *; lra.
Qed.

Lemma Math_round_Z (z : Z) : Math_round (inject_Z z) = z.
Proof.
  unfold Math_round.
  assert (L : (z <= Qfloor (inject_Z z + (1 # 2)))%Z).
  { rewrite <- (Qfloor_Z z) at 1. apply Qfloor_resp_le. lra. }
  assert (U : (Qfloor (inject_Z z + (1 # 2)) < z + 1)%Z).
  { rewrite Zlt_Qlt.
    apply Qle_lt_trans with (inject_Z z + (1 # 2)); [apply Qfloor_le |].
    rewrite inject_Z_plus. change (inject_Z 1) with 1. lra. }
  lia.
Qed.

Lemma Math_round_le (x y : Q) : x <= y -> (Math_round x <= Math_round y)%Z.
Proof.
  intros H. unfold Math_round. apply Qfloor_resp_le. lra.
Qed.

Lemma Math_round_eq (x y : Q) : x == y -> Math_round x = Math_round y.
Proof.
  intros H. unfold Math_round. apply Qfloor_comp. rewrite H. reflexivity.
Qed.

(** Rounding keeps a gap of at least one. *)
Lemma Math_round_lt (x y : Q) : x + 1 <= y -> (Math_round x < Math_round y)%Z.
Proof.
  intros H. unfold Math_round.
  assert (S1 : (Qfloor (x + (1 # 2)) + 1 <= Qfloor (y + (1 # 2)))%Z).
  { rewrite <- (Qfloor_Z (Qfloor (x + (1 # 2)) + 1)).
    apply Qfloor_resp_le. rewrite inject_Z_plus. change (inject_Z 1) with 1.
    pose proof (Qfloor_le (x + (1 # 2))). lra. }
  lia.
Qed.

Lemma Math_round_range (x : Q) : 0 <= x <= 100 -> (0 <= Math_round x <= 100)%Z.
Proof.
  intros [L U]. split.
  - change 0%Z with (Math_round 0). apply Math_round_le, L.
  - change 100%Z with (Math_round 100). apply Math_round_le, U.
Qed.

(** [sqrt_gt] is the comparison of the real square root with the threshold. *)
Lemma sqrt_gt_real (v t : Q) :
  0 <= t -> 0 <= v -> (sqrt_gt v t = true <-> (Q2R t < sqrt (Q2R v))%R).
Proof.
  intros Ht Hv. unfold sqrt_gt. rewrite Qltb_true.
  apply Qle_Rle in Ht, Hv. rewrite RMicromega.Q2R_0 in Ht, Hv.
  split; intro H.
  - apply Qlt_Rlt in H. rewrite Q2R_mult in H.
    rewrite <- (sqrt_square (Q2R t)) by exact Ht.
    apply sqrt_lt_1_alt. split; [apply Rmult_le_pos; exact Ht | exact H].
  - apply Rlt_Qlt. rewrite Q2R_mult.
    rewrite <- (sqrt_sqrt (Q2R v)) at 1 by exact Hv.
    apply Rmult_le_0_lt_compat; assumption.
Qed.

(** ** The decision *)

Import ScoringWorkflow.

Lemma decision_makeDecision (this : Service) (finalScore confidence : Q) :
  decision (makeDecision this finalScore confidence) =
  if Qle_bool (spamThreshold this) finalScore && Qle_bool 70 confidence then approved
  else if Qltb finalScore 40 && Qle_bool 60 confidence then flagged
  else pending_review.
Proof.
  unfold makeDecision.
  destruct (Qle_bool (spamThreshold this) finalScore && Qle_bool 70 confidence);
    [reflexivity |].
  destruct (Qltb finalScore 40 && Qle_bool 60 confidence); [reflexivity |].
  destruct (Qltb confidence 50); reflexivity.
Qed.

(** C2. Under the default thresholds the decision is: approved exactly
    when the final score is at least 70 and the confidence at least 70;
    flagged exactly when the final score is below 40 and the confidence
    at least 60; pending review whenever the confidence is below 50, and
    in every remaining case. The four boundary cases of the specification
    follow. *)
Theorem makeDecision_default_thresholds (finalScore confidence : Q) :
  0 <= finalScore <= 100 ->
  0 <= confidence <= 100 ->
  (decision (makeDecision defaultService finalScore confidence) = approved
     <-> 70 <= finalScore /\ 70 <= confidence)
  /\ (decision (makeDecision defaultService finalScore confidence) = flagged
     <-> finalScore < 40 /\ 60 <= confidence)
  /\ (confidence < 50 ->
      decision (makeDecision defaultService finalScore confidence) = pending_review)
  /\ (~ (70 <= finalScore /\ 70 <= confidence) ->
      ~ (finalScore < 40 /\ 60 <= confidence) ->
      decision (makeDecision defaultService finalScore confidence) = pending_review)
  /\ decision (makeDecision defaultService 70 70) = approved
  /\ decision (makeDecision defaultService 69 70) = pending_review
  /\ decision (makeDecision defaultService 39 60) = flagged
  /\ decision (makeDecision defaultService finalScore 49) = pending_review.
Proof.
  intros Hs Hc.
  rewrite !decision_makeDecision.
  change (spamThreshold defaultService) with 70.
  repeat match goal with |- _ /\ _ => split end; try reflexivity.
  - tests; cbn; split; intros H; try discriminate; try (destruct H); try lra;
      try reflexivity; split; lra.
  - tests; cbn; split; intros H; try discriminate; try (destruct H); try lra;
      try reflexivity; split; lra.
  - intros H. tests; cbn; try reflexivity; lra.
  - intros H1 H2. tests; cbn; try reflexivity; exfalso;
      first [apply H1; split; lra | apply H2; split; lra].
  - tests; cbn in *; try reflexivity; lra.
Qed.

Lemma makeDecision_default_thresholds_witness :
  decision (makeDecision defaultService 85 90) = approved.
Proof.
  assert (Hs : 0 <= 85 <= 100) by (split; lra).
  assert (Hc : 0 <= 90 <= 100) by (split; lra).
  destruct (makeDecision_default_thresholds 85 90 Hs Hc) as [H _].
  apply H. split; lra.
Defined.

(** ** The weighted score and the confidence *)

Lemma clamp_cases (x : Q) :
  (x <= 0 /\ Math_max 0 (Math_min 100 x) == 0)
  \/ (0 <= x <= 100 /\ Math_max 0 (Math_min 100 x) == x)
  \/ (100 <= x /\ Math_max 0 (Math_min 100 x) == 100).
Proof.
  destruct (Qlt_le_dec x 0) as [L | L].
  - left. split; [lra | apply clamp_below; lra].
  - destruct (Qlt_le_dec 100 x) as [U | U].
    + right; right. split; [lra | apply clamp_above; lra].
    + right; left. split; [lra | apply clamp_inside; lra].
Qed.

(** Replaces every clamp of the goal by its value, case by case. *)
Ltac clamps :=
  repeat match goal with
    | |- context [Math_max 0 (Math_min 100 ?x)] =>
        let E := fresh "E" in
        destruct (clamp_cases x) as [[? E] | [[? E] | [? E]]];
        rewrite E; clear E
    end.

Lemma clamp_eq (x y : Q) :
  x == y -> Math_max 0 (Math_min 100 x) == Math_max 0 (Math_min 100 y).
Proof.
  intros H. clamps; lra.
Qed.

Lemma Qltb_compat (x x' y y' : Q) : x == x' -> y == y' -> Qltb x y = Qltb x' y'.
Proof.
  intros Hx Hy.
  destruct (Qltb x y) eqn:E; destruct (Qltb x' y') eqn:E'; try reflexivity;
    rewrite ?Qltb_true, ?Qltb_false in *; lra.
Qed.

Lemma or_number_zero (v d : Q) : v == 0 -> or_number (Some v) d = d.
Proof.
  intros H. unfold or_number. apply Qeq_bool_iff in H. rewrite H. reflexivity.
Qed.

Lemma or_number_nonzero (v d : Q) : ~ v == 0 -> or_number (Some v) d = v.
Proof.
  intros H. unfold or_number.
  destruct (Qeq_bool v 0) eqn:E; [| reflexivity].
  apply Qeq_bool_iff in E. contradiction.
Qed.

Lemma consistency_variance (r a e : Q) : consistency r a e == Spec.variance r a e.
Proof.
  unfold consistency, variance, average, reduce_sum, Spec.variance, Spec.mean, length_Q.
  cbn [fold_left List.length Z.of_nat Pos.of_succ_nat Pos.succ inject_Z].
  field.
Qed.

(** The variance is a ninth of the sum of the squared pairwise distances. *)
Lemma variance_pairwise (r a e : Q) :
  Spec.variance r a e
  == ((r - a) * (r - a) + (a - e) * (a - e) + (r - e) * (r - e)) * (1 # 9).
Proof.
  unfold Spec.variance, Spec.mean. field.
Qed.

Lemma agreement_strict (r a e : Q) :
  allHigh [r; a; e] || allLow [r; a; e] = Spec.agreementStrict r a e.
Proof.
  unfold allHigh, allLow, Spec.agreementStrict. cbn [forallb].
  rewrite !andb_true_r, !andb_assoc. reflexivity.
Qed.

(** calculateConfidence computes the confidence of the specification with
    the strict reading of agreement. *)
Lemma calculateConfidence_spec (r a e c : Q) :
  calculateConfidence r a e c == Spec.confidence Spec.agreementStrict r a e c.
Proof.
  unfold calculateConfidence, Spec.confidence, Spec.clamp, Spec.penalty,
    Spec.deviationExceeds, sqrt_gt.
  rewrite agreement_strict.
  rewrite (Qltb_compat (20 * 20) (20 * 20) _ _ (Qeq_refl _) (consistency_variance r a e)).
  rewrite (Qltb_compat (10 * 10) (10 * 10) _ _ (Qeq_refl _) (consistency_variance r a e)).
  apply clamp_eq.
  destruct (Qltb (20 * 20) (Spec.variance r a e));
    [| destruct (Qltb (10 * 10) (Spec.variance r a e))];
    destruct (Spec.agreementStrict r a e); lra.
Qed.

(** Whatever the inputs and the weights, the final score and the
    confidence of a run lie in [0,100]. *)
Lemma calculateFinalScore_range (this : Service) (rule llmS : Scored)
    (ext : option ExternalVerification.Results) :
  (0 <= finalScore (calculateFinalScore this rule llmS ext) <= 100)%Z
  /\ (0 <= finalConfidence (calculateFinalScore this rule llmS ext) <= 100)%Z.
Proof.
  unfold calculateFinalScore, calculateConfidence. cbn [finalScore finalConfidence].
  split; apply Math_round_range, clamp_range.
Qed.

(** When neither the rule-based nor the LLM score is zero, the final
    score is the clamped and rounded weighted sum of the three scores. *)
Lemma calculateFinalScore_weighted (this : Service) (rule llmS : Scored)
    (ext : option ExternalVerification.Results) (r a : Q) :
  score rule = Some r -> score llmS = Some a -> ~ r == 0 -> ~ a == 0 ->
  finalScore (calculateFinalScore this rule llmS ext)
  = Spec.finalScore (weights this) r a (calculateExternalScore ext).
Proof.
  intros Hr Ha Nr Na. unfold calculateFinalScore, Spec.finalScore, Spec.clamp.
  cbn [finalScore]. rewrite Hr, Ha, !or_number_nonzero by assumption.
  reflexivity.
Qed.

(** C1, at a rule-based score of 0. With the default weights and the raw
    scores 0 (rule-based), 20 (LLM) and 20 (external) the weighted sum of
    the specification is 14; the workflow takes the rule-based score for
    50 and returns 29. *)
Theorem calculateFinalScore_zero_rule_score :
  Spec.finalScore (weights defaultService) 0 20 20 = 14%Z
  /\ calculateExternalScore (Samples.channels 20 20 20 20) == 20
  /\ finalScore (calculateFinalScore defaultService
                   (Samples.ruleResult 0) (Samples.llmResult 20 80)
                   (Samples.channels 20 20 20 20)) = 29%Z.
Proof.
  split; [| split]; vm_compute; reflexivity.
Qed.

(** C3 as stated fails at three raw scores of exactly 70: the code gives
    no agreement bonus there, the claim does. *)
Lemma confidence_at_seventy :
  calculateExternalScore (Samples.channels 70 70 70 70) == 70
  /\ finalConfidence (calculateFinalScore defaultService
                        (Samples.ruleResult 70) (Samples.llmResult 70 60)
                        (Samples.channels 70 70 70 70)) = 60%Z
  /\ Math_round (Spec.confidence Spec.agreementInclusive 70 70 70 60) = 70%Z
  /\ finalConfidence (calculateFinalScore defaultService
                        (Samples.ruleResult 70) (Samples.llmResult 70 60)
                        (Samples.channels 70 70 70 70))
     <> Math_round (Spec.confidence Spec.agreementInclusive 70 70 70 60).
Proof.
  repeat split; try (vm_compute; reflexivity).
  vm_compute. discriminate.
Qed.

(** On an integer base confidence the confidence is an integer, so the
    final rounding leaves it as it is. *)
Lemma confidence_integer (r a e : Q) (z : Z) :
  exists k : Z, calculateConfidence r a e (inject_Z z) == inject_Z k.
Proof.
  assert (C : forall k : Z, exists m : Z,
             Math_max 0 (Math_min 100 (inject_Z k)) == inject_Z m).
  { intros k. destruct (clamp_cases (inject_Z k)) as [[_ E] | [[_ E] | [_ E]]].
    - exists 0%Z. exact E.
    - exists k. exact E.
    - exists 100%Z. exact E. }
  assert (S : forall k : Z, inject_Z z + inject_Z k == inject_Z (z + k))
    by (intros k; rewrite inject_Z_plus; reflexivity).
  unfold calculateConfidence.
  destruct (sqrt_gt (consistency r a e) 20);
    [| destruct (sqrt_gt (consistency r a e) 10)];
    destruct (allHigh [r; a; e] || allLow [r; a; e]).
  - destruct (C (z + -5)%Z) as [m E]. exists m. rewrite <- E. apply clamp_eq.
    rewrite <- S. change (inject_Z (-5)) with (-5 # 1). lra.
  - destruct (C (z + -15)%Z) as [m E]. exists m. rewrite <- E. apply clamp_eq.
    rewrite <- S. change (inject_Z (-15)) with (-15 # 1). lra.
  - destruct (C (z + 2)%Z) as [m E]. exists m. rewrite <- E. apply clamp_eq.
    rewrite <- S. change (inject_Z 2) with 2. lra.
  - destruct (C (z + -8)%Z) as [m E]. exists m. rewrite <- E. apply clamp_eq.
    rewrite <- S. change (inject_Z (-8)) with (-8 # 1). lra.
  - destruct (C (z + 10)%Z) as [m E]. exists m. rewrite <- E. apply clamp_eq.
    rewrite <- S. change (inject_Z 10) with 10. lra.
  - destruct (C z) as [m E]. exists m. exact E.
Qed.

(** C3, amended. For non-zero rule-based and LLM scores and a non-zero
    LLM confidence, the confidence of a run is: the LLM confidence, minus
    15 if the standard deviation of the three raw scores exceeds 20, else
    minus 8 if it exceeds 10, plus 10 if all three raw scores are above
    70 or all are below 40, clamped to [0,100] and rounded; the rounding
    changes nothing when the LLM confidence is an integer. *)
Theorem confidence_as_amended (this : Service) (rule llmS : Scored)
    (ext : option ExternalVerification.Results) (r a c : Q) :
  score rule = Some r -> score llmS = Some a -> confidence llmS = Some c ->
  0 < r <= 100 -> 0 < a <= 100 -> 0 < c <= 100 ->
  0 <= calculateExternalScore ext <= 100 ->
  finalConfidence (calculateFinalScore this rule llmS ext)
  = Math_round (Spec.confidence Spec.agreementStrict r a (calculateExternalScore ext) c)
  /\ (forall z : Z, c = inject_Z z ->
      inject_Z (finalConfidence (calculateFinalScore this rule llmS ext))
      == Spec.confidence Spec.agreementStrict r a (calculateExternalScore ext) c).
Proof.
  intros Hr Ha Hc Rr Ra Rc Re. unfold calculateFinalScore. cbn [finalConfidence].
  rewrite Hr, Ha, Hc, !or_number_nonzero by lra.
  split.
  - apply Math_round_eq, calculateConfidence_spec.
  - intros z ->.
    destruct (confidence_integer r a (calculateExternalScore ext) z) as [k E].
    rewrite (Math_round_eq _ _ E), Math_round_Z, <- E.
    apply calculateConfidence_spec.
Qed.

Lemma confidence_as_amended_witness :
  finalConfidence (calculateFinalScore defaultService
                     (Samples.ruleResult 85) (Samples.llmResult 90 80)
                     (Samples.channels 80 90 85 85))
  = Math_round (Spec.confidence Spec.agreementStrict 85 90
                  (calculateExternalScore (Samples.channels 80 90 85 85)) 80).
Proof.
  apply (confidence_as_amended defaultService _ _ _ 85 90 80);
    try reflexivity; try (split; lra).
  split; vm_compute; discriminate.
Defined.

Lemma square_nonneg (z : Q) : 0 <= z * z.
Proof.
  destruct (Qlt_le_dec z 0) as [N | P].
  - setoid_replace (z * z) with ((- z) * (- z)) by ring.
    apply Qmult_le_0_compat; lra.
  - apply Qmult_le_0_compat; exact P.
Qed.

(** Three scores in [80,100] deviate by less than 10 and all count as high. *)
Lemma high_scores_agree (r a e : Q) :
  80 <= r <= 100 -> 80 <= a <= 100 -> 80 <= e <= 100 ->
  Spec.penalty r a e = 0 /\ Spec.agreementStrict r a e = true.
Proof.
  intros Hr Ha He.
  assert (V : Spec.variance r a e <= 100).
  { rewrite variance_pairwise.
    assert (0 <= (100 - r) * ((100 - a) * (100 - e)))
      by (apply Qmult_le_0_compat; [lra | apply Qmult_le_0_compat; lra]).
    assert (0 <= (r - 80) * ((a - 80) * (e - 80)))
      by (apply Qmult_le_0_compat; [lra | apply Qmult_le_0_compat; lra]).
    nra. }
  split.
  - unfold Spec.penalty, Spec.deviationExceeds.
    destruct (Qltb (20 * 20) (Spec.variance r a e)) eqn:E1;
      [apply Qltb_true in E1; lra |].
    destruct (Qltb (10 * 10) (Spec.variance r a e)) eqn:E2;
      [apply Qltb_true in E2; lra | reflexivity].
  - unfold Spec.agreementStrict.
    assert (T : forall x, 80 <= x -> Qltb 70 x = true) by (intros; apply Qltb_true; lra).
    rewrite !T by lra. reflexivity.
Qed.

(** Two scores in [80,100] and a third of 20 deviate by more than 20 and
    agree on neither side. *)
Lemma outlier_disagrees (x y : Q) :
  80 <= x <= 100 -> 80 <= y <= 100 ->
  (Spec.penalty 20 x y = 15 /\ Spec.agreementStrict 20 x y = false)
  /\ (Spec.penalty x 20 y = 15 /\ Spec.agreementStrict x 20 y = false)
  /\ (Spec.penalty x y 20 = 15 /\ Spec.agreementStrict x y 20 = false).
Proof.
  intros Hx Hy.
  assert (Sx : 3600 <= (x - 20) * (x - 20)) by nra.
  assert (Sy : 3600 <= (y - 20) * (y - 20)) by nra.
  assert (Sxy : 0 <= (x - y) * (x - y)) by apply square_nonneg.
  assert (H20 : Qltb 70 20 = false) by reflexivity.
  assert (L20 : Qltb 20 40 = true) by reflexivity.
  assert (Hi : forall z, 80 <= z -> Qltb 70 z = true) by (intros; apply Qltb_true; lra).
  assert (Lo : forall z, 80 <= z -> Qltb z 40 = false) by (intros; apply Qltb_false; lra).
  unfold Spec.penalty, Spec.deviationExceeds, Spec.agreementStrict.
  rewrite H20, L20, !Hi, !Lo by lra. cbn [andb orb].
  repeat split; try reflexivity;
    match goal with
    | |- (if Qltb ?t ?v then _ else _) = _ =>
        let E := fresh "E" in
        destruct (Qltb t v) eqn:E; [reflexivity |];
        apply Qltb_false in E; rewrite variance_pairwise in E; exfalso; nra
    end.
Qed.

(** The clamp keeps the 25 points between bonus and high penalty apart
    by at least 10. *)
Lemma bonus_beats_penalty (c : Q) :
  0 <= c <= 100 ->
  Spec.clamp (c - 15 + 0) + 10 <= Spec.clamp (c - 0 + 10).
Proof.
  intros Hc. unfold Spec.clamp.
  change (Qmax 0 (Qmin 100 (c - 15 + 0))) with (Math_max 0 (Math_min 100 (c - 15 + 0))).
  change (Qmax 0 (Qmin 100 (c - 0 + 10))) with (Math_max 0 (Math_min 100 (c - 0 + 10))).
  clamps; lra.
Qed.

(** Equal numbers give equal confidences. *)
Lemma calculateConfidence_compat (r r' a a' e e' c c' : Q) :
  r == r' -> a == a' -> e == e' -> c == c' ->
  calculateConfidence r a e c == calculateConfidence r' a' e' c'.
Proof.
  intros Hr Ha He Hc. rewrite !calculateConfidence_spec.
  assert (V : Spec.variance r a e == Spec.variance r' a' e').
  { unfold Spec.variance, Spec.mean. rewrite Hr, Ha, He. reflexivity. }
  assert (P : Spec.penalty r a e = Spec.penalty r' a' e').
  { unfold Spec.penalty, Spec.deviationExceeds.
    rewrite (Qltb_compat (20 * 20) (20 * 20) _ _ (Qeq_refl _) V).
    rewrite (Qltb_compat (10 * 10) (10 * 10) _ _ (Qeq_refl _) V).
    reflexivity. }
  assert (B : Spec.agreementStrict r a e = Spec.agreementStrict r' a' e').
  { unfold Spec.agreementStrict.
    rewrite (Qltb_compat 70 70 r r' (Qeq_refl _) Hr),
            (Qltb_compat 70 70 a a' (Qeq_refl _) Ha),
            (Qltb_compat 70 70 e e' (Qeq_refl _) He),
            (Qltb_compat r r' 40 40 Hr (Qeq_refl _)),
            (Qltb_compat a a' 40 40 Ha (Qeq_refl _)),
            (Qltb_compat e e' 40 40 He (Qeq_refl _)).
    reflexivity. }
  unfold Spec.confidence, Spec.clamp. rewrite P, B.
  apply clamp_eq. rewrite Hc. reflexivity.
Qed.

(** With three raw scores in [80,100], replacing any one of them by 20
    costs at least 10 points of confidence. *)
Lemma agreement_gap (r a e c : Q) :
  80 <= r <= 100 -> 80 <= a <= 100 -> 80 <= e <= 100 -> 0 <= c <= 100 ->
  calculateConfidence 20 a e c + 10 <= calculateConfidence r a e c
  /\ calculateConfidence r 20 e c + 10 <= calculateConfidence r a e c
  /\ calculateConfidence r a 20 c + 10 <= calculateConfidence r a e c.
Proof.
  intros Hr Ha He Hc.
  destruct (high_scores_agree r a e Hr Ha He) as [P B].
  destruct (outlier_disagrees a e Ha He) as [[P1 B1] _].
  destruct (outlier_disagrees r e Hr He) as [_ [[P2 B2] _]].
  destruct (outlier_disagrees r a Hr Ha) as [_ [_ [P3 B3]]].
  pose proof (bonus_beats_penalty c Hc) as G.
  assert (F : calculateConfidence r a e c == Spec.clamp (c - 0 + 10)).
  { rewrite calculateConfidence_spec. unfold Spec.confidence. rewrite P, B. reflexivity. }
  assert (F1 : calculateConfidence 20 a e c == Spec.clamp (c - 15 + 0)).
  { rewrite calculateConfidence_spec. unfold Spec.confidence. rewrite P1, B1. reflexivity. }
  assert (F2 : calculateConfidence r 20 e c == Spec.clamp (c - 15 + 0)).
  { rewrite calculateConfidence_spec. unfold Spec.confidence. rewrite P2, B2. reflexivity. }
  assert (F3 : calculateConfidence r a 20 c == Spec.clamp (c - 15 + 0)).
  { rewrite calculateConfidence_spec. unfold Spec.confidence. rewrite P3, B3. reflexivity. }
  repeat split; lra.
Qed.

(** The base confidence of a run stays in [0,100]. *)
Lemma base_confidence_range (c : Q) :
  0 <= c <= 100 -> 0 <= or_number (Some c) 50 <= 100.
Proof.
  intros Hc. unfold or_number. destruct (Qeq_bool c 0); lra.
Qed.

(** C8. With three raw scores of at least 80 the confidence is strictly
    higher than with any one of them replaced by 20, for every base
    confidence in [0,100]: in calculateConfidence itself, and in the
    rounded confidence of a run for every LLM confidence in [0,100]. *)
Theorem agreement_raises_confidence (this : Service)
    (ext ext20 : option ExternalVerification.Results) (r a e c : Q) :
  80 <= r <= 100 -> 80 <= a <= 100 -> 80 <= e <= 100 -> 0 <= c <= 100 ->
  calculateExternalScore ext == e -> calculateExternalScore ext20 == 20 ->
  (calculateConfidence 20 a e c < calculateConfidence r a e c
   /\ calculateConfidence r 20 e c < calculateConfidence r a e c
   /\ calculateConfidence r a 20 c < calculateConfidence r a e c)
  /\ (finalConfidence (calculateFinalScore this
                         (Samples.ruleResult 20) (Samples.llmResult a c) ext)
      < finalConfidence (calculateFinalScore this
                           (Samples.ruleResult r) (Samples.llmResult a c) ext)
      /\ finalConfidence (calculateFinalScore this
                            (Samples.ruleResult r) (Samples.llmResult 20 c) ext)
         < finalConfidence (calculateFinalScore this
                              (Samples.ruleResult r) (Samples.llmResult a c) ext)
      /\ finalConfidence (calculateFinalScore this
                            (Samples.ruleResult r) (Samples.llmResult a c) ext20)
         < finalConfidence (calculateFinalScore this
                              (Samples.ruleResult r) (Samples.llmResult a c) ext))%Z.
Proof.
  intros Hr Ha He Hc Hext Hext20.
  split.
  - destruct (agreement_gap r a e c Hr Ha He Hc) as [G1 [G2 G3]].
    repeat split; lra.
  - pose proof (base_confidence_range c Hc) as Hb.
    destruct (agreement_gap r a e (or_number (Some c) 50) Hr Ha He Hb) as [G1 [G2 G3]].
    unfold calculateFinalScore, Samples.ruleResult, Samples.llmResult.
    cbn [finalConfidence score confidence].
    rewrite !(or_number_nonzero r), !(or_number_nonzero a) by lra.
    change (or_number (Some 20) 50) with 20.
    set (b := or_number (Some c) 50) in *.
    pose proof (calculateConfidence_compat r r a a _ _ b b
                  (Qeq_refl _) (Qeq_refl _) Hext (Qeq_refl _)) as E0.
    pose proof (calculateConfidence_compat 20 20 a a _ _ b b
                  (Qeq_refl _) (Qeq_refl _) Hext (Qeq_refl _)) as E1.
    pose proof (calculateConfidence_compat r r 20 20 _ _ b b
                  (Qeq_refl _) (Qeq_refl _) Hext (Qeq_refl _)) as E2.
    pose proof (calculateConfidence_compat r r a a _ _ b b
                  (Qeq_refl _) (Qeq_refl _) Hext20 (Qeq_refl _)) as E3.
    repeat split; apply Math_round_lt; lra.
Qed.

Lemma agreement_raises_confidence_witness :
  calculateConfidence 20 90 85 75 < calculateConfidence 80 90 85 75.
Proof.
  assert (Hr : 80 <= 80 <= 100) by (split; lra).
  assert (Ha : 80 <= 90 <= 100) by (split; lra).
  assert (He : 80 <= 85 <= 100) by (split; lra).
  assert (Hc : 0 <= 75 <= 100) by (split; lra).
  assert (E : calculateExternalScore (Samples.channels 85 85 85 85) == 85)
    by (vm_compute; reflexivity).
  assert (E20 : calculateExternalScore (Samples.channels 20 20 20 20) == 20)
    by (vm_compute; reflexivity).
  destruct (agreement_raises_confidence defaultService
              (Samples.channels 85 85 85 85) (Samples.channels 20 20 20 20)
              80 90 85 75 Hr Ha He Hc E E20) as [[H _] _].
  exact H.
Defined.

(** C9 as stated fails at a base confidence of 5: with the scores
    (10, 50, 90) the deviation is above 20, with (30, 50, 70) it is not,
    neither triple earns the bonus, and both confidences are 0. *)
Lemma floor_hides_penalty :
  sqrt_gt (consistency 10 50 90) 20 = true
  /\ sqrt_gt (consistency 30 50 70) 20 = false
  /\ allHigh [10; 50; 90] || allLow [10; 50; 90]
     = allHigh [30; 50; 70] || allLow [30; 50; 70]
  /\ calculateConfidence 10 50 90 5 == 0
  /\ calculateConfidence 30 50 70 5 == 0
  /\ ~ calculateConfidence 10 50 90 5 < calculateConfidence 30 50 70 5.
Proof.
  repeat split; try (vm_compute; reflexivity).
  vm_compute. discriminate.
Qed.

(** C9, amended. For a base confidence in [0,100] and the same agreement
    status, a deviation above 20 never gives a higher confidence than a
    deviation of at most 20; it gives a strictly lower one whenever the
    latter confidence is above 0, in particular whenever the base
    confidence is above 8. *)
Theorem deviation_lowers_confidence (r a e r' a' e' c : Q) :
  0 <= c <= 100 ->
  sqrt_gt (consistency r a e) 20 = true ->
  sqrt_gt (consistency r' a' e') 20 = false ->
  allHigh [r; a; e] || allLow [r; a; e] = allHigh [r'; a'; e'] || allLow [r'; a'; e'] ->
  calculateConfidence r a e c <= calculateConfidence r' a' e' c
  /\ (0 < calculateConfidence r' a' e' c ->
      calculateConfidence r a e c < calculateConfidence r' a' e' c)
  /\ (8 < c -> calculateConfidence r a e c < calculateConfidence r' a' e' c).
Proof.
  intros Hc Hhigh Hlow Hbonus. unfold calculateConfidence.
  rewrite Hhigh, Hlow, Hbonus.
  destruct (sqrt_gt (consistency r' a' e') 10);
    destruct (allHigh [r'; a'; e'] || allLow [r'; a'; e']);
    match goal with
    | |- Math_max 0 (Math_min 100 ?x) <= Math_max 0 (Math_min 100 ?y) /\ _ =>
        destruct (clamp_cases x) as [[? ?] | [[? ?] | [? ?]]];
        destruct (clamp_cases y) as [[? ?] | [[? ?] | [? ?]]]
    end;
    (split; [| split]); intros; lra.
Qed.

Lemma deviation_lowers_confidence_witness :
  calculateConfidence 10 50 90 60 < calculateConfidence 30 50 70 60.
Proof.
  assert (Hc : 0 <= 60 <= 100) by (split; lra).
  destruct (deviation_lowers_confidence 10 50 90 30 50 70 60 Hc
              eq_refl eq_refl eq_refl) as [_ [_ H]].
  apply H. lra.
Defined.

(** calculateFinalScore does not replace the external score: handed an
    aggregate of 0 it would count 0. No run hands it one (see
    [verifyAllChannels_score_floor] below). *)
Lemma external_zero_is_kept :
  calculateExternalScore (Samples.channels 0 0 0 0) == 0
  /\ externalWeighted (breakdown (calculateFinalScore defaultService
        (Samples.ruleResult 60) (Samples.llmResult 60 80)
        (Samples.channels 0 0 0 0))) == 0
  /\ ~ externalWeighted (breakdown (calculateFinalScore defaultService
        (Samples.ruleResult 60) (Samples.llmResult 60 80)
        (Samples.channels 0 0 0 0))) == 50 * external (weights defaultService)
  /\ finalScore (calculateFinalScore defaultService
        (Samples.ruleResult 60) (Samples.llmResult 60 80)
        (Samples.channels 0 0 0 0)) = 42%Z
  /\ finalScore (calculateFinalScore defaultService
        (Samples.ruleResult 60) (Samples.llmResult 60 80)
        (Samples.channels 50 50 50 50)) = 57%Z.
Proof.
  repeat split; try (vm_compute; reflexivity).
  vm_compute. discriminate.
Qed.

(** A rule-based or LLM score of 0, and an LLM confidence of 0, are
    replaced by 50 before the results are combined: the run is the run on
    50, a zero score contributes 50 times its weight, and the confidence
    starts from 50. *)
Lemma merge_step_coerces_zero (this : Service) (rule llmS : Scored)
    (ext : option ExternalVerification.Results) (z : Q) :
  z == 0 ->
  (calculateFinalScore this (Samples.withScore rule z) llmS ext
   = calculateFinalScore this (Samples.withScore rule 50) llmS ext
   /\ ruleBasedWeighted (breakdown (calculateFinalScore this (Samples.withScore rule z) llmS ext))
      = 50 * ruleBased (weights this))
  /\ (calculateFinalScore this rule (Samples.withScore llmS z) ext
      = calculateFinalScore this rule (Samples.withScore llmS 50) ext
      /\ llmWeighted (breakdown (calculateFinalScore this rule (Samples.withScore llmS z) ext))
         = 50 * llm (weights this))
  /\ (calculateFinalScore this rule (Samples.withConfidence llmS z) ext
      = calculateFinalScore this rule (Samples.withConfidence llmS 50) ext
      /\ finalConfidence (calculateFinalScore this rule (Samples.withConfidence llmS z) ext)
         = Math_round (calculateConfidence (or_number (score rule) 50)
                         (or_number (score llmS) 50) (calculateExternalScore ext) 50)).
Proof.
  intros Hz. unfold calculateFinalScore, Samples.withScore, Samples.withConfidence.
  cbn [score confidence breakdown ruleBasedWeighted llmWeighted finalConfidence].
  rewrite !(or_number_zero z 50 Hz).
  change (or_number (Some 50) 50) with 50.
  repeat split; reflexivity.
Qed.

(** ** The LLM adapter *)

Lemma validNumber_range (v : option LLMScoring.json) :
  (0 <= LLMScoring.validNumber v 50 <= 100)%Z.
Proof.
  unfold LLMScoring.validNumber.
  destruct v as [[| | n | | |] |]; try lia.
  destruct (Qle_bool 0 n) eqn:L; destruct (Qle_bool n 100) eqn:U; cbn [andb]; try lia.
  apply Qle_bool_iff in L, U. apply Math_round_range. split; assumption.
Qed.

Lemma validNumber_valid (v : option LLMScoring.json) (n : Q) (d : Z) :
  v = Some (LLMScoring.JNumber n) -> 0 <= n <= 100 ->
  LLMScoring.validNumber v d = Math_round n.
Proof.
  intros -> [L U]. unfold LLMScoring.validNumber.
  apply Qle_bool_iff in L, U. rewrite L, U. reflexivity.
Qed.

Lemma validNumber_invalid (v : option LLMScoring.json) (d : Z) :
  (forall n, v = Some (LLMScoring.JNumber n) -> ~ 0 <= n <= 100) ->
  LLMScoring.validNumber v d = d.
Proof.
  intros H. unfold LLMScoring.validNumber.
  destruct v as [[| | n | | |] |]; try reflexivity.
  destruct (Qle_bool 0 n) eqn:L; destruct (Qle_bool n 100) eqn:U; cbn [andb];
    try reflexivity.
  apply Qle_bool_iff in L, U. exfalso. apply (H n eq_refl). split; assumption.
Qed.

Lemma fallback_degraded (modelName message : string) :
  Spec.degraded (LLMScoring.getFallbackScore modelName message).
Proof.
  repeat split.
Qed.

(** normalizeResponse throws on [null] only. *)
Lemma normalizeResponse_returns (modelName : string) (response : LLMScoring.json) :
  response <> LLMScoring.JNull ->
  exists r, LLMScoring.normalizeResponse modelName response = Return r
            /\ LLMScoring.error r = false
            /\ (0 <= LLMScoring.score r <= 100)%Z
            /\ (0 <= LLMScoring.confidence r <= 100)%Z.
Proof.
  intros N.
  destruct response; try contradiction;
    (eexists; split; [reflexivity |]; cbn;
     repeat split; try lia; apply validNumber_range).
Qed.

Section AdapterProperties.
Variable JSON_parse : string -> option LLMScoring.json.
Variable apiKeyConfigured : bool.
Variable modelName : string.

(** The adapter always returns, with a score and a confidence in [0,100],
    and a result flagged as an error is the fallback 50/0. *)
Lemma adapter_returns (ctx : option LLMScoring.RuleContext)
    (outcome : LLMScoring.ProviderOutcome) :
  exists r, LLMScoring.scoreRecruiter JSON_parse apiKeyConfigured modelName ctx outcome = Return r
            /\ (0 <= LLMScoring.score r <= 100)%Z
            /\ (0 <= LLMScoring.confidence r <= 100)%Z
            /\ (LLMScoring.error r = true -> Spec.degraded r).
Proof.
  unfold LLMScoring.scoreRecruiter, LLMScoring.scoreRecruiter_try.
  assert (F : forall m, exists r,
             Return (LLMScoring.getFallbackScore modelName m) = Return r
             /\ (0 <= LLMScoring.score r <= 100)%Z
             /\ (0 <= LLMScoring.confidence r <= 100)%Z
             /\ (LLMScoring.error r = true -> Spec.degraded r)).
  { intros m. eexists. split; [reflexivity |]. cbn. repeat split; lia. }
  destruct apiKeyConfigured; cbn [negb try_catch]; [| apply F].
  destruct (LLMScoring.buildPrompt_completes ctx) as [[] | m]; cbn [bind try_catch];
    [| apply F].
  destruct outcome as [m | text]; cbn [try_catch]; [apply F |].
  destruct (JSON_parse text) as [parsed |]; cbn [try_catch]; [| apply F].
  destruct (LLMScoring.normalizeResponse modelName parsed) as [r | m] eqn:E;
    cbn [try_catch]; [| apply F].
  exists r. split; [reflexivity |].
  destruct parsed; try discriminate E;
    cbn in E; injection E as <-; cbn;
    (repeat split; try lia; try apply validNumber_range; try discriminate).
Qed.

(** A failed call, an unparseable response and the payload [null] all
    degrade to the fallback. *)
Lemma adapter_degrades (ctx : option LLMScoring.RuleContext)
    (outcome : LLMScoring.ProviderOutcome) :
  (exists m, outcome = LLMScoring.CallFailed m)
  \/ (exists text, outcome = LLMScoring.ResponseText text
                   /\ (JSON_parse text = None \/ JSON_parse text = Some LLMScoring.JNull)) ->
  exists m, LLMScoring.scoreRecruiter JSON_parse apiKeyConfigured modelName ctx outcome = Return (LLMScoring.getFallbackScore modelName m).
Proof.
  intros H. unfold LLMScoring.scoreRecruiter, LLMScoring.scoreRecruiter_try.
  destruct apiKeyConfigured; cbn [negb try_catch]; [| eexists; reflexivity].
  destruct (LLMScoring.buildPrompt_completes ctx) as [[] | m]; cbn [bind try_catch];
    [| eexists; reflexivity].
  destruct H as [[m ->] | [text [-> [E | E]]]]; rewrite ?E; cbn; eexists; reflexivity.
Qed.

(** The fallback of a failed call keeps the message of the failure. *)
Lemma adapter_keeps_cause (ctx : option LLMScoring.RuleContext) (message : string) :
  apiKeyConfigured = true ->
  LLMScoring.buildPrompt_completes ctx = Return tt ->
  LLMScoring.scoreRecruiter JSON_parse apiKeyConfigured modelName ctx
    (LLMScoring.CallFailed message)
  = Return (LLMScoring.getFallbackScore modelName message).
Proof.
  intros K P. unfold LLMScoring.scoreRecruiter, LLMScoring.scoreRecruiter_try.
  rewrite K, P. reflexivity.
Qed.

(** A payload that parses to an object is normalised field by field; no
    error is recorded, whatever its score and confidence fields hold. *)
Lemma adapter_normalises (ctx : option LLMScoring.RuleContext) (text : string)
    (fields : list (string * LLMScoring.json)) :
  apiKeyConfigured = true ->
  LLMScoring.buildPrompt_completes ctx = Return tt ->
  JSON_parse text = Some (LLMScoring.JObject fields) ->
  exists r, LLMScoring.scoreRecruiter JSON_parse apiKeyConfigured modelName ctx (LLMScoring.ResponseText text) = Return r
            /\ LLMScoring.error r = false
            /\ LLMScoring.score r
               = LLMScoring.validNumber (LLMScoring.lookup "score" fields) 50
            /\ LLMScoring.confidence r
               = LLMScoring.validNumber (LLMScoring.lookup "confidence" fields) 50.
Proof.
  intros K P E. unfold LLMScoring.scoreRecruiter, LLMScoring.scoreRecruiter_try.
  rewrite K, P, E. cbn. eexists. repeat split.
Qed.

End AdapterProperties.

(** With the fallback of the adapter as LLM result the confidence of the
    run is at most 50, so the run is left for review. *)
Lemma fallback_pending (this : Service) (rule : Scored)
    (ext : option ExternalVerification.Results) (modelName message : string) :
  decision
    (makeDecision this
       (inject_Z (finalScore (calculateFinalScore this rule
          (llmView (LLMScoring.getFallbackScore modelName message)) ext)))
       (inject_Z (finalConfidence (calculateFinalScore this rule
          (llmView (LLMScoring.getFallbackScore modelName message)) ext))))
  = pending_review.
Proof.
  rewrite decision_makeDecision.
  set (F := calculateFinalScore this rule _ ext).
  assert (C : (finalConfidence F <= 50)%Z).
  { subst F. unfold calculateFinalScore, llmView. cbn [finalConfidence score confidence
      LLMScoring.score LLMScoring.confidence LLMScoring.getFallbackScore].
    change (or_number (Some (inject_Z 50)) 50) with (inject_Z 50).
    change (or_number (Some (inject_Z 0)) 50) with 50.
    apply (Z.le_trans _ (Math_round 50)); [apply Math_round_le | discriminate].
    unfold calculateConfidence, allHigh, allLow. cbn [forallb].
    change (Qltb 70 (inject_Z 50)) with false.
    change (Qltb (inject_Z 50) 40) with false.
    rewrite !andb_false_r. cbn [andb orb].
    destruct (sqrt_gt _ 20); [| destruct (sqrt_gt _ 10)]; clamps; lra. }
  assert (Q50 : inject_Z (finalConfidence F) <= 50).
  { change 50 with (inject_Z 50). rewrite <- Zle_Qle. exact C. }
  assert (A : Qle_bool 70 (inject_Z (finalConfidence F)) = false)
    by (apply Qle_bool_false; lra).
  assert (B : Qle_bool 60 (inject_Z (finalConfidence F)) = false)
    by (apply Qle_bool_false; lra).
  rewrite A, B, !andb_false_r. reflexivity.
Qed.

(** A run whose LLM call degraded completes, stores an LLM confidence of
    0 and an error entry for the LLM source, and is left for review. *)
Lemma run_records_llm_failure (this : Service) (env : Collaborators) (id : string)
    (recruiter : RuleBasedScoring.RecruiterData) (modelName : string) :
  findByPk env id = Some recruiter ->
  (forall ctx, exists m,
      llmScoring env recruiter ctx = Return (LLMScoring.getFallbackScore modelName m)) ->
  (forall v, store env v = Return tt) ->
  exists out,
    scoreRecruiter this env id = Return out
    /\ LLMScoring.confidence (vr_llmScore (out_details out)) = 0%Z
    /\ In {| source := "llm"; cause := error_true |} (vr_errors (out_details out))
    /\ out_decision out = pending_review.
Proof.
  intros Hfind Hllm Hstore. unfold scoreRecruiter. rewrite Hfind.
  destruct (Hllm (Some (ruleContext (settle (ruleBasedScoring env recruiter))))) as [m ->].
  cbn [bind]. rewrite Hstore. cbn [bind].
  eexists. split; [reflexivity |].
  cbn [out_details out_decision vr_llmScore vr_errors].
  split; [reflexivity |]. split.
  - unfold collectAllErrors. apply in_or_app. right. apply in_or_app. left.
    left. reflexivity.
  - apply fallback_pending.
Qed.

(** C4 as stated fails for a payload with an out-of-range score and a
    non-numeric confidence: the adapter returns the confidence 50, not 0,
    and records no error. *)
Lemma invalid_payload_is_not_degraded :
  exists r,
    LLMScoring.scoreRecruiter (Samples.parseOnly "payload" Samples.invalidPayload)
      true "gemini-pro" None (LLMScoring.ResponseText "payload") = Return r
    /\ LLMScoring.score r = 50%Z
    /\ LLMScoring.confidence r = 50%Z
    /\ LLMScoring.error r = false
    /\ truthy_error (error (llmView r)) = []
    /\ ~ Spec.degraded r.
Proof.
  eexists. split; [reflexivity |]. cbn.
  repeat split. intros [_ [H _]]. discriminate H.
Qed.

Section AdapterCauses.
Variable JSON_parse : string -> option LLMScoring.json.
Variable modelName : string.

(** Without an API key the adapter falls back before anything else is
    looked at. *)
Lemma adapter_without_key (ctx : option LLMScoring.RuleContext)
    (outcome : LLMScoring.ProviderOutcome) :
  LLMScoring.scoreRecruiter JSON_parse false modelName ctx outcome
  = Return (LLMScoring.getFallbackScore modelName "Gemini API key not configured").
Proof.
  reflexivity.
Qed.

(** A rule context without flags makes the prompt builder throw, inside
    the [try] of the adapter. *)
Lemma adapter_without_flags (ctx : LLMScoring.RuleContext)
    (outcome : LLMScoring.ProviderOutcome) :
  LLMScoring.ctx_flags ctx = None ->
  LLMScoring.scoreRecruiter JSON_parse true modelName (Some ctx) outcome
  = Return (LLMScoring.getFallbackScore modelName
              "Cannot read properties of undefined (reading 'length')").
Proof.
  intros H. unfold LLMScoring.scoreRecruiter, LLMScoring.scoreRecruiter_try,
    LLMScoring.buildPrompt_completes.
  rewrite H. reflexivity.
Qed.

(** A missing key, a failed call, an unparseable response and the
    payload [null] all degrade to the fallback. *)
Lemma adapter_degrades_for (apiKeyConfigured : bool)
    (ctx : option LLMScoring.RuleContext) (outcome : LLMScoring.ProviderOutcome) :
  apiKeyConfigured = false
  \/ (exists m, outcome = LLMScoring.CallFailed m)
  \/ (exists text, outcome = LLMScoring.ResponseText text
                   /\ (JSON_parse text = None \/ JSON_parse text = Some LLMScoring.JNull)) ->
  exists m, LLMScoring.scoreRecruiter JSON_parse apiKeyConfigured modelName ctx outcome
            = Return (LLMScoring.getFallbackScore modelName m).
Proof.
  intros [-> | H].
  - eexists. apply adapter_without_key.
  - apply adapter_degrades. exact H.
Qed.

End AdapterCauses.

(** A run whose LLM call fell back completes, stores an LLM confidence of
    0 and an error entry for the LLM source, and is left for review. *)
Lemma run_records_fallback (this : Service) (env : Collaborators) (id : string)
    (recruiter : RuleBasedScoring.RecruiterData) (modelName message : string) :
  findByPk env id = Some recruiter ->
  llmScoring env recruiter
    (Some (ruleContext (settle (ruleBasedScoring env recruiter))))
  = Return (LLMScoring.getFallbackScore modelName message) ->
  (forall v, store env v = Return tt) ->
  exists out,
    scoreRecruiter this env id = Return out
    /\ LLMScoring.confidence (vr_llmScore (out_details out)) = 0%Z
    /\ In {| source := "llm"; cause := error_true |} (vr_errors (out_details out))
    /\ out_decision out = pending_review.
Proof.
  intros Hfind Hllm Hstore. unfold scoreRecruiter. rewrite Hfind, Hllm.
  cbn [bind]. rewrite Hstore. cbn [bind].
  eexists. split; [reflexivity |].
  cbn [out_details out_decision vr_llmScore vr_errors].
  split; [reflexivity |]. split.
  - unfold collectAllErrors. apply in_or_app. right. apply in_or_app. left.
    left. reflexivity.
  - apply fallback_pending.
Qed.

(** C4, amended. The adapter never throws. A missing API key, a rejected
    call, an unparseable response and the payload [null] give the
    fallback: score 50, confidence 0, flagged as an error, the message of
    the cause kept; so does a rule context without flags, which the
    workflow hands over after a failure of the rule engine. The run then
    completes with an LLM confidence of 0 and an error entry for the LLM
    source. A payload that parses to an object gives no error: a score or
    confidence field that is a number in [0,100] is rounded, any other is
    replaced by 50. *)
Theorem semantic_adapter_never_throws
    (JSON_parse : string -> option LLMScoring.json) (apiKeyConfigured : bool)
    (modelName : string) (outcome : LLMScoring.ProviderOutcome) :
  (forall ctx, exists r,
      LLMScoring.scoreRecruiter JSON_parse apiKeyConfigured modelName ctx outcome = Return r
      /\ (0 <= LLMScoring.score r <= 100)%Z
      /\ (0 <= LLMScoring.confidence r <= 100)%Z
      /\ (LLMScoring.error r = true -> Spec.degraded r))
  /\ (apiKeyConfigured = false
      \/ (exists m, outcome = LLMScoring.CallFailed m)
      \/ (exists text, outcome = LLMScoring.ResponseText text
                      /\ (JSON_parse text = None
                          \/ JSON_parse text = Some LLMScoring.JNull)) ->
      (forall ctx, exists r,
          LLMScoring.scoreRecruiter JSON_parse apiKeyConfigured modelName ctx outcome
          = Return r /\ Spec.degraded r)
      /\ (forall ctx message,
             apiKeyConfigured = true ->
             LLMScoring.buildPrompt_completes ctx = Return tt ->
             outcome = LLMScoring.CallFailed message ->
             LLMScoring.scoreRecruiter JSON_parse apiKeyConfigured modelName ctx outcome
             = Return (LLMScoring.getFallbackScore modelName message))
      /\ (forall this env id recruiter,
             findByPk env id = Some recruiter ->
             (forall ctx, llmScoring env recruiter ctx
                          = LLMScoring.scoreRecruiter JSON_parse apiKeyConfigured
                              modelName ctx outcome) ->
             (forall v, store env v = Return tt) ->
             exists out,
               scoreRecruiter this env id = Return out
               /\ LLMScoring.confidence (vr_llmScore (out_details out)) = 0%Z
               /\ In {| source := "llm"; cause := error_true |}
                    (vr_errors (out_details out))
               /\ out_decision out = pending_review))
  /\ (forall ctx text fields,
         apiKeyConfigured = true ->
         LLMScoring.buildPrompt_completes ctx = Return tt ->
         outcome = LLMScoring.ResponseText text ->
         JSON_parse text = Some (LLMScoring.JObject fields) ->
         exists r,
           LLMScoring.scoreRecruiter JSON_parse apiKeyConfigured modelName ctx outcome
           = Return r
           /\ LLMScoring.error r = false
           /\ (forall n, LLMScoring.lookup "score" fields = Some (LLMScoring.JNumber n) ->
                         0 <= n <= 100 -> LLMScoring.score r = Math_round n)
           /\ ((forall n, LLMScoring.lookup "score" fields = Some (LLMScoring.JNumber n) ->
                          ~ 0 <= n <= 100) -> LLMScoring.score r = 50%Z)
           /\ (forall n, LLMScoring.lookup "confidence" fields = Some (LLMScoring.JNumber n) ->
                         0 <= n <= 100 -> LLMScoring.confidence r = Math_round n)
           /\ ((forall n, LLMScoring.lookup "confidence" fields = Some (LLMScoring.JNumber n) ->
                          ~ 0 <= n <= 100) -> LLMScoring.confidence r = 50%Z))
  /\ (apiKeyConfigured = false ->
      forall ctx,
        LLMScoring.scoreRecruiter JSON_parse apiKeyConfigured modelName ctx outcome
        = Return (LLMScoring.getFallbackScore modelName "Gemini API key not configured"))
  /\ (apiKeyConfigured = true ->
      forall ctx,
        LLMScoring.ctx_flags ctx = None ->
        LLMScoring.scoreRecruiter JSON_parse apiKeyConfigured modelName (Some ctx) outcome
        = Return (LLMScoring.getFallbackScore modelName
                    "Cannot read properties of undefined (reading 'length')"))
  /\ (forall this env id recruiter reason,
         findByPk env id = Some recruiter ->
         ruleBasedScoring env recruiter = Throw reason ->
         (forall ctx, llmScoring env recruiter ctx
                      = LLMScoring.scoreRecruiter JSON_parse apiKeyConfigured
                          modelName ctx outcome) ->
         (forall v, store env v = Return tt) ->
         exists out,
           scoreRecruiter this env id = Return out
           /\ LLMScoring.confidence (vr_llmScore (out_details out)) = 0%Z
           /\ In {| source := "llm"; cause := error_true |}
                (vr_errors (out_details out))
           /\ out_decision out = pending_review).
Proof.
  split; [| split; [| split; [| split; [| split]]]].
  - intros ctx. apply adapter_returns.
  - intros H. split.
    + intros ctx.
      destruct (adapter_degrades_for JSON_parse modelName apiKeyConfigured ctx outcome H)
        as [m E].
      eexists. split; [exact E | apply fallback_degraded].
    + split.
      * intros ctx message K P ->. apply adapter_keeps_cause; assumption.
      * intros this env id recruiter Hfind Hllm Hstore.
        destruct (adapter_degrades_for JSON_parse modelName apiKeyConfigured
                    (Some (ruleContext (settle (ruleBasedScoring env recruiter))))
                    outcome H) as [m E].
        apply (run_records_fallback this env id recruiter modelName m Hfind);
          [| exact Hstore].
        rewrite Hllm. exact E.
  - intros ctx text fields K P -> E.
    destruct (adapter_normalises JSON_parse apiKeyConfigured modelName ctx text fields K P E)
      as [r [R [Er [Sr Cr]]]].
    exists r. split; [exact R |]. split; [exact Er |].
    rewrite Sr, Cr. repeat split; intros.
    + eapply validNumber_valid; eassumption.
    + apply validNumber_invalid; assumption.
    + eapply validNumber_valid; eassumption.
    + apply validNumber_invalid; assumption.
  - intros -> ctx. apply adapter_without_key.
  - intros -> ctx F. apply adapter_without_flags, F.
  - intros this env id recruiter reason Hfind Hrule Hllm Hstore.
    assert (E : exists m,
               llmScoring env recruiter
                 (Some (ruleContext (settle (ruleBasedScoring env recruiter))))
               = Return (LLMScoring.getFallbackScore modelName m)).
    { rewrite Hllm, Hrule. cbn [settle ruleContext].
      destruct apiKeyConfigured.
      - eexists. apply adapter_without_flags. reflexivity.
      - eexists. apply adapter_without_key. }
    destruct E as [m E].
    apply (run_records_fallback this env id recruiter modelName m Hfind E Hstore).
Qed.

Lemma semantic_adapter_never_throws_witness :
  exists r,
    LLMScoring.scoreRecruiter (Samples.parseOnly "payload" Samples.invalidPayload)
      true "gemini-pro" None (LLMScoring.CallFailed "deadline exceeded") = Return r
    /\ Spec.degraded r.
Proof.
  refine (proj1 (proj1 (proj2 (semantic_adapter_never_throws
            (Samples.parseOnly "payload" Samples.invalidPayload) true "gemini-pro"
            (LLMScoring.CallFailed "deadline exceeded"))) _) None).
  right. left. exists "deadline exceeded"%string. reflexivity.
Defined.

(** ** The external score *)

Lemma reduce_sum_total (first : Q) (rest : list Q) :
  reduce_sum first rest == Spec.total (first :: rest).
Proof.
  unfold reduce_sum. revert first.
  induction rest as [| x rest IH]; intros first; cbn [fold_left Spec.total fold_right].
  - lra.
  - rewrite IH. cbn [Spec.total fold_right]. lra.
Qed.

(** The external score is the arithmetic mean of the numeric channel
    scores, and 50 when there is none. *)
Lemma calculateExternalScore_mean (d : ExternalVerification.Results) :
  (Spec.resolvedScores d = [] -> calculateExternalScore (Some d) = 50)
  /\ (Spec.resolvedScores d <> [] ->
      calculateExternalScore (Some d) == Spec.arithmeticMean (Spec.resolvedScores d)).
Proof.
  assert (L : Spec.resolvedScores d
              = numericScore (ExternalVerification.email d)
                ++ numericScore (ExternalVerification.phone d)
                ++ numericScore (ExternalVerification.company d)
                ++ numericScore (ExternalVerification.domain d)).
  { unfold Spec.resolvedScores, numericScore. cbn [flat_map]. rewrite app_nil_r.
    reflexivity. }
  unfold calculateExternalScore. rewrite <- L.
  destruct (Spec.resolvedScores d) as [| first rest]; split; intros H;
    try reflexivity; try contradiction; try discriminate.
  unfold Spec.arithmeticMean. rewrite reduce_sum_total. reflexivity.
Qed.

(** After verifyAll every channel has a result; a rejected channel counts
    with the score 10. *)
Lemma verifyAll_counts_every_channel
    (e p c d : Settled ExternalVerification.ChannelResult) (se sp sc sd : Q) :
  Spec.contribution e = Some se -> Spec.contribution p = Some sp ->
  Spec.contribution c = Some sc -> Spec.contribution d = Some sd ->
  calculateExternalScore (Some (ExternalVerification.verifyAll e p c d))
  == (se + sp + sc + sd) / 4.
Proof.
  intros He Hp Hc Hd.
  assert (S : forall r src s, Spec.contribution r = Some s ->
              numericScore (Some (ExternalVerification.handlePromiseResult r src)) = [s]).
  { intros [v | m] src s H; cbn in *;
      [rewrite H; reflexivity | injection H as <-; reflexivity]. }
  unfold calculateExternalScore, ExternalVerification.verifyAll.
  cbn [ExternalVerification.email ExternalVerification.phone
       ExternalVerification.company ExternalVerification.domain].
  rewrite (S _ _ _ He), (S _ _ _ Hp), (S _ _ _ Hc), (S _ _ _ Hd).
  cbn [app]. unfold reduce_sum, length_Q. cbn [fold_left List.length].
  change (inject_Z (Z.of_nat 4)) with 4. field.
Qed.

(** A channel result with a non-empty error leaves an entry in [errors]. *)
Lemma collectErrors_In (rs : list ExternalVerification.ChannelResult)
    (r : ExternalVerification.ChannelResult) (c : ascii) (rest : string) :
  In r rs -> ExternalVerification.error r = Some (String c rest) ->
  In {| ExternalVerification.err_source :=
          or_string (ExternalVerification.source r) "unknown";
        ExternalVerification.err_message := String c rest |}
     (ExternalVerification.collectErrors rs).
Proof.
  intros Hin Herr. unfold ExternalVerification.collectErrors.
  apply in_flat_map. exists r. split; [exact Hin |].
  rewrite Herr. cbn. left. reflexivity.
Qed.

(** The rejection of the phone promise is recorded under its channel. *)
Lemma rejected_channel_recorded
    (e c d : Settled ExternalVerification.ChannelResult) (ch : ascii) (rest : string) :
  In {| ExternalVerification.err_source := "phone";
        ExternalVerification.err_message := String ch rest |}
     (ExternalVerification.errors
        (ExternalVerification.verifyAll e (rejected (String ch rest)) c d)).
Proof.
  unfold ExternalVerification.verifyAll. cbn [ExternalVerification.errors].
  apply (collectErrors_In _
           (ExternalVerification.handlePromiseResult (rejected (String ch rest)) "phone")
           ch rest).
  - right. left. reflexivity.
  - reflexivity.
Qed.

(** A failure of the phone API, such as a timeout, is caught inside the
    channel: the channel resolves to a fallback with a numeric score. *)
Lemma verifyPhone_fallback (c : ascii) (rest message : string) :
  exists r,
    ExternalVerification.verifyPhone true (Some (String c rest))
      (ExternalVerification.ApiFailure message) = Return r
    /\ (ExternalVerification.score r = Some 30 \/ ExternalVerification.score r = Some 10)
    /\ ExternalVerification.error r = Some message
    /\ ExternalVerification.apiCalled r = false.
Proof.
  unfold ExternalVerification.verifyPhone, ExternalVerification.verifyPhone_try.
  cbn [negb try_catch]. eexists. split; [reflexivity |].
  cbn [ExternalVerification.score ExternalVerification.error ExternalVerification.apiCalled].
  destruct (ExternalVerification.isBasicValid _); auto.
Qed.

(** A run completes whatever the rule-based and the external service do,
    as long as the recruiter exists, the LLM adapter returns and the
    result can be stored. *)
Lemma run_completes (this : Service) (env : Collaborators) (id : string)
    (recruiter : RuleBasedScoring.RecruiterData) :
  findByPk env id = Some recruiter ->
  (forall ctx, exists r, llmScoring env recruiter ctx = Return r) ->
  (forall v, store env v = Return tt) ->
  exists out, scoreRecruiter this env id = Return out
              /\ (0 <= out_finalScore out <= 100)%Z
              /\ (0 <= out_confidence out <= 100)%Z.
Proof.
  intros Hfind Hllm Hstore. unfold scoreRecruiter. rewrite Hfind.
  destruct (Hllm (Some (ruleContext (settle (ruleBasedScoring env recruiter))))) as [r ->].
  cbn [bind]. rewrite Hstore. cbn [bind].
  eexists. split; [reflexivity |]. cbn [out_finalScore out_confidence].
  apply calculateFinalScore_range.
Qed.

(** C5 as stated fails when a channel times out: the phone channel below
    resolves to its fallback score 30, which is averaged with the scores
    60, 65 and 85 of the other channels to 60, not to their mean 70; a
    channel whose promise is rejected counts with the score 10. *)
Lemma timed_out_channel_still_counts :
  ExternalVerification.verifyPhone true (Some "+1 (555) 010-9999"%string)
    (ExternalVerification.ApiFailure "timeout of 10000ms exceeded")
  = Return {| ExternalVerification.isValid := true;
              ExternalVerification.score := Some 30;
              ExternalVerification.error := Some "timeout of 10000ms exceeded"%string;
              ExternalVerification.source := Some "validation"%string;
              ExternalVerification.apiCalled := false |}
  /\ calculateExternalScore
       (Some (ExternalVerification.verifyAll
                (fulfilled (Samples.channel 60))
                (settle (ExternalVerification.verifyPhone true
                           (Some "+1 (555) 010-9999"%string)
                           (ExternalVerification.ApiFailure "timeout of 10000ms exceeded")))
                (fulfilled (Samples.channel 65))
                (fulfilled (Samples.channel 85)))) == 60
  /\ calculateExternalScore
       (Some (ExternalVerification.verifyAll
                (fulfilled (Samples.channel 60))
                (rejected "timeout of 10000ms exceeded")
                (fulfilled (Samples.channel 65))
                (fulfilled (Samples.channel 85)))) == 55
  /\ Spec.arithmeticMean [60; 65; 85] == 70
  /\ ~ calculateExternalScore
         (Some (ExternalVerification.verifyAll
                  (fulfilled (Samples.channel 60))
                  (settle (ExternalVerification.verifyPhone true
                             (Some "+1 (555) 010-9999"%string)
                             (ExternalVerification.ApiFailure "timeout of 10000ms exceeded")))
                  (fulfilled (Samples.channel 65))
                  (fulfilled (Samples.channel 85))))
       == Spec.arithmeticMean [60; 65; 85].
Proof.
  repeat split; try (vm_compute; reflexivity).
  vm_compute. discriminate.
Qed.

(** The rejection of a channel's promise is recorded under the name of
    the channel, whichever channel it is. *)
Lemma rejection_recorded
    (e p c d : Settled ExternalVerification.ChannelResult) (ch : ascii) (rest : string) :
  In {| ExternalVerification.err_source := "email";
        ExternalVerification.err_message := String ch rest |}
     (ExternalVerification.errors
        (ExternalVerification.verifyAll (rejected (String ch rest)) p c d))
  /\ In {| ExternalVerification.err_source := "phone";
           ExternalVerification.err_message := String ch rest |}
        (ExternalVerification.errors
           (ExternalVerification.verifyAll e (rejected (String ch rest)) c d))
  /\ In {| ExternalVerification.err_source := "company";
           ExternalVerification.err_message := String ch rest |}
        (ExternalVerification.errors
           (ExternalVerification.verifyAll e p (rejected (String ch rest)) d))
  /\ In {| ExternalVerification.err_source := "domain";
           ExternalVerification.err_message := String ch rest |}
        (ExternalVerification.errors
           (ExternalVerification.verifyAll e p c (rejected (String ch rest)))).
Proof.
  unfold ExternalVerification.verifyAll. cbn [ExternalVerification.errors].
  repeat split.
  - apply (collectErrors_In _
             (ExternalVerification.handlePromiseResult (rejected (String ch rest)) "email")
             ch rest); [left; reflexivity | reflexivity].
  - apply (collectErrors_In _
             (ExternalVerification.handlePromiseResult (rejected (String ch rest)) "phone")
             ch rest); [right; left; reflexivity | reflexivity].
  - apply (collectErrors_In _
             (ExternalVerification.handlePromiseResult (rejected (String ch rest)) "company")
             ch rest); [right; right; left; reflexivity | reflexivity].
  - apply (collectErrors_In _
             (ExternalVerification.handlePromiseResult (rejected (String ch rest)) "domain")
             ch rest); [right; right; right; left; reflexivity | reflexivity].
Qed.

(** The error of a channel that resolved by its own fallback is recorded
    under the source the channel gave. *)
Lemma resolved_error_recorded
    (e p c d : Settled ExternalVerification.ChannelResult)
    (r : ExternalVerification.ChannelResult) (ch : ascii) (rest : string) :
  e = fulfilled r \/ p = fulfilled r \/ c = fulfilled r \/ d = fulfilled r ->
  ExternalVerification.error r = Some (String ch rest) ->
  In {| ExternalVerification.err_source :=
          or_string (ExternalVerification.source r) "unknown";
        ExternalVerification.err_message := String ch rest |}
     (ExternalVerification.errors (ExternalVerification.verifyAll e p c d)).
Proof.
  intros H E. unfold ExternalVerification.verifyAll. cbn [ExternalVerification.errors].
  apply collectErrors_In; [| exact E].
  destruct H as [-> | [-> | [-> | ->]]]; cbn [ExternalVerification.handlePromiseResult In];
    auto.
Qed.

(** Every entry of [errors] is the non-empty error of one of the four
    channel results. *)
Lemma errors_from_channels
    (e p c d : Settled ExternalVerification.ChannelResult)
    (x : ExternalVerification.ErrorEntry) :
  In x (ExternalVerification.errors (ExternalVerification.verifyAll e p c d)) ->
  exists r,
    In r [ ExternalVerification.handlePromiseResult e "email";
           ExternalVerification.handlePromiseResult p "phone";
           ExternalVerification.handlePromiseResult c "company";
           ExternalVerification.handlePromiseResult d "domain" ]
    /\ ExternalVerification.error r = Some (ExternalVerification.err_message x)
    /\ ExternalVerification.err_message x <> ""%string
    /\ ExternalVerification.err_source x
       = or_string (ExternalVerification.source r) "unknown".
Proof.
  unfold ExternalVerification.verifyAll. cbn [ExternalVerification.errors].
  unfold ExternalVerification.collectErrors. intros H.
  apply in_flat_map in H as [r [Hr Hx]]. exists r. split; [exact Hr |].
  destruct (ExternalVerification.error r) as [[| a s] |] eqn:E; cbn in Hx;
    try contradiction.
  destruct Hx as [<- | []]. cbn. repeat split; discriminate.
Qed.

(** C5, amended. The external score is the arithmetic mean of the scores
    of the channels whose result carries a numeric score, and 50 when no
    channel does or the verification data is missing. verifyAll gives
    every channel a result: a channel that resolves, by success or by its
    own fallback (as the phone channel does on a failed or timed-out
    API call), counts with its score, a channel whose promise is rejected
    counts with 10, so the score is the mean of four numbers. The error
    of every channel, rejected or resolved by a fallback, is recorded,
    and nothing else is. The run completes in every such case. *)
Theorem external_score_counts_every_channel :
  calculateExternalScore None = 50
  /\ (forall d,
         (Spec.resolvedScores d = [] -> calculateExternalScore (Some d) = 50)
         /\ (Spec.resolvedScores d <> [] ->
             calculateExternalScore (Some d)
             == Spec.arithmeticMean (Spec.resolvedScores d)))
  /\ (forall e p c d se sp sc sd,
         Spec.contribution e = Some se -> Spec.contribution p = Some sp ->
         Spec.contribution c = Some sc -> Spec.contribution d = Some sd ->
         calculateExternalScore (Some (ExternalVerification.verifyAll e p c d))
         == (se + sp + sc + sd) / 4)
  /\ (forall c rest message, exists r,
         ExternalVerification.verifyPhone true (Some (String c rest))
           (ExternalVerification.ApiFailure message) = Return r
         /\ (ExternalVerification.score r = Some 30
             \/ ExternalVerification.score r = Some 10)
         /\ ExternalVerification.error r = Some message
         /\ ExternalVerification.apiCalled r = false)
  /\ (forall e p c d ch rest,
         (forall reason, Spec.contribution (rejected reason) = Some 10)
         /\ In {| ExternalVerification.err_source := "email";
                  ExternalVerification.err_message := String ch rest |}
               (ExternalVerification.errors
                  (ExternalVerification.verifyAll (rejected (String ch rest)) p c d))
         /\ In {| ExternalVerification.err_source := "phone";
                  ExternalVerification.err_message := String ch rest |}
               (ExternalVerification.errors
                  (ExternalVerification.verifyAll e (rejected (String ch rest)) c d))
         /\ In {| ExternalVerification.err_source := "company";
                  ExternalVerification.err_message := String ch rest |}
               (ExternalVerification.errors
                  (ExternalVerification.verifyAll e p (rejected (String ch rest)) d))
         /\ In {| ExternalVerification.err_source := "domain";
                  ExternalVerification.err_message := String ch rest |}
               (ExternalVerification.errors
                  (ExternalVerification.verifyAll e p c (rejected (String ch rest)))))
  /\ (forall e p c d r ch rest,
         e = fulfilled r \/ p = fulfilled r \/ c = fulfilled r \/ d = fulfilled r ->
         ExternalVerification.error r = Some (String ch rest) ->
         In {| ExternalVerification.err_source :=
                 or_string (ExternalVerification.source r) "unknown";
               ExternalVerification.err_message := String ch rest |}
            (ExternalVerification.errors (ExternalVerification.verifyAll e p c d)))
  /\ (forall e p c d x,
         In x (ExternalVerification.errors (ExternalVerification.verifyAll e p c d)) ->
         exists r,
           In r [ ExternalVerification.handlePromiseResult e "email";
                  ExternalVerification.handlePromiseResult p "phone";
                  ExternalVerification.handlePromiseResult c "company";
                  ExternalVerification.handlePromiseResult d "domain" ]
           /\ ExternalVerification.error r = Some (ExternalVerification.err_message x)
           /\ ExternalVerification.err_message x <> ""%string
           /\ ExternalVerification.err_source x
              = or_string (ExternalVerification.source r) "unknown")
  /\ (forall this env id recruiter,
         findByPk env id = Some recruiter ->
         (forall ctx, exists r, llmScoring env recruiter ctx = Return r) ->
         (forall v, store env v = Return tt) ->
         exists out, scoreRecruiter this env id = Return out
                     /\ (0 <= out_finalScore out <= 100)%Z
                     /\ (0 <= out_confidence out <= 100)%Z).
Proof.
  split; [reflexivity |].
  split; [apply calculateExternalScore_mean |].
  split; [apply verifyAll_counts_every_channel |].
  split; [apply verifyPhone_fallback |].
  split.
  { intros e p c d ch rest. split; [reflexivity |]. apply rejection_recorded. }
  split; [apply resolved_error_recorded |].
  split; [apply errors_from_channels | apply run_completes].
Qed.

Lemma external_score_counts_every_channel_witness :
  calculateExternalScore
    (Some (ExternalVerification.verifyAll
             (fulfilled (Samples.channel 60))
             (rejected "timeout of 10000ms exceeded")
             (fulfilled (Samples.channel 65))
             (fulfilled (Samples.channel 85))))
  == (60 + 10 + 65 + 85) / 4.
Proof.
  apply (proj1 (proj2 (proj2 external_score_counts_every_channel))); reflexivity.
Defined.

(** ** The rule engine *)

Lemma check_floor (c : RuleBasedScoring.Check) :
  0 <= RuleBasedScoring.score (RuleBasedScoring.floored c).
Proof.
  unfold RuleBasedScoring.floored, Math_max. cbn [RuleBasedScoring.score].
  apply Q.le_max_l.
Qed.

(** The final score of the rule engine lies in [0,100] for any details. *)
Lemma rule_score_range (d : RuleBasedScoring.Details) :
  (0 <= RuleBasedScoring.calculateFinalScore d <= 100)%Z.
Proof.
  unfold RuleBasedScoring.calculateFinalScore. apply Math_round_range, clamp_range.
Qed.

(** With a company name, a role and an industry (possibly empty), and a
    validator that accepts only addresses with an [@], the rule engine
    returns a score in [0,100], whatever the other attributes are. *)
Lemma rule_engine_returns (isEmail isURL : string -> bool)
    (parseURL : string -> option RuleBasedScoring.URL)
    (data : RuleBasedScoring.RecruiterData) (company position sector : string) :
  (forall e, isEmail e = true -> exists d, nth_error (split "@" e) 1 = Some d) ->
  RuleBasedScoring.companyName data = Some company ->
  RuleBasedScoring.role data = Some position ->
  RuleBasedScoring.industry data = Some sector ->
  exists r, RuleBasedScoring.scoreRecruiter isEmail isURL parseURL data = Return r
            /\ (0 <= RuleBasedScoring.final r <= 100)%Z.
Proof.
  intros Hmail Hc Hr Hi.
  unfold RuleBasedScoring.scoreRecruiter, RuleBasedScoring.checkKeywords.
  rewrite Hc, Hr, Hi. cbn [RuleBasedScoring.attr_toLowerCase bind].
  assert (E : exists c, RuleBasedScoring.analyzeEmail isEmail
                          (RuleBasedScoring.businessEmail data) = Return c).
  { unfold RuleBasedScoring.analyzeEmail.
    destruct (RuleBasedScoring.present (RuleBasedScoring.businessEmail data)) as [e |];
      [| eexists; reflexivity].
    destruct (isEmail e) eqn:V; cbn [negb]; [| eexists; reflexivity].
    destruct (Hmail e V) as [d ->]. cbn [RuleBasedScoring.attr_toLowerCase bind].
    eexists; reflexivity. }
  destruct E as [ce ->]. cbn [bind].
  assert (W : exists c, RuleBasedScoring.analyzeWebsite isURL parseURL
                          (RuleBasedScoring.websiteUrl data) = Return c).
  { unfold RuleBasedScoring.analyzeWebsite.
    destruct (RuleBasedScoring.analyzeWebsite_try isURL parseURL
                (RuleBasedScoring.websiteUrl data)); eexists; reflexivity. }
  destruct W as [cw ->]. cbn [bind].
  eexists. split; [reflexivity |]. cbn [RuleBasedScoring.final].
  apply rule_score_range.
Qed.

(** Missing or invalid contact attributes degrade their category to a
    fixed score. *)
Lemma missing_attributes_degrade (isEmail isURL : string -> bool)
    (parseURL : string -> option RuleBasedScoring.URL) :
  (exists c, RuleBasedScoring.analyzeEmail isEmail None = Return c
             /\ RuleBasedScoring.score c = 30)
  /\ (exists c, RuleBasedScoring.analyzeWebsite isURL parseURL None = Return c
                /\ RuleBasedScoring.score c = 45)
  /\ RuleBasedScoring.score (RuleBasedScoring.analyzePhone None) = 65
  /\ RuleBasedScoring.score (RuleBasedScoring.analyzeCompanyName None) = 55
  /\ RuleBasedScoring.score (RuleBasedScoring.analyzeIndustry None) = 80.
Proof.
  repeat split; eexists; split; reflexivity.
Qed.

(** Without a company name, a role or an industry the rule engine throws. *)
Lemma rule_engine_throws_on_missing (isEmail isURL : string -> bool)
    (parseURL : string -> option RuleBasedScoring.URL)
    (data : RuleBasedScoring.RecruiterData) :
  RuleBasedScoring.companyName data = None
  \/ RuleBasedScoring.role data = None
  \/ RuleBasedScoring.industry data = None ->
  RuleBasedScoring.scoreRecruiter isEmail isURL parseURL data
  = Throw "Cannot read properties of undefined (reading 'toLowerCase')".
Proof.
  intros H. unfold RuleBasedScoring.scoreRecruiter, RuleBasedScoring.checkKeywords.
  destruct (RuleBasedScoring.companyName data) as [company |]; [| reflexivity].
  destruct (RuleBasedScoring.role data) as [position |]; [| reflexivity].
  destruct (RuleBasedScoring.industry data) as [sector |]; [| reflexivity].
  destruct H as [H | [H | H]]; discriminate H.
Qed.

(** C6, at a recruiter without a company name. The keyword check reads
    the lower-cased company name before any component tests for a
    missing attribute, so the rule engine throws, for every validator;
    the workflow then scores the rule-based source with 50 and records
    the error. *)
Theorem rule_engine_throws_without_company (isEmail isURL : string -> bool)
    (parseURL : string -> option RuleBasedScoring.URL) :
  RuleBasedScoring.scoreRecruiter isEmail isURL parseURL Samples.recruiterWithoutCompany
  = Throw "Cannot read properties of undefined (reading 'toLowerCase')"
  /\ RuleBasedScoring.score
       (RuleBasedScoring.analyzeCompanyName
          (RuleBasedScoring.companyName Samples.recruiterWithoutCompany)) = 55
  /\ ruleView (settle (RuleBasedScoring.scoreRecruiter isEmail isURL parseURL
                         Samples.recruiterWithoutCompany))
     = {| score := Some 50; confidence := None;
          error := Some (error_message
                           "Cannot read properties of undefined (reading 'toLowerCase')") |}.
Proof.
  repeat split.
Qed.

(** ** Batch scoring *)

Section BatchProperties.
Variable this : Service.
Variable env : Collaborators.
Variable continueOnError : bool.

(** The entry a recruiter id ends up as. *)
Lemma entry_of_run (id : string) :
  entryOf (scoreOne this env continueOnError id)
  = match scoreRecruiter this env id with
    | Return result => scored id result
    | Throw message => if continueOnError then failed id message else reason message
    end.
Proof.
  unfold scoreOne.
  destruct (scoreRecruiter this env id); cbn; [reflexivity |].
  destruct continueOnError; reflexivity.
Qed.

(** From position [i] on, the loop appends one entry per remaining id,
    in input order, whenever the chunk size is positive and the fuel
    covers the remaining ids. *)
Lemma batchLoop_all (fuel : nat) (ids : list string) (k i : nat) (acc : list BatchEntry) :
  (1 <= k)%nat -> (List.length ids - i <= fuel)%nat ->
  batchLoop this env continueOnError fuel ids k i acc
  = Some (acc ++ map (fun id => entryOf (scoreOne this env continueOnError id))
                     (skipn i ids)).
Proof.
  intros Hk. revert i acc.
  induction fuel as [| fuel IH]; intros i acc Hfuel; cbn [batchLoop].
  - destruct (i <? List.length ids)%nat eqn:E.
    + apply Nat.ltb_lt in E. lia.
    + apply Nat.ltb_ge in E. rewrite skipn_all2 by exact E.
      cbn [map]. rewrite app_nil_r. reflexivity.
  - destruct (i <? List.length ids)%nat eqn:E.
    + apply Nat.ltb_lt in E. rewrite IH by lia.
      rewrite <- app_assoc, map_map, <- map_app.
      replace (skipn (i + k) ids) with (skipn k (skipn i ids))
        by (rewrite skipn_skipn; f_equal; lia).
      rewrite firstn_skipn. reflexivity.
    + apply Nat.ltb_ge in E. rewrite skipn_all2 by exact E.
      cbn [map]. rewrite app_nil_r. reflexivity.
Qed.

Lemma batch_results (ids : list string) (k : nat) :
  (1 <= k)%nat ->
  batchScoreRecruiters this env continueOnError (List.length ids) ids k
  = Some (summarize (map (fun id => entryOf (scoreOne this env continueOnError id)) ids)).
Proof.
  intros Hk. unfold batchScoreRecruiters.
  rewrite batchLoop_all by lia. reflexivity.
Qed.

End BatchProperties.

(** With a chunk size of 0 the loop index never moves: on a non-empty
    list no amount of fuel ends the loop. *)
Lemma batch_diverges_on_zero (this : Service) (env : Collaborators) (continue : bool)
    (fuel : nat) (id : string) (ids : list string) :
  batchScoreRecruiters this env continue fuel (id :: ids) 0 = None.
Proof.
  unfold batchScoreRecruiters.
  assert (L : forall acc, batchLoop this env continue fuel (id :: ids) 0 0 acc = None).
  { induction fuel as [| fuel IH]; intros acc; cbn; [reflexivity | apply IH]. }
  rewrite L. reflexivity.
Qed.

(** With [continueOnError] set, every id has one entry, at its position:
    a success or a captured failure, so that [total] is the number of ids
    and [successful + failed = total]. *)
Lemma batch_isolates_failures (this : Service) (env : Collaborators)
    (ids : list string) (k : nat) :
  (1 <= k)%nat ->
  exists summary,
    batchScoreRecruiters this env true (List.length ids) ids k = Some summary
    /\ total summary = List.length ids
    /\ (successful summary + failedCount summary = total summary)%nat
    /\ map Spec.verdict (results summary)
       = map (fun id => match scoreRecruiter this env id with
                        | Return _ => Spec.succeeded id
                        | Throw _ => Spec.failedFor id
                        end) ids.
Proof.
  intros Hk. rewrite batch_results by exact Hk.
  eexists. split; [reflexivity |].
  cbn [total successful failedCount results summarize].
  rewrite !length_map. split; [reflexivity |]. split.
  - pose proof (filter_length_le success
        (map (fun id => entryOf (scoreOne this env true id)) ids)) as L.
    rewrite length_map in L. lia.
  - rewrite map_map. apply map_ext. intros id. rewrite entry_of_run.
    destruct (scoreRecruiter this env id); reflexivity.
Qed.

(** The example of the specification: three ids, chunks of two, the
    second id unknown. *)
Lemma batch_example :
  option_map (fun s => (total s, successful s, failedCount s,
                        map Spec.verdict (results s)))
    (batchScoreRecruiters defaultService
       (Samples.collaborators (Samples.tableWithout "b")) true 3
       ["a"; "b"; "c"]%string 2)
  = Some (3, 2, 1,
          [Spec.succeeded "a"; Spec.failedFor "b"; Spec.succeeded "c"])%nat.
Proof.
  vm_compute. reflexivity.
Qed.

(** C7, with [continueOnError] unset. The wrapper rethrows, but the
    rejection is collected by [Promise.allSettled] like any other result:
    the batch runs to its end, and every id after a failed one is still
    scored. The entry of a failed id is the bare error. *)
Theorem batch_never_aborts (this : Service) (env : Collaborators)
    (ids : list string) (k : nat) :
  (1 <= k)%nat ->
  batchScoreRecruiters this env false (List.length ids) ids k
  = Some (summarize
            (map (fun id => match scoreRecruiter this env id with
                            | Return result => scored id result
                            | Throw message => reason message
                            end) ids)).
Proof.
  intros Hk. rewrite batch_results by exact Hk.
  f_equal. f_equal. apply map_ext. intros id. apply entry_of_run.
Qed.

Lemma batch_never_aborts_witness :
  option_map (fun s => (total s, successful s, failedCount s,
                        map Spec.verdict (results s)))
    (batchScoreRecruiters defaultService
       (Samples.collaborators (Samples.tableWithout "a")) false 3
       ["a"; "b"; "c"]%string 1)
  = Some (3, 2, 1,
          [Spec.anonymousError; Spec.succeeded "b"; Spec.succeeded "c"])%nat.
Proof.
  pose proof (batch_never_aborts defaultService
                (Samples.collaborators (Samples.tableWithout "a"))
                ["a"; "b"; "c"]%string 1 (le_n 1)) as H.
  cbn [List.length] in H. rewrite H.
  vm_compute. reflexivity.
Defined.

(** * Further properties of the services *)

(** ** Rule-based scoring: how flags and scores relate *)

Import RuleBasedScoring.

Lemma impactSum_app (fs : list Flag) (f : Flag) :
  Audit.impactSum (fs ++ [f]) == Audit.impactSum fs + inject_Z (impact f).
Proof.
  induction fs as [| g fs IH]; cbn [app Audit.impactSum fold_right].
  - lra.
  - fold (Audit.impactSum (fs ++ [f])). fold (Audit.impactSum fs). lra.
Qed.

Lemma penalize_accounted (start penalty : Q) (hit : bool) (f : Flag) (acc : Check) :
  inject_Z (impact f) == - penalty -> 0 <= penalty ->
  Audit.accounted start acc -> Audit.accounted start (penalize hit f penalty acc).
Proof.
  intros Hf Hp [Hs Hb]. unfold penalize. destruct hit; [| split; assumption].
  split; cbn [RuleBasedScoring.score flags].
  - rewrite impactSum_app. lra.
  - lra.
Qed.

Lemma for_each_accounted {A} (start : Q) (items : list A) (step : A -> Check -> Check)
    (acc : Check) :
  (forall item c, Audit.accounted start c -> Audit.accounted start (step item c)) ->
  Audit.accounted start acc -> Audit.accounted start (for_each items step acc).
Proof.
  intros Hstep. unfold for_each. revert acc.
  induction items as [| item items IH]; intros acc Hacc; cbn [fold_left].
  - exact Hacc.
  - apply IH, Hstep, Hacc.
Qed.

Lemma accounted_start (start : Q) : Audit.accounted start {| score := start; flags := [] |}.
Proof.
  split; cbn; lra.
Qed.

Lemma floored_settled (start : Q) (c : Check) :
  0 <= start -> Audit.accounted start c -> Audit.settled_at start (floored c).
Proof.
  intros H0 [Hs Hb]. unfold Audit.settled_at, floored, Math_max.
  cbn [RuleBasedScoring.score flags].
  destruct (Q.max_spec 0 (RuleBasedScoring.score c)) as [[L E] | [L E]];
    destruct (Q.max_spec 0 (start + Audit.impactSum (flags c))) as [[L' E'] | [L' E']];
    rewrite E, E'; repeat split; lra.
Qed.

(** Closes the side conditions of [penalize_accounted] for a literal flag. *)
Ltac account :=
  repeat first
    [ apply floored_settled; [lra |]
    | apply for_each_accounted; [intros ? ? ? |]
    | apply penalize_accounted; [reflexivity | lra |]
    | apply accounted_start
    | assumption ].

Lemma literal_settled (start s : Q) (f : Flag) :
  s == start + inject_Z (impact f) -> 0 <= s <= start ->
  Audit.settled_at start {| score := s; flags := [f] |}.
Proof.
  intros E B. unfold Audit.settled_at. cbn [RuleBasedScoring.score flags Audit.impactSum fold_right].
  destruct (Q.max_spec 0 (start + (inject_Z (impact f) + 0))) as [[L E'] | [L E']];
    rewrite E'; repeat split; lra.
Qed.

Section RuleChecks.
Variable isEmail isURL : string -> bool.
Variable parseURL : string -> option URL.

Lemma checkKeywords_settled (data : RecruiterData) (c : Check) :
  checkKeywords data = Return c -> Audit.settled_at 85 c.
Proof.
  unfold checkKeywords.
  destruct (companyName data); [| discriminate].
  destruct (role data); [| discriminate].
  destruct (industry data); [| discriminate].
  cbn [attr_toLowerCase bind]. intros H. injection H as <-. account.
Qed.

Lemma analyzeEmail_settled (email : option string) (c : Check) :
  analyzeEmail isEmail email = Return c -> Audit.settled_at 80 c.
Proof.
  unfold analyzeEmail.
  assert (I : Audit.settled_at 80
                {| score := 30;
                   flags := [ {| type := "invalid_email"; severity := high;
                                 message := "Invalid email format"; impact := -50 |} ] |}).
  { apply literal_settled; [reflexivity | lra]. }
  destruct (present email) as [e |]; [| intros H; injection H as <-; exact I].
  destruct (isEmail e); cbn [negb]; [| intros H; injection H as <-; exact I].
  destruct (nth_error (split "@" e) 1); cbn [attr_toLowerCase bind]; [| discriminate].
  intros H. injection H as <-. account.
Qed.

Lemma analyzePhone_settled (phone : option string) :
  Audit.settled_at 80 (analyzePhone phone).
Proof.
  unfold analyzePhone. destruct (present phone).
  - account.
  - apply literal_settled; [reflexivity | lra].
Qed.

Lemma analyzeCompanyName_settled (name : option string) :
  Audit.settled_at 85 (analyzeCompanyName name).
Proof.
  unfold analyzeCompanyName.
  assert (I : Audit.settled_at 85
                {| score := 55;
                   flags := [ {| type := "invalid_company_name"; severity := high;
                                 message := "Company name is too short or missing";
                                 impact := -30 |} ] |}).
  { apply literal_settled; [reflexivity | lra]. }
  destruct (present name) as [n |]; [| exact I].
  destruct (String.length (trim n) <? 2)%nat; [exact I |]. account.
Qed.

Lemma analyzeIndustry_settled (ind : option string) :
  Audit.settled_at 90 (analyzeIndustry ind).
Proof.
  unfold analyzeIndustry.
  assert (I : Audit.settled_at 90
                {| score := 80;
                   flags := [ {| type := "missing_industry"; severity := medium;
                                 message := "Industry information is missing or too short";
                                 impact := -10 |} ] |}).
  { apply literal_settled; [reflexivity | lra]. }
  destruct (present ind) as [i |]; [| exact I].
  destruct (String.length (trim i) <? 2)%nat; [exact I |]. account.
Qed.

(** The website check, with its HTTPS bonus counted in the start. *)
Lemma analyzeWebsite_settled (website : option string) :
  exists c, analyzeWebsite isURL parseURL website = Return c
            /\ Audit.settled_at (Audit.websiteStart isURL parseURL website) c.
Proof.
  unfold analyzeWebsite, analyzeWebsite_try, Audit.websiteStart.
  assert (I : Audit.settled_at 75
                {| score := 45;
                   flags := [ {| type := "invalid_website_url"; severity := high;
                                 message := "Invalid or missing website URL";
                                 impact := -30 |} ] |}).
  { apply literal_settled; [reflexivity | lra]. }
  destruct (present website) as [w |]; [| eexists; split; [reflexivity | exact I]].
  destruct (isURL w); cbn [negb]; [| eexists; split; [reflexivity | exact I]].
  destruct (parseURL w) as [url |]; cbn [try_catch].
  - eexists. split; [reflexivity |].
    set (c1 := for_each spamPatterns_website _ _).
    assert (A1 : Audit.accounted 75 c1) by (subst c1; account).
    destruct (String.eqb (protocol url) "https:").
    + apply floored_settled; [lra |].
      apply penalize_accounted; [reflexivity | lra |].
      apply penalize_accounted; [reflexivity | lra |].
      destruct A1 as [E B]. split; cbn [RuleBasedScoring.score flags]; lra.
    + account.
  - eexists. split; [reflexivity |].
    apply literal_settled; [reflexivity | lra].
Qed.

End RuleChecks.

(** X1. Every check of the rule engine accounts for its score by its
    flags: the score is the starting value of the check plus the (negative)
    impacts of the flags it raised, floored at 0, and it lies between 0
    and the starting value. *)
Theorem category_scores_accounted (isEmail isURL : string -> bool)
    (parseURL : string -> option URL) (data : RecruiterData) :
  (forall c, checkKeywords data = Return c -> Audit.settled_at 85 c)
  /\ (forall c, analyzeEmail isEmail (businessEmail data) = Return c ->
                Audit.settled_at 80 c)
  /\ (exists c, analyzeWebsite isURL parseURL (websiteUrl data) = Return c
                /\ Audit.settled_at
                     (Audit.websiteStart isURL parseURL (websiteUrl data)) c)
  /\ Audit.settled_at 80 (analyzePhone (phoneNumber data))
  /\ Audit.settled_at 85 (analyzeCompanyName (companyName data))
  /\ Audit.settled_at 90 (analyzeIndustry (industry data)).
Proof.
  split; [intros c; apply checkKeywords_settled |].
  split; [intros c; apply analyzeEmail_settled |].
  split; [apply analyzeWebsite_settled |].
  split; [apply analyzePhone_settled |].
  split; [apply analyzeCompanyName_settled | apply analyzeIndustry_settled].
Qed.

Lemma category_scores_accounted_witness :
  RuleBasedScoring.score (analyzePhone (phoneNumber Samples.recruiter))
  == Qmax 0 (80 + Audit.impactSum (flags (analyzePhone (phoneNumber Samples.recruiter)))).
Proof.
  apply (category_scores_accounted Samples.isEmail Samples.isURL Samples.parseURL
           Samples.recruiter).
Defined.

Lemma flagPenalty_from (fs : list Flag) (acc : Q) :
  acc <= fold_left (fun penalty flag =>
                      match severity flag with
                      | high => penalty + 5
                      | medium => penalty + 2
                      | low => penalty + 1
                      end) fs acc.
Proof.
  revert acc. induction fs as [| f fs IH]; intros acc; cbn [fold_left]; [lra |].
  eapply Qle_trans; [| apply IH]. destruct (severity f); lra.
Qed.

Lemma flagPenalty_nonneg (fs : list Flag) : 0 <= flagPenalty fs.
Proof.
  apply flagPenalty_from.
Qed.

(** The base of the final score: the weights of the categories sum to 1. *)
Lemma rule_final_score (d : Details) :
  calculateFinalScore d
  = Math_round
      (Math_max 0
         (Math_min 100
            (keywordScore d * 0.25 + emailDomainScore d * 0.20 + websiteScore d * 0.20
             + phoneScore d * 0.15 + companyNameScore d * 0.15 + industryScore d * 0.05
             - flagPenalty (all_flags d)))).
Proof.
  unfold calculateFinalScore, categoryWeights. cbn [fold_left fst snd].
  match goal with
  | |- context [Qltb 0 ?t] =>
      assert (T : t == 1) by (vm_compute; reflexivity);
      assert (P : Qltb 0 t = true) by (vm_compute; reflexivity);
      rewrite P; set (total := t) in *
  end.
  apply Math_round_eq, clamp_eq.
  assert (D : forall x, x / total == x).
  { intros x. rewrite T. field. }
  rewrite D. lra.
Qed.

Lemma clamp_le (x y : Q) :
  x <= y -> Math_max 0 (Math_min 100 x) <= Math_max 0 (Math_min 100 y).
Proof.
  intros H. clamps; lra.
Qed.


(** X2. The rule engine never scores above 83: its six checks start at
    85, 80, 80 (website, with HTTPS), 80, 85 and 90, which weigh to 82.5.
    A recruiter on whom no check finds anything gets exactly 83. *)
Theorem rule_score_ceiling (isEmail isURL : string -> bool)
    (parseURL : string -> option URL) (data : RecruiterData) (r : Results) :
  scoreRecruiter isEmail isURL parseURL data = Return r ->
  (0 <= final r <= 83)%Z
  /\ (all_flags (details r) = [] ->
      websiteScore (details r) == 80 -> final r = 83%Z)
  /\ exists best,
       scoreRecruiter Samples.isEmail Samples.isURL Samples.parseURL Audit.spotless
       = Return best /\ final best = 83%Z /\ all_flags (details best) = [].
Proof.
  intros H. unfold scoreRecruiter in H.
  destruct (checkKeywords data) as [ck |] eqn:Ek; [| discriminate].
  destruct (analyzeEmail isEmail (businessEmail data)) as [ce |] eqn:Ee; [| discriminate].
  destruct (analyzeWebsite_settled isURL parseURL (websiteUrl data)) as [cw [Ew Sw]].
  rewrite Ew in H. cbn [bind] in H. injection H as <-.
  cbn [final details all_flags websiteScore].
  pose proof (checkKeywords_settled data ck Ek) as [Ak [Lk Uk]].
  pose proof (analyzeEmail_settled isEmail _ ce Ee) as [Ae [Le Ue]].
  pose proof (analyzePhone_settled (phoneNumber data)) as [Ap [Lp Up]].
  pose proof (analyzeCompanyName_settled (companyName data)) as [Ac [Lc Uc]].
  pose proof (analyzeIndustry_settled (industry data)) as [Ai [Li Ui]].
  destruct Sw as [Aw [Lw Uw]].
  assert (W80 : Audit.websiteStart isURL parseURL (websiteUrl data) <= 80).
  { unfold Audit.websiteStart. destruct (present (websiteUrl data)) as [w |]; [| lra].
    destruct (isURL w); [| lra]. destruct (parseURL w) as [url |]; [| lra].
    destruct (String.eqb (protocol url) "https:"); lra. }
  split; [| split].
  - split; [apply rule_score_range |].
    rewrite rule_final_score.
    cbn [keywordScore emailDomainScore websiteScore phoneScore companyNameScore
         industryScore all_flags].
    set (fs := _ ++ _).
    pose proof (flagPenalty_nonneg fs) as Pn.
    apply (Z.le_trans _ (Math_round (165 # 2))); [| discriminate].
    apply Math_round_le. clamps; lra.
  - intros Hfs Hw80. rewrite rule_final_score.
    cbn [keywordScore emailDomainScore websiteScore phoneScore companyNameScore
         industryScore all_flags].
    rewrite Hfs.
    repeat match goal with
      | H : _ ++ _ = [] |- _ => apply app_eq_nil in H; destruct H
      end.
    repeat match goal with
      | H : flags ?c = [] |- _ => rewrite H in *; clear H
      end.
    cbn [Audit.impactSum fold_right] in *.
    assert (M : forall x, 0 <= x -> Qmax 0 (x + 0) == x).
    { intros x Hx. destruct (Q.max_spec 0 (x + 0)) as [[? E] | [? E]]; rewrite E; lra. }
    rewrite M in Ak, Ae, Ap, Ac, Ai by lra.
    change 83%Z with (Math_round (165 # 2)). apply Math_round_eq.
    change (flagPenalty []) with 0.
    rewrite clamp_inside; lra.
  - eexists. split; [vm_compute; reflexivity |]. split; reflexivity.
Qed.

Lemma rule_score_ceiling_witness :
  exists r, scoreRecruiter Samples.isEmail Samples.isURL Samples.parseURL Samples.recruiter
            = Return r /\ (0 <= final r <= 83)%Z.
Proof.
  eexists. split; [vm_compute; reflexivity |].
  apply (rule_score_ceiling Samples.isEmail Samples.isURL Samples.parseURL
           Samples.recruiter).
  vm_compute. reflexivity.
Defined.

Lemma lower_char_not_upper (c : ascii) : is_upper (lower_char c) = false.
Proof.
  destruct c as [[] [] [] [] [] [] [] []]; reflexivity.
Qed.

Lemma toLowerCase_no_upper (s : string) :
  all_chars (fun c => negb (is_upper c)) (toLowerCase s) = true.
Proof.
  induction s as [| c s IH]; cbn; [reflexivity |].
  rewrite lower_char_not_upper. exact IH.
Qed.

(** A string without upper-case letters includes no text that starts with
    one. *)
Lemma includes_upper (s : string) (a : ascii) (rest : string) :
  is_upper a = true ->
  all_chars (fun c => negb (is_upper c)) s = true ->
  includes s (String a rest) = false.
Proof.
  intros Ha. induction s as [| c s IH]; intros Hs; cbn.
  - reflexivity.
  - cbn in Hs. apply andb_prop in Hs as [Hc Hs].
    destruct (ascii_dec a c) as [-> | _].
    + rewrite Ha in Hc. discriminate Hc.
    + apply IH, Hs.
Qed.

(** X3. The keywords "CEO" and "VP" of the senior-role list can never
    match: the role is lower-cased before the search and the keywords are
    not. A recruiter whose role is "CEO" raises no flag for it. *)
Theorem upper_case_role_keywords_never_match (r : string) :
  includes (toLowerCase r) "CEO" = false
  /\ includes (toLowerCase r) "VP" = false
  /\ checkKeywords (Cases.withRole Samples.recruiter "CEO")
     = Return {| score := 85; flags := [] |}.
Proof.
  split; [| split].
  - apply includes_upper; [reflexivity | apply toLowerCase_no_upper].
  - apply includes_upper; [reflexivity | apply toLowerCase_no_upper].
  - vm_compute. reflexivity.
Qed.

Lemma flagPenalty_app (fs : list Flag) (f : Flag) :
  flagPenalty (fs ++ [f])
  = match severity f with
    | high => flagPenalty fs + 5
    | medium => flagPenalty fs + 2
    | low => flagPenalty fs + 1
    end.
Proof.
  unfold flagPenalty. rewrite fold_left_app. reflexivity.
Qed.

(** X4. One more flag never raises the final score of the rule engine,
    and lowers the score before clamping and rounding by 5, 2 or 1
    according to its severity. *)
Theorem extra_flag_lowers_rule_score (d : Details) (f : Flag) :
  (calculateFinalScore (Audit.withFlag d f) <= calculateFinalScore d)%Z
  /\ flagPenalty (all_flags (Audit.withFlag d f))
     == flagPenalty (all_flags d)
        + match severity f with high => 5 | medium => 2 | low => 1 end.
Proof.
  assert (P : flagPenalty (all_flags (Audit.withFlag d f))
              == flagPenalty (all_flags d)
                 + match severity f with high => 5 | medium => 2 | low => 1 end).
  { unfold Audit.withFlag. cbn [all_flags]. rewrite flagPenalty_app.
    destruct (severity f); reflexivity. }
  split; [| exact P].
  rewrite !rule_final_score. apply Math_round_le, clamp_le.
  unfold Audit.withFlag at 1 2 3 4 5 6.
  cbn [keywordScore emailDomainScore websiteScore phoneScore companyNameScore industryScore].
  rewrite P. destruct (severity f); lra.
Qed.

(** ** The LLM adapter: shape of the result *)

Lemma mem_string_In (s : string) (l : list string) : mem_string s l = true -> In s l.
Proof.
  unfold mem_string. intros H. apply existsb_exists in H as [x [Hin Heq]].
  apply String.eqb_eq in Heq. subst x. exact Hin.
Qed.

Lemma normalized_well_formed (modelName : string) (response : LLMScoring.json)
    (r : LLMScoring.Result) :
  LLMScoring.normalizeResponse modelName response = Return r ->
  In (LLMScoring.recommendation r) LLMScoring.validRecommendations
  /\ LLMScoring.reasoning r <> ""%string
  /\ LLMScoring.model r = modelName.
Proof.
  assert (D : In "manual_review"%string LLMScoring.validRecommendations)
    by (right; right; left; reflexivity).
  assert (R : forall v : option LLMScoring.json,
             In (match v with
                 | Some (LLMScoring.JString s) =>
                     if mem_string s LLMScoring.validRecommendations
                     then s else "manual_review"%string
                 | _ => "manual_review"%string
                 end) LLMScoring.validRecommendations).
  { intros [[| | | s | |] |]; try exact D.
    destruct (mem_string s LLMScoring.validRecommendations) eqn:E; [| exact D].
    apply mem_string_In, E. }
  assert (T : forall v : option LLMScoring.json,
             match v with
             | Some (LLMScoring.JString s) =>
                 match trim s with
                 | EmptyString => "No reasoning provided"%string
                 | String c t => String c t
                 end
             | _ => "No reasoning provided"%string
             end <> ""%string).
  { intros [[| | | s | |] |]; try discriminate.
    destruct (trim s); discriminate. }
  destruct response; unfold LLMScoring.normalizeResponse;
    cbn [LLMScoring.get bind]; intros H; try discriminate H;
    injection H as <-;
    cbn [LLMScoring.recommendation LLMScoring.reasoning LLMScoring.model];
    (split; [first [apply R | exact D]
            | split; [first [apply T | discriminate] | reflexivity]]).
Qed.

(** X5. Whatever the provider does, the result of the LLM adapter carries
    one of the three recommendations, a non-empty reasoning and the name
    of the configured model. *)
Theorem adapter_result_well_formed
    (JSON_parse : string -> option LLMScoring.json) (apiKeyConfigured : bool)
    (modelName : string) (ctx : option LLMScoring.RuleContext)
    (outcome : LLMScoring.ProviderOutcome) (r : LLMScoring.Result) :
  LLMScoring.scoreRecruiter JSON_parse apiKeyConfigured modelName ctx outcome = Return r ->
  In (LLMScoring.recommendation r) ["approve"; "flag"; "manual_review"]%string
  /\ LLMScoring.reasoning r <> ""%string
  /\ LLMScoring.model r = modelName.
Proof.
  unfold LLMScoring.scoreRecruiter, LLMScoring.scoreRecruiter_try.
  assert (F : forall m, Return (LLMScoring.getFallbackScore modelName m) = Return r ->
              In (LLMScoring.recommendation r) ["approve"; "flag"; "manual_review"]%string
              /\ LLMScoring.reasoning r <> ""%string
              /\ LLMScoring.model r = modelName).
  { intros m H. injection H as <-. cbn.
    split; [right; right; left; reflexivity | split; [discriminate | reflexivity]]. }
  destruct apiKeyConfigured; cbn [negb try_catch]; [| apply F].
  destruct (LLMScoring.buildPrompt_completes ctx) as [[] | m]; cbn [bind try_catch];
    [| apply F].
  destruct outcome as [m | text]; cbn [try_catch]; [apply F |].
  destruct (JSON_parse text) as [parsed |]; cbn [try_catch]; [| apply F].
  destruct (LLMScoring.normalizeResponse modelName parsed) as [r' | m] eqn:E;
    cbn [try_catch]; [| apply F].
  intros H. injection H as <-.
  apply (normalized_well_formed modelName parsed r' E).
Qed.

Lemma adapter_result_well_formed_witness :
  exists r,
    LLMScoring.scoreRecruiter (Samples.parseOnly "payload" Samples.invalidPayload)
      true "gemini-pro" None (LLMScoring.ResponseText "payload") = Return r
    /\ In (LLMScoring.recommendation r) ["approve"; "flag"; "manual_review"]%string.
Proof.
  eexists. split; [reflexivity |].
  eapply (adapter_result_well_formed
            (Samples.parseOnly "payload" Samples.invalidPayload) true "gemini-pro" None
            (LLMScoring.ResponseText "payload")).
  reflexivity.
Defined.

(** ** The run after a failure of a source *)

(** X6. After a failure of the LLM adapter the confidence of the run is
    50, 42 or 35: the base is the default 50 that replaces the fallback's
    0, the bonus cannot apply to an LLM score of 50, and only the
    deviation penalties remain. *)
Theorem fallback_run_confidence (this : Service) (rule : Scored)
    (ext : option ExternalVerification.Results) (modelName message : string) :
  finalConfidence (ScoringWorkflow.calculateFinalScore this rule
                     (llmView (LLMScoring.getFallbackScore modelName message)) ext) = 50%Z
  \/ finalConfidence (ScoringWorkflow.calculateFinalScore this rule
                        (llmView (LLMScoring.getFallbackScore modelName message)) ext) = 42%Z
  \/ finalConfidence (ScoringWorkflow.calculateFinalScore this rule
                        (llmView (LLMScoring.getFallbackScore modelName message)) ext) = 35%Z.
Proof.
  unfold ScoringWorkflow.calculateFinalScore, llmView.
  cbn [finalConfidence ScoringWorkflow.score confidence
       LLMScoring.score LLMScoring.confidence LLMScoring.getFallbackScore].
  change (or_number (Some (inject_Z 50)) 50) with (inject_Z 50).
  change (or_number (Some (inject_Z 0)) 50) with 50.
  unfold calculateConfidence, allHigh, allLow. cbn [forallb].
  change (Qltb 70 (inject_Z 50)) with false.
  change (Qltb (inject_Z 50) 40) with false.
  rewrite !andb_false_r. cbn [andb orb].
  destruct (sqrt_gt _ 20); [| destruct (sqrt_gt _ 10)].
  - right; right. rewrite (Math_round_eq _ 35); [reflexivity | apply clamp_inside; lra].
  - right; left. rewrite (Math_round_eq _ 42); [reflexivity | apply clamp_inside; lra].
  - left. rewrite (Math_round_eq _ 50); [reflexivity | apply clamp_inside; lra].
Qed.

(** X7. A failure of the rule engine takes the LLM adapter with it: the
    object that stands for the failed rule-based run has no flags, the
    prompt builder throws on it inside the adapter's [try], and the
    adapter falls back. The run still completes: rule-based score 50, LLM
    confidence 0, both errors recorded, decision pending review. *)
Theorem rule_failure_degrades_llm (this : Service) (env : Collaborators) (id : string)
    (recruiter : RecruiterData) (JSON_parse : string -> option LLMScoring.json)
    (apiKeyConfigured : bool) (modelName : string)
    (outcome : LLMScoring.ProviderOutcome) (c : ascii) (rest : string) :
  findByPk env id = Some recruiter ->
  ruleBasedScoring env recruiter = Throw (String c rest) ->
  (forall ctx, llmScoring env recruiter ctx
               = LLMScoring.scoreRecruiter JSON_parse apiKeyConfigured modelName ctx outcome) ->
  (forall v, store env v = Return tt) ->
  exists out,
    ScoringWorkflow.scoreRecruiter this env id = Return out
    /\ vr_ruleBasedScore (out_details out) = Some 50
    /\ Spec.degraded (vr_llmScore (out_details out))
    /\ out_decision out = pending_review
    /\ In {| source := "rule-based"; cause := error_message (String c rest) |}
          (vr_errors (out_details out))
    /\ In {| source := "llm"; cause := error_true |} (vr_errors (out_details out)).
Proof.
  intros Hfind Hrule Hllm Hstore.
  unfold ScoringWorkflow.scoreRecruiter. rewrite Hfind, Hrule, Hllm.
  assert (A : exists m,
             LLMScoring.scoreRecruiter JSON_parse apiKeyConfigured modelName
               (Some (ruleContext (settle (Throw (String c rest))))) outcome
             = Return (LLMScoring.getFallbackScore modelName m)).
  { unfold LLMScoring.scoreRecruiter, LLMScoring.scoreRecruiter_try.
    destruct apiKeyConfigured; cbn; eexists; reflexivity. }
  destruct A as [m ->]. cbn [bind]. rewrite Hstore. cbn [bind].
  eexists. split; [reflexivity |].
  cbn [out_details out_decision vr_ruleBasedScore vr_llmScore vr_errors].
  split; [reflexivity |]. split; [apply fallback_degraded |].
  split; [apply fallback_pending |].
  unfold collectAllErrors. split.
  - apply in_or_app. left. left. reflexivity.
  - apply in_or_app. right. apply in_or_app. left. left. reflexivity.
Qed.

Lemma rule_failure_degrades_llm_witness :
  exists out,
    ScoringWorkflow.scoreRecruiter defaultService
      (Samples.collaborators (fun _ => Some Samples.recruiterWithoutCompany)) "7"
    = Return out
    /\ out_decision out = pending_review.
Proof.
  destruct (rule_failure_degrades_llm defaultService
              (Samples.collaborators (fun _ => Some Samples.recruiterWithoutCompany)) "7"
              Samples.recruiterWithoutCompany
              (Samples.parseOnly "payload" Samples.goodPayload) true "gemini-pro"
              (LLMScoring.ResponseText "payload")
              "C" "annot read properties of undefined (reading 'toLowerCase')"
              eq_refl eq_refl (fun _ => eq_refl) (fun _ => eq_refl))
    as [out [H [_ [_ [D _]]]]].
  exists out. split; assumption.
Defined.

(** ** The verification channels *)

Import ExternalVerification ExternalChannels.

(** X8. The four comparisons of isValidApiKey with the sample keys of the
    environment template decide nothing: each of those keys contains
    "your_" and is rejected before. A key is valid exactly when it is not
    blank and contains none of "placeholder", "your_" and "demo_". *)
Theorem isValidApiKey_marks_only (key : option string) :
  isValidApiKey key = Audit.usableKey key.
Proof.
  destruct key as [k |]; [| reflexivity].
  unfold isValidApiKey, Audit.usableKey.
  destruct (String.eqb_spec k "") as [-> | _]; [reflexivity |].
  destruct (String.eqb_spec k "your_gemini_api_key_here") as [-> | _]; [reflexivity |].
  destruct (String.eqb_spec k "your_hunter_io_api_key") as [-> | _]; [reflexivity |].
  destruct (String.eqb_spec k "your_clearbit_api_key") as [-> | _]; [reflexivity |].
  destruct (String.eqb_spec k "your_numverify_api_key") as [-> | _]; [reflexivity |].
  cbn [negb andb]. rewrite !andb_true_r. reflexivity.
Qed.

Lemma hunterScore_range (data : HunterData) : 10 <= hunterScore data <= 110.
Proof.
  unfold hunterScore.
  destruct (String.eqb (hd_result data) "deliverable");
    [| destruct (String.eqb (hd_result data) "undeliverable");
       [| destruct (String.eqb (hd_result data) "risky")]];
    destruct (hd_mx_records data); destruct (hd_smtp_server data);
    destruct (hd_smtp_check data); lra.
Qed.

Lemma min100 (x lo : Q) : lo <= x -> lo <= 100 -> lo <= Math_min 100 x <= 100.
Proof.
  intros Hx Hlo. unfold Math_min.
  destruct (Q.min_spec 100 x) as [[L E] | [L E]]; rewrite E; lra.
Qed.

(** Settles the facts about a channel result that is given in full. *)
Ltac channel_facts :=
  cbn [score error apiCalled isValid source];
  repeat match goal with
    | |- _ /\ _ => split
    | |- _ -> _ => intro
    end;
  first [ lra | discriminate | congruence | reflexivity
        | eexists; reflexivity | idtac ].

(** X9. The email channel never throws and always scores: 0 for a
    missing or invalid address, 20 or 60 from the DNS check when no usable
    API key is set, 10 to 100 from the verifier, and 10 or 40 with the
    error recorded when the call to the verifier fails. Only an answer of
    the verifier counts as an API call. *)
Theorem verifyEmail_contract (validator_isEmail : string -> bool) (key : option string)
    (email : option string) (first retry : DnsAnswer) (call : ApiOutcome HunterData) :
  exists r s,
    verifyEmail validator_isEmail key email first retry call = Return r
    /\ score r = Some s /\ 0 <= s <= 100
    /\ (error r <> None -> s <= 40 /\ apiCalled r = false)
    /\ (isValidApiKey key = false -> s == 0 \/ s == 20 \/ s == 60)
    /\ (apiCalled r = true ->
        isValidApiKey key = true /\ 10 <= s /\ exists data, call = ApiResponse data).
Proof.
  unfold verifyEmail, verifyEmail_try.
  assert (I : exists r s,
             Return {| isValid := false; score := Some 0;
                       error := Some "Invalid email format"%string;
                       source := Some "validation"%string; apiCalled := false |}
             = Return r
             /\ score r = Some s /\ 0 <= s <= 100
             /\ (error r <> None -> s <= 40 /\ apiCalled r = false)
             /\ (isValidApiKey key = false -> s == 0 \/ s == 20 \/ s == 60)
             /\ (apiCalled r = true ->
                 isValidApiKey key = true /\ 10 <= s
                 /\ exists data, call = ApiResponse data)).
  { eexists. eexists. split; [reflexivity |]. channel_facts. }
  destruct email as [[| c rest] |]; try exact I.
  destruct (validator_isEmail (String c rest)); cbn [negb]; [| exact I].
  destruct (isValidApiKey key) eqn:K; cbn [negb try_catch].
  - destruct call as [data | m]; cbn [try_catch].
    + pose proof (hunterScore_range data) as [L U].
      destruct (min100 (hunterScore data) 10 L) as [M1 M2]; [lra |].
      eexists. eexists. split; [reflexivity |]. channel_facts.
    + destruct (dns_isValid (checkDNS retry));
        eexists; eexists; (split; [reflexivity |]); channel_facts.
  - destruct (dns_isValid (checkDNS first));
      eexists; eexists; (split; [reflexivity |]); channel_facts.
Qed.

(** X10. The phone channel never throws and always scores between 0 and
    100; a result with an error scores at most 30 and is no API call, and
    a result that counts as an API call scores at least 20. *)
Theorem verifyPhone_contract (keyConfigured : bool) (phoneNumber : option string)
    (call : ApiOutcome NumverifyData) :
  exists r s,
    verifyPhone keyConfigured phoneNumber call = Return r
    /\ score r = Some s /\ 0 <= s <= 100
    /\ (error r <> None -> s <= 30 /\ apiCalled r = false)
    /\ (apiCalled r = true -> keyConfigured = true /\ 20 <= s /\ error r = None).
Proof.
  unfold verifyPhone, verifyPhone_try.
  destruct phoneNumber as [[| c rest] |];
    try (eexists; eexists; split; [reflexivity |]; channel_facts).
  destruct keyConfigured; cbn [negb].
  - destruct call as [data | m]; cbn [try_catch].
    + destruct (nv_error data) as [info |]; cbn [try_catch].
      * destruct (isBasicValid (cleanPhone (String c rest)));
          eexists; eexists; (split; [reflexivity |]); channel_facts.
      * assert (B : 20 <= (if (0 <? String.length (nv_carrier data))%nat
                           then (if String.eqb (nv_line_type data) "mobile"
                                 then (if nv_valid data then 80 else 20) + 10
                                 else (if nv_valid data then 80 else 20)) + 5
                           else (if String.eqb (nv_line_type data) "mobile"
                                 then (if nv_valid data then 80 else 20) + 10
                                 else (if nv_valid data then 80 else 20)))).
        { destruct (0 <? String.length (nv_carrier data))%nat;
            destruct (String.eqb (nv_line_type data) "mobile");
            destruct (nv_valid data); lra. }
        destruct (min100 _ 20 B) as [M1 M2]; [lra |].
        eexists. eexists. split; [reflexivity |]. channel_facts.
    + destruct (isBasicValid (cleanPhone (String c rest)));
        eexists; eexists; (split; [reflexivity |]); channel_facts.
  - cbn [try_catch]. destruct (isBasicValid (cleanPhone (String c rest)));
      eexists; eexists; (split; [reflexivity |]); channel_facts.
Qed.

Lemma webBonus_range (w : WebData) (x : Q) : x <= webBonus w x <= x + 34.
Proof.
  unfold webBonus, add_if.
  destruct (5000 <? contentLength w)%nat; destruct (twitter w || facebook w);
    destruct (linkedin w); destruct (isSSL w); destruct (hasPrivacyPolicy w);
    destruct (hasAboutPage w); destruct (hasContactPage w); lra.
Qed.

(** What combineCompanyData returns when it returns. *)
Lemma combineCompanyData_range (companyName : option string)
    (clearbitData : option ClearbitData) (webData : option WebData) (r : ChannelResult) :
  combineCompanyData companyName clearbitData webData = Return r ->
  exists s, score r = Some s /\ 40 <= s <= 100
            /\ error r = None
            /\ (isValid r = false <-> clearbitData = None /\ webData = None)
            /\ (clearbitData = None -> webData = None -> s == 40)
            /\ (apiCalled r = true <-> clearbitData <> None).
Proof.
  unfold combineCompanyData.
  destruct clearbitData as [cb |].
  - destruct (nameMatches companyName cb) as [matches |]; cbn [bind]; [| discriminate].
    intros H. injection H as <-. cbn [score error isValid apiCalled].
    assert (A : 85 <= add_if matches 10 85 <= 95)
      by (unfold add_if; destruct matches; lra).
    destruct webData as [w |].
    + pose proof (webBonus_range w (add_if matches 10 85)) as [L U].
      destruct (min100 (webBonus w (add_if matches 10 85)) 40) as [M1 M2]; try lra.
      eexists. split; [reflexivity |].
      repeat split; try lra; try discriminate; try congruence;
        intros [H _]; discriminate H.
    + destruct (min100 (add_if matches 10 85) 40) as [M1 M2]; try lra.
      eexists. split; [reflexivity |].
      repeat split; try lra; try discriminate; try congruence;
        intros [H _]; discriminate H.
  - cbn [bind]. intros H. injection H as <-. cbn [score error isValid apiCalled].
    destruct webData as [w |].
    + pose proof (webBonus_range w 60) as [L U].
      destruct (min100 (webBonus w 60) 40) as [M1 M2]; try lra.
      eexists. split; [reflexivity |].
      repeat split; try lra; try discriminate; try congruence;
        try (intros [_ H]; discriminate H); intros H; contradiction.
    + eexists. split; [reflexivity |].
      assert (E : Math_min 100 40 == 40) by reflexivity.
      repeat split; try (rewrite E; lra); try discriminate; try congruence;
        intros H; contradiction.
Qed.

(** X11. The company channel never throws and always scores between 30
    and 100. Without any data about the company the score is 40 and the
    result invalid; only an exception while the data is combined (the
    company name is missing although the lookup returned a name) gives
    the lowest score, 30, with the error recorded. Without a website
    neither lookup is made. *)
Theorem verifyCompany_contract (key companyName websiteUrl : option string)
    (lookup : ApiOutcome ClearbitData) (fetch : ApiOutcome Page) :
  exists r s,
    verifyCompany key companyName websiteUrl lookup fetch = Return r
    /\ score r = Some s /\ 30 <= s <= 100
    /\ (error r <> None -> s == 30 /\ isValid r = false /\ companyName = None)
    /\ (apiCalled r = true -> isValidApiKey key = true /\ 85 <= s)
    /\ (websiteUrl = None \/ websiteUrl = Some ""%string ->
        s == 40 /\ isValid r = false /\ error r = None).
Proof.
  unfold verifyCompany.
  set (url := match websiteUrl with Some EmptyString => None | other => other end).
  set (cb := match url with
             | Some _ => if isValidApiKey key
                         then match lookup with
                              | ApiResponse data => Some data
                              | ApiFailure _ => None
                              end
                         else None
             | None => None
             end).
  set (web := match url with
              | Some w => attempt (scrapeWebsiteData w fetch)
              | None => None
              end).
  assert (U : websiteUrl = None \/ websiteUrl = Some ""%string -> cb = None /\ web = None).
  { intros [-> | ->]; split; reflexivity. }
  assert (K : cb <> None -> isValidApiKey key = true).
  { subst cb. destruct url; [| congruence].
    destruct (isValidApiKey key); congruence. }
  destruct (combineCompanyData companyName cb web) as [r |] eqn:E; cbn [try_catch].
  - destruct (combineCompanyData_range companyName cb web r E)
      as [s [Hs [Hr [He [Hv [H40 Ha]]]]]].
    exists r, s. split; [reflexivity |]. split; [exact Hs |].
    split; [lra |]. split; [intros H; contradiction |].
    split.
    + intros Hc. apply Ha in Hc. split; [apply K, Hc |].
      unfold combineCompanyData in E. destruct cb as [data |]; [| congruence].
      destruct (nameMatches companyName data) as [matches |]; [| discriminate E].
      cbn [bind] in E. injection E as <-. cbn [score] in Hs. injection Hs as <-.
      assert (A : 85 <= add_if matches 10 85) by (unfold add_if; destruct matches; lra).
      destruct web as [w |].
      * pose proof (webBonus_range w (add_if matches 10 85)) as [L _].
        destruct (min100 (webBonus w (add_if matches 10 85)) 85); lra.
      * destruct (min100 (add_if matches 10 85) 85); lra.
    + intros Hu. destruct (U Hu) as [C W].
      split; [apply H40; assumption |]. split; [apply Hv; split; assumption | exact He].
  - eexists. eexists. split; [reflexivity |]. cbn [score error isValid apiCalled].
    split; [reflexivity |]. split; [lra |].
    assert (N : companyName = None /\ cb <> None).
    { unfold combineCompanyData in E. destruct cb as [data |]; [| discriminate E].
      unfold nameMatches in E. destruct (cb_name data) as [[| c n] |];
        try discriminate E.
      destruct companyName; [discriminate E |]. split; congruence. }
    split; [intros _; repeat split; try lra; apply N |].
    split; [discriminate |].
    intros Hu. destruct (U Hu) as [C _]. destruct N as [_ N]. contradiction.
Qed.

Section DomainChannel.
Variable validator_isURL : string -> bool.
Variable URL_parse : string -> option RuleBasedScoring.URL.

(** X12. The domain channel never throws, never counts as an API call and
    scores 0 (no valid URL), 10 (the URL does not parse, error recorded)
    or between 20 and 85: 20 or 70 from the DNS check, 10 more for HTTPS
    and 5 more for a host name of at most two labels. *)
Theorem verifyDomain_contract (websiteUrl : option string) (answer : DnsAnswer) :
  exists r s,
    verifyDomain validator_isURL URL_parse websiteUrl answer = Return r
    /\ score r = Some s /\ 0 <= s <= 85
    /\ apiCalled r = false
    /\ (error r <> None -> s <= 10 /\ isValid r = false)
    /\ (error r = None -> 20 <= s /\ isValid r = mxResolved answer || aResolved answer).
Proof.
  unfold verifyDomain, verifyDomain_try.
  assert (I : exists r s,
             Return {| isValid := false; score := Some 0; error := Some "Invalid URL"%string;
                       source := Some "validation"%string; apiCalled := false |} = Return r
             /\ score r = Some s /\ 0 <= s <= 85
             /\ apiCalled r = false
             /\ (error r <> None -> s <= 10 /\ isValid r = false)
             /\ (error r = None ->
                 20 <= s /\ isValid r = mxResolved answer || aResolved answer)).
  { eexists. eexists. split; [reflexivity |]. channel_facts. }
  destruct websiteUrl as [[| c rest] |]; cbn [try_catch]; try exact I.
  destruct (validator_isURL (String c rest)); cbn [negb try_catch]; [| exact I].
  destruct (URL_parse (String c rest)) as [url |]; cbn [try_catch].
  - set (s := add_if _ 5 (add_if _ 10 _)).
    assert (B : 20 <= s <= 85).
    { subst s. unfold add_if, checkDNS. cbn [dns_isValid].
      destruct (List.length _ <=? 2)%nat; destruct (String.eqb _ "https:");
        destruct (mxResolved answer || aResolved answer); lra. }
    assert (E : Math_min 100 s == s).
    { unfold Math_min. destruct (Q.min_spec 100 s) as [[L E] | [L E]]; rewrite E; lra. }
    eexists. eexists. split; [reflexivity |].
    cbn [score error apiCalled isValid dns_isValid checkDNS].
    split; [reflexivity |].
    split; [rewrite E; lra |]. split; [reflexivity |].
    split; [intros N; contradiction |].
    intros _. split; [rewrite E; lra | reflexivity].
  - eexists. eexists. split; [reflexivity |]. channel_facts.
Qed.

End DomainChannel.

(** ** The channels always score *)

Ltac scored := eexists; eexists; (split; [reflexivity |]); channel_facts.

Lemma verifyEmail_scored (validator_isEmail : string -> bool) (key : option string)
    (email : option string) (first retry : DnsAnswer) (call : ApiOutcome HunterData) :
  exists r s,
    verifyEmail validator_isEmail key email first retry call = Return r
    /\ score r = Some s /\ 0 <= s <= 100.
Proof.
  unfold verifyEmail, verifyEmail_try.
  destruct email as [[| c rest] |]; try scored.
  destruct (validator_isEmail (String c rest)); cbn [negb]; [| scored].
  destruct (isValidApiKey key); cbn [negb try_catch].
  - destruct call as [data | m]; cbn [try_catch].
    + pose proof (hunterScore_range data) as [L U].
      destruct (min100 (hunterScore data) 10 L) as [M1 M2]; [lra |]. scored.
    + destruct (dns_isValid (checkDNS retry)); scored.
  - destruct (dns_isValid (checkDNS first)); scored.
Qed.

Lemma verifyPhone_scored (keyConfigured : bool) (phoneNumber : option string)
    (call : ApiOutcome NumverifyData) :
  exists r s,
    verifyPhone keyConfigured phoneNumber call = Return r
    /\ score r = Some s /\ 0 <= s <= 100.
Proof.
  unfold verifyPhone, verifyPhone_try.
  destruct phoneNumber as [[| c rest] |]; try scored.
  destruct keyConfigured; cbn [negb].
  - destruct call as [data | m]; cbn [try_catch].
    + destruct (nv_error data) as [info |]; cbn [try_catch].
      * destruct (isBasicValid (cleanPhone (String c rest))); scored.
      * eexists. eexists. split; [reflexivity |]. cbn [score].
        split; [reflexivity |].
        match goal with |- _ <= Math_min 100 ?x <= _ =>
          assert (B : 20 <= x)
            by (destruct (0 <? String.length (nv_carrier data))%nat;
                destruct (String.eqb (nv_line_type data) "mobile");
                destruct (nv_valid data); lra);
          destruct (min100 x 20 B); lra
        end.
    + destruct (isBasicValid (cleanPhone (String c rest))); scored.
  - cbn [try_catch]. destruct (isBasicValid (cleanPhone (String c rest))); scored.
Qed.

Lemma verifyCompany_scored (key companyName websiteUrl : option string)
    (lookup : ApiOutcome ClearbitData) (fetch : ApiOutcome Page) :
  exists r s,
    verifyCompany key companyName websiteUrl lookup fetch = Return r
    /\ score r = Some s /\ 30 <= s <= 100.
Proof.
  unfold verifyCompany.
  match goal with |- context [combineCompanyData ?n ?cb ?web] =>
    destruct (combineCompanyData n cb web) as [r |] eqn:E; cbn [try_catch];
      [destruct (combineCompanyData_range n cb web r E) as [s [Hs [Hr _]]] |]
  end.
  - exists r, s. split; [reflexivity |]. split; [exact Hs | lra].
  - scored.
Qed.

Lemma verifyDomain_scored (validator_isURL : string -> bool)
    (URL_parse : string -> option RuleBasedScoring.URL)
    (websiteUrl : option string) (answer : DnsAnswer) :
  exists r s,
    verifyDomain validator_isURL URL_parse websiteUrl answer = Return r
    /\ score r = Some s /\ 0 <= s <= 85 /\ apiCalled r = false.
Proof.
  unfold verifyDomain, verifyDomain_try.
  destruct websiteUrl as [[| c rest] |]; cbn [try_catch]; try scored.
  destruct (validator_isURL (String c rest)); cbn [negb try_catch]; [| scored].
  destruct (URL_parse (String c rest)) as [url |]; cbn [try_catch]; [| scored].
  set (s := add_if _ 5 (add_if _ 10 _)).
  assert (B : 20 <= s <= 85).
  { subst s. unfold add_if, checkDNS. cbn [dns_isValid].
    destruct (List.length _ <=? 2)%nat; destruct (String.eqb _ "https:");
      destruct (mxResolved answer || aResolved answer); lra. }
  destruct (min100 s 20) as [M1 M2]; try lra.
  assert (E : Math_min 100 s == s).
  { unfold Math_min. destruct (Q.min_spec 100 s) as [[L E] | [L E]]; rewrite E; lra. }
  eexists. eexists. split; [reflexivity |]. cbn [score apiCalled].
  split; [reflexivity |]. split; [rewrite E; lra | reflexivity].
Qed.

(** ** The external score over the channels *)

Lemma contribution_settle (c : completion ChannelResult) (r : ChannelResult) (s : Q) :
  c = Return r -> score r = Some s -> Spec.contribution (settle c) = Some s.
Proof.
  intros -> H. exact H.
Qed.

(** X13. Whatever the providers do, verifyAll over the four channels
    gives every channel a numeric score, so the external score is the mean
    of four numbers and never the neutral default; it lies between 7.5
    and 96.25, and at most three of the channels count as API calls. *)
Theorem verifyAllChannels_aggregate (w : Providers) (data : RecruiterData) :
  List.length (Spec.resolvedScores (verifyAllChannels w data)) = 4%nat
  /\ (15 # 2) <= calculateExternalScore (Some (verifyAllChannels w data)) <= (385 # 4)
  /\ (apiCallsCount (verifyAllChannels w data) <= 3)%nat.
Proof.
  unfold verifyAllChannels.
  destruct (verifyEmail_scored (isEmail w) (hunterKey w) (businessEmail data)
              (emailDns w) (emailDnsRetry w) (hunterCall w))
    as [re [se [Ee [Se Be]]]].
  destruct (verifyPhone_scored (isValidApiKey (numverifyKey w)) (phoneNumber data)
              (numverifyCall w))
    as [rp [sp [Ep [Sp Bp]]]].
  destruct (verifyCompany_scored (clearbitKey w) (companyName data) (websiteUrl data)
              (clearbitCall w) (pageFetch w))
    as [rc [sc [Ec [Sc Bc]]]].
  destruct (verifyDomain_scored (isURL w) (parseURL w) (websiteUrl data) (domainDns w))
    as [rd [sd [Ed [Sd [Bd Ad]]]]].
  split; [| split].
  - rewrite Ee, Ep, Ec, Ed. unfold Spec.resolvedScores, verifyAll.
    cbn [settle handlePromiseResult email phone company domain flat_map].
    rewrite Se, Sp, Sc, Sd. reflexivity.
  - rewrite (verifyAll_counts_every_channel _ _ _ _ se sp sc sd
               (contribution_settle _ _ _ Ee Se) (contribution_settle _ _ _ Ep Sp)
               (contribution_settle _ _ _ Ec Sc) (contribution_settle _ _ _ Ed Sd)).
    unfold Qdiv. change (/ 4) with (1 # 4). lra.
  - rewrite Ee, Ep, Ec, Ed. unfold verifyAll, countApiCalls.
    cbn [settle handlePromiseResult apiCallsCount filter]. rewrite Ad.
    destruct (apiCalled re); destruct (apiCalled rp); destruct (apiCalled rc);
      cbn [List.length]; lia.
Qed.

Lemma length_Q_cons {A} (x : A) (l : list A) : length_Q (x :: l) == 1 + length_Q l.
Proof.
  unfold length_Q. cbn [List.length]. rewrite Nat2Z.inj_succ, <- Z.add_1_l.
  rewrite inject_Z_plus. reflexivity.
Qed.

Lemma length_Q_nonneg {A} (l : list A) : 0 <= length_Q l.
Proof.
  unfold length_Q. change 0 with (inject_Z 0). rewrite <- Zle_Qle. lia.
Qed.

Lemma total_bounds (l : list Q) (lo hi : Q) :
  (forall s, In s l -> lo <= s <= hi) ->
  lo * length_Q l <= Spec.total l <= hi * length_Q l.
Proof.
  induction l as [| x l IH]; intros H.
  - change (length_Q (@nil Q)) with 0. change (Spec.total []) with 0. lra.
  - rewrite length_Q_cons. change (Spec.total (x :: l)) with (x + Spec.total l).
    destruct (H x (or_introl eq_refl)) as [Lx Ux].
    destruct IH as [L U]; [intros s Hs; apply H; right; exact Hs |]. lra.
Qed.

(** The mean of a non-empty list lies between its bounds. *)
Lemma mean_bounds (l : list Q) (lo hi : Q) :
  l <> [] -> (forall s, In s l -> lo <= s <= hi) ->
  lo <= Spec.arithmeticMean l <= hi.
Proof.
  intros N H. destruct (total_bounds l lo hi H) as [L U].
  assert (P : 0 < length_Q l).
  { destruct l as [| x l]; [contradiction |].
    rewrite length_Q_cons. pose proof (length_Q_nonneg l). lra. }
  unfold Spec.arithmeticMean. split.
  - apply Qle_shift_div_l; assumption.
  - apply Qle_shift_div_r; assumption.
Qed.

(** X14. The external score lies between any two bounds that hold for the
    numeric channel scores and for the neutral 50; in particular it lies
    in [0,100] whenever the channel scores do. *)
Theorem external_score_bounds (d : option Results) (lo hi : Q) :
  lo <= 50 <= hi ->
  (forall r s, d = Some r -> In s (Spec.resolvedScores r) -> lo <= s <= hi) ->
  lo <= calculateExternalScore d <= hi.
Proof.
  intros H50 H. destruct d as [r |]; [| exact H50].
  destruct (calculateExternalScore_mean r) as [E M].
  destruct (Spec.resolvedScores r) as [| x l] eqn:R.
  - rewrite E by reflexivity. exact H50.
  - rewrite M by discriminate.
    apply mean_bounds; [discriminate |]. intros s Hs. apply (H r s eq_refl).
    rewrite R. exact Hs.
Qed.

Lemma external_score_bounds_witness :
  0 <= calculateExternalScore (Samples.channels 60 50 78 85) <= 100.
Proof.
  apply external_score_bounds; [lra |].
  intros r s E Hs. injection E as <-.
  cbn in Hs. destruct Hs as [<- | [<- | [<- | [<- | []]]]]; lra.
Defined.

Import StoredResult.

(** X15. The external score that a stored result reports for itself
    agrees with the one the workflow used when all four channel scores
    are positive. *)
Theorem stored_external_score (d : Results) (ce cp cc cd : ChannelResult)
    (s1 s2 s3 s4 : Q) :
  email d = Some ce -> phone d = Some cp -> company d = Some cc -> domain d = Some cd ->
  score ce = Some s1 -> score cp = Some s2 -> score cc = Some s3 -> score cd = Some s4 ->
  0 < s1 -> 0 < s2 -> 0 < s3 -> 0 < s4 ->
  getExternalAPIWeightedScore (Some d) == calculateExternalScore (Some d).
Proof.
  intros He Hp Hc Hd S1 S2 S3 S4 P1 P2 P3 P4.
  unfold getExternalAPIWeightedScore, calculateExternalScore, storedScore, numericScore.
  rewrite He, Hp, Hc, Hd, S1, S2, S3, S4.
  rewrite !or_number_nonzero by lra. cbn [filter app].
  apply Qltb_true in P1, P2, P3, P4. rewrite P1, P2, P3, P4. reflexivity.
Qed.

Lemma stored_external_score_witness :
  getExternalAPIWeightedScore (Samples.channels 60 50 78 85)
  == calculateExternalScore (Samples.channels 60 50 78 85).
Proof.
  refine (stored_external_score
                   (verifyAll (fulfilled (Samples.channel 60)) (fulfilled (Samples.channel 50))
                      (fulfilled (Samples.channel 78)) (fulfilled (Samples.channel 85)))
                   (Samples.channel 60) (Samples.channel 50)
                   (Samples.channel 78) (Samples.channel 85) 60 50 78 85
                   eq_refl eq_refl eq_refl eq_refl eq_refl eq_refl eq_refl eq_refl
                   _ _ _ _); lra.
Defined.

(** X16. A channel that scored 0 (the email channel does so for a missing
    or malformed address) is averaged in by the workflow and left out by
    the stored result: with the other three channels positive the
    workflow used a quarter of their sum and the stored result reports a
    third of it, which is greater. *)
Theorem stored_external_score_drops_zero (d : Results) (ce cp cc cd : ChannelResult)
    (s2 s3 s4 : Q) :
  email d = Some ce -> phone d = Some cp -> company d = Some cc -> domain d = Some cd ->
  score ce = Some 0 -> score cp = Some s2 -> score cc = Some s3 -> score cd = Some s4 ->
  0 < s2 -> 0 < s3 -> 0 < s4 ->
  calculateExternalScore (Some d) == (s2 + s3 + s4) / 4
  /\ getExternalAPIWeightedScore (Some d) == (s2 + s3 + s4) / 3
  /\ calculateExternalScore (Some d) < getExternalAPIWeightedScore (Some d).
Proof.
  intros He Hp Hc Hd S1 S2 S3 S4 P2 P3 P4.
  assert (W : calculateExternalScore (Some d) == (s2 + s3 + s4) / 4).
  { unfold calculateExternalScore, numericScore.
    rewrite He, Hp, Hc, Hd, S1, S2, S3, S4. cbn [app].
    unfold reduce_sum. cbn [fold_left].
    change (length_Q [0; s2; s3; s4]) with 4. field. }
  assert (V : getExternalAPIWeightedScore (Some d) == (s2 + s3 + s4) / 3).
  { unfold getExternalAPIWeightedScore, storedScore.
    rewrite He, Hp, Hc, Hd, S1, S2, S3, S4.
    rewrite (or_number_zero 0 0) by reflexivity.
    rewrite !or_number_nonzero by lra. cbn [filter].
    apply Qltb_true in P2, P3, P4. rewrite P2, P3, P4.
    change (Qltb 0 0) with false. cbn iota.
    unfold reduce_sum. cbn [fold_left].
    change (length_Q [s2; s3; s4]) with 3. field. }
  split; [exact W |]. split; [exact V |].
  rewrite W, V. unfold Qdiv. change (/ 4) with (1 # 4). change (/ 3) with (1 # 3). lra.
Qed.

Lemma stored_external_score_drops_zero_witness :
  calculateExternalScore (Samples.channels 0 60 60 60)
  < getExternalAPIWeightedScore (Samples.channels 0 60 60 60).
Proof.
  refine (proj2 (proj2 (stored_external_score_drops_zero
                   (verifyAll (fulfilled (Samples.channel 0)) (fulfilled (Samples.channel 60))
                      (fulfilled (Samples.channel 60)) (fulfilled (Samples.channel 60)))
                   (Samples.channel 0) (Samples.channel 60)
                   (Samples.channel 60) (Samples.channel 60) 60 60 60
                   eq_refl eq_refl eq_refl eq_refl eq_refl eq_refl eq_refl eq_refl
                   _ _ _))); lra.
Defined.

(** ** A stored result and the run that stored it *)

(** What a run that returns has stored and returned. *)
Lemma run_inversion (this : Service) (env : Collaborators) (id : string)
    (out : ScoringOutcome) :
  ScoringWorkflow.scoreRecruiter this env id = Return out ->
  exists recruiter llmResults,
    findByPk env id = Some recruiter
    /\ llmScoring env recruiter
         (Some (ruleContext (settle (ruleBasedScoring env recruiter)))) = Return llmResults
    /\ vr_ruleBasedScore (out_details out)
       = ScoringWorkflow.score (ruleView (settle (ruleBasedScoring env recruiter)))
    /\ vr_llmScore (out_details out) = llmResults
    /\ vr_externalVerification (out_details out)
       = externalView (settle (externalVerification env recruiter))
    /\ out_breakdown out
       = breakdown (ScoringWorkflow.calculateFinalScore this
                      (ruleView (settle (ruleBasedScoring env recruiter)))
                      (llmView llmResults)
                      (Some (externalView (settle (externalVerification env recruiter))))).
Proof.
  unfold ScoringWorkflow.scoreRecruiter.
  destruct (findByPk env id) as [recruiter |]; [| discriminate].
  destruct (llmScoring env recruiter _) as [llmResults | m] eqn:EL; cbn [bind];
    [| discriminate].
  destruct (store env _) as [u | m]; cbn [bind]; [| discriminate].
  intros H. injection H as <-. exists recruiter, llmResults.
  cbn [out_details out_breakdown vr_ruleBasedScore vr_llmScore vr_externalVerification].
  split; [reflexivity |]. split; [exact EL |]. repeat split; reflexivity.
Qed.

Lemma inject_Z_zero (z : Z) : inject_Z z == 0 <-> z = 0%Z.
Proof.
  unfold Qeq. cbn. lia.
Qed.

(** X17. The breakdown that a stored result computes for itself uses the
    weights of the run, and its rule-based and LLM parts are those of the
    run's breakdown whenever the stored score is not 0. For a stored
    score of 0 the stored breakdown gives 0 while the run has counted 50
    times the weight. *)
Theorem stored_breakdown_of_run (R L E : option Q) (T : option Z)
    (env : Collaborators) (id : string) (out : ScoringOutcome) :
  ScoringWorkflow.scoreRecruiter (constructor R L E T) env id = Return out ->
  sb_weights (getScoreBreakdown R L E (out_details out)) = usedWeights (out_breakdown out)
  /\ (exists s,
        vr_ruleBasedScore (out_details out) = Some s
        /\ sb_ruleBasedWeighted (getScoreBreakdown R L E (out_details out))
           = Some (s * ruleBased (usedWeights (out_breakdown out)))
        /\ (~ s == 0 ->
            ruleBasedWeighted (out_breakdown out)
            = s * ruleBased (usedWeights (out_breakdown out)))
        /\ (s == 0 ->
            ruleBasedWeighted (out_breakdown out)
            = 50 * ruleBased (usedWeights (out_breakdown out))))
  /\ (LLMScoring.score (vr_llmScore (out_details out)) <> 0%Z ->
      sb_llmWeighted (getScoreBreakdown R L E (out_details out))
      = llmWeighted (out_breakdown out))
  /\ (LLMScoring.score (vr_llmScore (out_details out)) = 0%Z ->
      sb_llmWeighted (getScoreBreakdown R L E (out_details out)) == 0
      /\ llmWeighted (out_breakdown out) = 50 * llm (usedWeights (out_breakdown out))).
Proof.
  intros H.
  destruct (run_inversion _ _ _ _ H) as [recruiter [llmResults [_ [_ [Hr [Hl [_ Hb]]]]]]].
  rewrite Hb. unfold getScoreBreakdown. rewrite Hr, Hl.
  cbn [sb_weights sb_ruleBasedWeighted sb_llmWeighted breakdown
       ScoringWorkflow.calculateFinalScore usedWeights ruleBasedWeighted llmWeighted
       weights constructor ruleBased llm external].
  split; [reflexivity |]. split; [| split].
  - destruct (settle (ruleBasedScoring env recruiter)) as [value | why];
      cbn [ruleView ScoringWorkflow.score option_map];
      eexists; (split; [reflexivity |]); (split; [reflexivity |]); split; intros Hz;
      first [ rewrite (or_number_nonzero _ _ Hz); reflexivity
            | rewrite (or_number_zero _ _ Hz); reflexivity ].
  - intros Hz. cbn [llmView ScoringWorkflow.score].
    rewrite or_number_nonzero; [reflexivity |].
    intros N. exact (Hz (proj1 (inject_Z_zero _) N)).
  - intros Hz. cbn [llmView ScoringWorkflow.score]. rewrite Hz. split.
    + change (inject_Z 0) with 0. lra.
    + rewrite or_number_zero; reflexivity.
Qed.

Lemma stored_breakdown_of_run_witness :
  exists out,
    ScoringWorkflow.scoreRecruiter (constructor None None None None)
      (Samples.collaborators (Samples.tableWithout "b")) "a" = Return out
    /\ sb_weights (getScoreBreakdown None None None (out_details out))
       = usedWeights (out_breakdown out).
Proof.
  destruct (ScoringWorkflow.scoreRecruiter (constructor None None None None)
              (Samples.collaborators (Samples.tableWithout "b")) "a")
    as [out | m] eqn:E; [| vm_compute in E; discriminate E].
  exists out. split; [reflexivity |].
  exact (proj1 (stored_breakdown_of_run None None None None
                  (Samples.collaborators (Samples.tableWithout "b")) "a" out E)).
Defined.

(** ** The settings of the service *)

Lemma or_number_never_zero (x : option Q) (d : Q) : ~ d == 0 -> ~ or_number x d == 0.
Proof.
  intros D. destruct x as [v |]; [| exact D].
  unfold or_number. destruct (Qeq_bool v 0) eqn:E; [exact D |].
  intros N. apply Qeq_bool_iff in N. congruence.
Qed.

(** X18. No setting of the environment gives the service a weight or a
    threshold of 0: a configured 0 is replaced by the default. A scoring
    method can therefore not be switched off by its weight: with the
    rule-based weight set to 0 and the other two summing to 1, the
    weights used sum to 1.3 and the constructor logs its warning. *)
Theorem constructor_replaces_zero (R L E : option Q) (T : option Z) :
  (~ ruleBased (weights (constructor R L E T)) == 0
   /\ ~ llm (weights (constructor R L E T)) == 0
   /\ ~ external (weights (constructor R L E T)) == 0
   /\ ~ spamThreshold (constructor R L E T) == 0)
  /\ constructor (Some 0) L E T = constructor None L E T
  /\ constructor R (Some 0) E T = constructor R None E T
  /\ constructor R L (Some 0) T = constructor R L None T
  /\ constructor R L E (Some 0%Z) = constructor R L E None
  /\ (forall l e : Q, ~ l == 0 -> ~ e == 0 -> l + e == 1 ->
      ruleBased (weights (constructor (Some 0) (Some l) (Some e) T)) == 3 # 10
      /\ weightsWarning (weights (constructor (Some 0) (Some l) (Some e) T)) = true).
Proof.
  split; [| repeat match goal with |- _ /\ _ => split end; try reflexivity].
  - cbn [constructor weights ruleBased llm external spamThreshold].
    repeat split; apply or_number_never_zero; intros N; discriminate N.
  - intros l e Hl He S. unfold constructor, weightsWarning.
    cbn [weights ruleBased llm external].
    rewrite (or_number_zero 0 _) by reflexivity.
    rewrite (or_number_nonzero l _ Hl), (or_number_nonzero e _ He).
    split; [reflexivity |]. apply Qltb_true.
    assert (V : 0 + 0.3 + l + e - 1 == 3 # 10) by lra.
    rewrite V. reflexivity.
Qed.

(** ** The final score as a weighted mean *)

(** X19. With non-negative weights that sum to 1 the final score is a
    weighted mean of the three raw scores: it lies between the rounded
    values of any two bounds of the raw scores within [0,100]. *)
Theorem final_score_between_raw_scores (this : Service) (rule llmS : Scored)
    (ext : option Results) (lo hi : Q) :
  0 <= ruleBased (weights this) -> 0 <= llm (weights this) ->
  0 <= external (weights this) ->
  ruleBased (weights this) + llm (weights this) + external (weights this) == 1 ->
  0 <= lo -> hi <= 100 ->
  lo <= or_number (ScoringWorkflow.score rule) 50 <= hi ->
  lo <= or_number (ScoringWorkflow.score llmS) 50 <= hi ->
  lo <= calculateExternalScore ext <= hi ->
  (Math_round lo <= finalScore (ScoringWorkflow.calculateFinalScore this rule llmS ext)
   <= Math_round hi)%Z.
Proof.
  intros W1 W2 W3 S L0 H100 [R1 R2] [A1 A2] [E1 E2].
  cbn [ScoringWorkflow.calculateFinalScore finalScore].
  set (r := or_number (ScoringWorkflow.score rule) 50) in *.
  set (a := or_number (ScoringWorkflow.score llmS) 50) in *.
  set (e := calculateExternalScore ext) in *.
  set (w1 := ruleBased (weights this)) in *.
  set (w2 := llm (weights this)) in *.
  set (w3 := external (weights this)) in *.
  assert (B : lo <= r * w1 + a * w2 + e * w3 <= hi).
  { assert (P1 : lo * w1 <= r * w1) by (apply Qmult_le_compat_r; assumption).
    assert (P2 : lo * w2 <= a * w2) by (apply Qmult_le_compat_r; assumption).
    assert (P3 : lo * w3 <= e * w3) by (apply Qmult_le_compat_r; assumption).
    assert (Q1 : r * w1 <= hi * w1) by (apply Qmult_le_compat_r; assumption).
    assert (Q2 : a * w2 <= hi * w2) by (apply Qmult_le_compat_r; assumption).
    assert (Q3 : e * w3 <= hi * w3) by (apply Qmult_le_compat_r; assumption).
    assert (Lo : lo == lo * w1 + lo * w2 + lo * w3).
    { transitivity (lo * (w1 + w2 + w3)); [rewrite S; ring | ring]. }
    assert (Hi : hi == hi * w1 + hi * w2 + hi * w3).
    { transitivity (hi * (w1 + w2 + w3)); [rewrite S; ring | ring]. }
    split; lra. }
  assert (C : Math_max 0 (Math_min 100 (r * w1 + a * w2 + e * w3))
              == r * w1 + a * w2 + e * w3) by (apply clamp_inside; lra).
  rewrite (Math_round_eq _ _ C). split; apply Math_round_le; apply B.
Qed.

Lemma final_score_between_raw_scores_witness :
  (60 <= finalScore (ScoringWorkflow.calculateFinalScore defaultService
                       (Samples.ruleResult 60) (Samples.llmResult 80 90)
                       (Samples.channels 60 50 78 85)) <= 80)%Z.
Proof.
  apply (final_score_between_raw_scores defaultService (Samples.ruleResult 60)
           (Samples.llmResult 80 90) (Samples.channels 60 50 78 85) 60 80);
    vm_compute; try reflexivity; try discriminate; split; discriminate.
Defined.

(** ** What makes a run fail *)

(** X20. Once the lookup of the recruiter has answered, a run throws only
    when the recruiter is not found, when the LLM service throws or when
    the result cannot be stored; a failure of the rule-based or of the
    external service never makes it throw. *)
Theorem run_throws_only_for (this : Service) (env : Collaborators) (id m : string) :
  ScoringWorkflow.scoreRecruiter this env id = Throw m ->
  (findByPk env id = None /\ m = ("Recruiter not found: " ++ id)%string)
  \/ (exists recruiter,
        findByPk env id = Some recruiter
        /\ (llmScoring env recruiter
              (Some (ruleContext (settle (ruleBasedScoring env recruiter)))) = Throw m
            \/ exists v, store env v = Throw m)).
Proof.
  unfold ScoringWorkflow.scoreRecruiter.
  destruct (findByPk env id) as [recruiter |].
  - intros H. right. exists recruiter. split; [reflexivity |].
    destruct (llmScoring env recruiter _) as [llmResults | m']; cbn [bind] in H.
    + right.
      match type of H with
      | bind (store env ?v) _ = _ =>
          exists v; destruct (store env v); cbn [bind] in H;
            [discriminate H | injection H as <-; reflexivity]
      end.
    + left. injection H as <-. reflexivity.
  - intros H. injection H as <-. left. split; reflexivity.
Qed.

Lemma run_throws_only_for_witness :
  (findByPk (Samples.collaborators (Samples.tableWithout "b")) "b" = None
   /\ "Recruiter not found: b"%string = ("Recruiter not found: " ++ "b")%string)
  \/ (exists recruiter,
        findByPk (Samples.collaborators (Samples.tableWithout "b")) "b" = Some recruiter
        /\ (llmScoring (Samples.collaborators (Samples.tableWithout "b")) recruiter
              (Some (ruleContext
                       (settle (ruleBasedScoring
                                  (Samples.collaborators (Samples.tableWithout "b"))
                                  recruiter))))
            = Throw "Recruiter not found: b"
            \/ exists v, store (Samples.collaborators (Samples.tableWithout "b")) v
                         = Throw "Recruiter not found: b")).
Proof.
  apply (run_throws_only_for defaultService
           (Samples.collaborators (Samples.tableWithout "b")) "b" "Recruiter not found: b").
  reflexivity.
Defined.

(** ** Batches, chunk by chunk *)

Lemma batch_map (this : Service) (env : Collaborators) (continue : bool)
    (fuel : nat) (ids : list string) (k : nat) :
  (1 <= k)%nat -> (List.length ids <= fuel)%nat ->
  batchScoreRecruiters this env continue fuel ids k
  = Some (summarize (map (fun id => entryOf (scoreOne this env continue id)) ids)).
Proof.
  intros Hk Hf. unfold batchScoreRecruiters.
  rewrite (batchLoop_all this env continue fuel ids k 0 []) by (try assumption; lia).
  reflexivity.
Qed.

Lemma filter_success_app (xs ys : list BatchEntry) :
  List.length (filter success (xs ++ ys))
  = (List.length (filter success xs) + List.length (filter success ys))%nat.
Proof.
  rewrite filter_app, length_app. reflexivity.
Qed.

(** X21. The size of the chunks changes nothing in what a batch
    returns: with any two concurrency settings of at least 1 the
    summaries are equal. The entries come in the order of the ids, so the
    results of a list that is split in two are those of the first part
    followed by those of the second, and the counts add up. *)
Theorem batch_independent_of_chunks (this : Service) (env : Collaborators)
    (continue : bool) (ids more : list string) (k1 k2 : nat) :
  (1 <= k1)%nat -> (1 <= k2)%nat ->
  batchScoreRecruiters this env continue (List.length ids) ids k1
  = batchScoreRecruiters this env continue (List.length ids) ids k2
  /\ exists s s' whole,
       batchScoreRecruiters this env continue (List.length ids) ids k1 = Some s
       /\ batchScoreRecruiters this env continue (List.length more) more k1 = Some s'
       /\ batchScoreRecruiters this env continue (List.length (ids ++ more)) (ids ++ more) k2
          = Some whole
       /\ results whole = results s ++ results s'
       /\ total whole = (total s + total s')%nat
       /\ successful whole = (successful s + successful s')%nat.
Proof.
  intros H1 H2.
  rewrite !batch_map by (try assumption; lia).
  split; [reflexivity |].
  eexists. eexists. eexists.
  split; [reflexivity |]. split; [reflexivity |]. split; [reflexivity |].
  unfold summarize. cbn [results total successful].
  rewrite map_app. split; [reflexivity |].
  split; [apply length_app | apply filter_success_app].
Qed.

Lemma batch_independent_of_chunks_witness :
  batchScoreRecruiters defaultService (Samples.collaborators (Samples.tableWithout "b"))
    true 3 ["a"; "b"; "c"]%string 1
  = batchScoreRecruiters defaultService (Samples.collaborators (Samples.tableWithout "b"))
      true 3 ["a"; "b"; "c"]%string 2.
Proof.
  assert (H1 : (1 <= 1)%nat) by lia.
  assert (H2 : (1 <= 2)%nat) by lia.
  exact (proj1 (batch_independent_of_chunks defaultService
                  (Samples.collaborators (Samples.tableWithout "b")) true
                  ["a"; "b"; "c"]%string [] 1 2 H1 H2)).
Defined.

(** ** The decision as the score and the confidence grow *)

(** X22. For any threshold, approval is kept when the score and the
    confidence grow. A recruiter who is flagged stays flagged when the
    score falls and the confidence grows, provided the threshold is at
    least 40. *)
Theorem approval_is_monotone (this : Service) (s c s' c' : Q) :
  s <= s' -> c <= c' ->
  (decision (makeDecision this s c) = approved ->
   decision (makeDecision this s' c') = approved)
  /\ (40 <= spamThreshold this ->
      decision (makeDecision this s' c) = flagged ->
      decision (makeDecision this s c') = flagged).
Proof.
  intros Hs Hc. rewrite !decision_makeDecision. split.
  - tests; intros; try discriminate; try reflexivity; lra.
  - intros Ht. tests; intros; try discriminate; try reflexivity; lra.
Qed.

Lemma approval_is_monotone_witness :
  decision (makeDecision defaultService 90 95) = approved.
Proof.
  assert (Hs : 72 <= 90) by lra.
  assert (Hc : 75 <= 95) by lra.
  apply (proj1 (approval_is_monotone defaultService 72 75 90 95 Hs Hc)).
  vm_compute. reflexivity.
Defined.

(** ** The confidence *)

Lemma penalty_swap (r a e : Q) :
  Spec.penalty r a e = Spec.penalty a r e /\ Spec.penalty r a e = Spec.penalty r e a.
Proof.
  unfold Spec.penalty, Spec.deviationExceeds.
  assert (V1 : Spec.variance r a e == Spec.variance a r e)
    by (unfold Spec.variance, Spec.mean; field).
  assert (V2 : Spec.variance r a e == Spec.variance r e a)
    by (unfold Spec.variance, Spec.mean; field).
  rewrite (Qltb_compat _ (20 * 20) _ (Spec.variance a r e) (Qeq_refl _) V1).
  rewrite (Qltb_compat (10 * 10) (10 * 10) (Spec.variance r a e) (Spec.variance a r e)
             (Qeq_refl _) V1).
  split; [reflexivity |].
  rewrite (Qltb_compat (20 * 20) (20 * 20) (Spec.variance a r e) (Spec.variance r e a))
    by (rewrite <- ?V1, <- ?V2; reflexivity).
  rewrite (Qltb_compat (10 * 10) (10 * 10) (Spec.variance a r e) (Spec.variance r e a))
    by (rewrite <- ?V1, <- ?V2; reflexivity).
  reflexivity.
Qed.

Lemma agreement_swap (r a e : Q) :
  Spec.agreementStrict r a e = Spec.agreementStrict a r e
  /\ Spec.agreementStrict r a e = Spec.agreementStrict r e a.
Proof.
  unfold Spec.agreementStrict.
  destruct (Qltb 70 r); destruct (Qltb 70 a); destruct (Qltb 70 e);
    destruct (Qltb r 40); destruct (Qltb a 40); destruct (Qltb e 40);
    split; reflexivity.
Qed.

(** X23. The confidence does not depend on which method gave which of
    the three scores: it is the same for every order of them. *)
Theorem confidence_ignores_method_order (r a e c : Q) :
  calculateConfidence r a e c == calculateConfidence a r e c
  /\ calculateConfidence r a e c == calculateConfidence r e a c
  /\ calculateConfidence r a e c == calculateConfidence e a r c
  /\ calculateConfidence r a e c == calculateConfidence a e r c
  /\ calculateConfidence r a e c == calculateConfidence e r a c.
Proof.
  assert (S1 : forall x y z, calculateConfidence x y z c == calculateConfidence y x z c).
  { intros x y z. rewrite !calculateConfidence_spec. unfold Spec.confidence.
    rewrite (proj1 (penalty_swap x y z)), (proj1 (agreement_swap x y z)). reflexivity. }
  assert (S2 : forall x y z, calculateConfidence x y z c == calculateConfidence x z y c).
  { intros x y z. rewrite !calculateConfidence_spec. unfold Spec.confidence.
    rewrite (proj2 (penalty_swap x y z)), (proj2 (agreement_swap x y z)). reflexivity. }
  split; [apply S1 |]. split; [apply S2 |].
  split; [rewrite (S1 r a e), (S2 a r e), (S1 a e r); reflexivity |].
  split; [rewrite (S1 r a e), (S2 a r e); reflexivity |].
  rewrite (S2 r a e), (S1 r e a). reflexivity.
Qed.

(** X24. The confidence grows with the confidence the LLM reports, and
    the adjustments move it by at most 15 down and 10 up before the
    limits 0 and 100 apply. *)
Theorem confidence_monotone (r a e c c' : Q) :
  c <= c' ->
  calculateConfidence r a e c <= calculateConfidence r a e c'
  /\ Math_max 0 (Math_min 100 (c - 15)) <= calculateConfidence r a e c
  /\ calculateConfidence r a e c <= Math_max 0 (Math_min 100 (c + 10)).
Proof.
  intros H. rewrite !calculateConfidence_spec. unfold Spec.confidence, Spec.clamp.
  fold (Math_min 100 (c - Spec.penalty r a e
                      + (if Spec.agreementStrict r a e then 10 else 0))).
  fold (Math_min 100 (c' - Spec.penalty r a e
                      + (if Spec.agreementStrict r a e then 10 else 0))).
  fold (Math_max 0 (Math_min 100 (c - Spec.penalty r a e
                      + (if Spec.agreementStrict r a e then 10 else 0)))).
  fold (Math_max 0 (Math_min 100 (c' - Spec.penalty r a e
                      + (if Spec.agreementStrict r a e then 10 else 0)))).
  assert (P : 0 <= Spec.penalty r a e <= 15).
  { unfold Spec.penalty. destruct (Spec.deviationExceeds r a e 20);
      [| destruct (Spec.deviationExceeds r a e 10)]; lra. }
  assert (B : 0 <= (if Spec.agreementStrict r a e then 10 else 0) <= 10)
    by (destruct (Spec.agreementStrict r a e); lra).
  split; [apply clamp_le; lra |]. split; apply clamp_le; lra.
Qed.

Lemma confidence_monotone_witness :
  calculateConfidence 60 80 70 50 <= calculateConfidence 60 80 70 90.
Proof.
  assert (H : 50 <= 90) by lra.
  exact (proj1 (confidence_monotone 60 80 70 50 90 H)).
Defined.

(** ** A phone number that passed the signup validation *)

Lemma validated_phone_length (phone : string) :
  Validation.isValidPhone phone = true ->
  phone <> ""%string
  /\ isBasicValid (cleanPhone phone) = true
  /\ ((String.length (cleanPhone phone) <? 10)%nat
      || (15 <? String.length (cleanPhone phone))%nat) = false.
Proof.
  unfold Validation.isValidPhone. intros H. split; [| split; [exact H |]].
  - intros ->. discriminate H.
  - unfold isBasicValid in H. apply andb_true_iff in H as [H U].
    apply andb_true_iff in H as [_ L].
    apply Nat.leb_le in L, U. apply orb_false_iff.
    split; apply Nat.ltb_ge; lia.
Qed.

(** X25. A phone number that the signup validation accepts is never
    flagged for its length by the rule engine, which keeps at least 5 of
    its 80 points for it, so that the floor at 0 plays no part; the phone
    channel finds it valid and scores it 50 when no API key is set and 30,
    with the error recorded, when the call to the API fails. *)
Theorem validated_phone_is_consistent (phone : string) :
  Validation.isValidPhone phone = true ->
  Audit.hasType "invalid_phone_length" (flags (analyzePhone (Some phone))) = false
  /\ Audit.hasType "missing_phone" (flags (analyzePhone (Some phone))) = false
  /\ 5 <= RuleBasedScoring.score (analyzePhone (Some phone))
  /\ RuleBasedScoring.score (analyzePhone (Some phone))
     == 80 + Audit.impactSum (flags (analyzePhone (Some phone)))
  /\ (forall call,
        verifyPhone false (Some phone) call
        = Return {| isValid := true; score := Some 50; error := None;
                    source := Some "validation"%string; apiCalled := false |})
  /\ (forall m,
        verifyPhone true (Some phone) (ApiFailure m)
        = Return {| isValid := true; score := Some 30; error := Some m;
                    source := Some "validation"%string; apiCalled := false |}).
Proof.
  intros H. destruct (validated_phone_length phone H) as [N [B L]].
  destruct phone as [| c rest]; [contradiction |].
  assert (A : Audit.hasType "invalid_phone_length" (flags (analyzePhone (Some (String c rest))))
              = false
              /\ Audit.hasType "missing_phone" (flags (analyzePhone (Some (String c rest))))
                 = false
              /\ 5 <= RuleBasedScoring.score (analyzePhone (Some (String c rest)))
              /\ RuleBasedScoring.score (analyzePhone (Some (String c rest)))
                 == 80 + Audit.impactSum (flags (analyzePhone (Some (String c rest))))).
  { unfold analyzePhone. cbn [present].
    change (filter_string _ (String c rest)) with (cleanPhone (String c rest)).
    rewrite L. unfold spamPatterns_phone, for_each. cbn [fold_left penalize].
    destruct (phone_repeated "0" (String c rest));
      destruct (phone_repeated "1" (String c rest));
      destruct (phone_repeated "9" (String c rest));
      destruct (5 <? maxRepeats (cleanPhone (String c rest)))%nat;
      vm_compute; repeat split; intros D; discriminate D. }
  destruct A as [A1 [A2 [A3 A4]]].
  split; [exact A1 |]. split; [exact A2 |]. split; [exact A3 |]. split; [exact A4 |].
  split.
  - intros call. unfold verifyPhone, verifyPhone_try. cbn [negb try_catch].
    rewrite B. reflexivity.
  - intros m. unfold verifyPhone, verifyPhone_try. cbn [negb try_catch].
    rewrite B. reflexivity.
Qed.

Lemma validated_phone_is_consistent_witness :
  5 <= RuleBasedScoring.score (analyzePhone (Some "+1 (415) 555-0123"%string)).
Proof.
  assert (H : Validation.isValidPhone "+1 (415) 555-0123" = true) by reflexivity.
  exact (proj1 (proj2 (proj2 (validated_phone_is_consistent "+1 (415) 555-0123" H)))).
Defined.

(** ** Zero scores at the merge step *)

(** The external score of a run cannot be 0: the company channel scores
    at least 30, so the mean of the four channels is at least 7.5. *)
Lemma verifyAllChannels_score_floor (w : Providers) (data : RecruiterData) :
  (15 # 2) <= calculateExternalScore (Some (verifyAllChannels w data)).
Proof.
  unfold verifyAllChannels.
  destruct (verifyEmail_scored (isEmail w) (hunterKey w) (businessEmail data)
              (emailDns w) (emailDnsRetry w) (hunterCall w))
    as [re [se [Ee [Se Be]]]].
  destruct (verifyPhone_scored (isValidApiKey (numverifyKey w)) (phoneNumber data)
              (numverifyCall w))
    as [rp [sp [Ep [Sp Bp]]]].
  destruct (verifyCompany_scored (clearbitKey w) (companyName data) (websiteUrl data)
              (clearbitCall w) (pageFetch w))
    as [rc [sc [Ec [Sc Bc]]]].
  destruct (verifyDomain_scored (isURL w) (parseURL w) (websiteUrl data) (domainDns w))
    as [rd [sd [Ed [Sd [Bd Ad]]]]].
  rewrite (verifyAll_counts_every_channel _ _ _ _ se sp sc sd
             (contribution_settle _ _ _ Ee Se) (contribution_settle _ _ _ Ep Sp)
             (contribution_settle _ _ _ Ec Sc) (contribution_settle _ _ _ Ed Sd)).
  unfold Qdiv. change (/ 4) with (1 # 4). lra.
Qed.

(** C10. At the merge step of a run a raw score of 0 is taken for 50. For
    the rule-based and the LLM score, and for the LLM confidence, this is
    the work of [|| 50]: the run is the run on 50, a zero score
    contributes 50 times its weight, and the confidence starts from 50.
    The external score is never 0 when it reaches the merge step: after
    verifyAll it is at least 7.5, and after a failed verification it is
    the neutral 50, contributing 50 times its weight. *)
Theorem zero_is_taken_for_fifty (this : Service) (rule llmS : Scored)
    (ext : option Results) (z : Q) :
  z == 0 ->
  (ScoringWorkflow.calculateFinalScore this (Samples.withScore rule z) llmS ext
   = ScoringWorkflow.calculateFinalScore this (Samples.withScore rule 50) llmS ext
   /\ ruleBasedWeighted
        (breakdown (ScoringWorkflow.calculateFinalScore this
                      (Samples.withScore rule z) llmS ext))
      = 50 * ruleBased (weights this))
  /\ (ScoringWorkflow.calculateFinalScore this rule (Samples.withScore llmS z) ext
      = ScoringWorkflow.calculateFinalScore this rule (Samples.withScore llmS 50) ext
      /\ llmWeighted
           (breakdown (ScoringWorkflow.calculateFinalScore this rule
                         (Samples.withScore llmS z) ext))
         = 50 * llm (weights this))
  /\ (ScoringWorkflow.calculateFinalScore this rule (Samples.withConfidence llmS z) ext
      = ScoringWorkflow.calculateFinalScore this rule (Samples.withConfidence llmS 50) ext
      /\ finalConfidence
           (ScoringWorkflow.calculateFinalScore this rule
              (Samples.withConfidence llmS z) ext)
         = Math_round (calculateConfidence
                         (or_number (ScoringWorkflow.score rule) 50)
                         (or_number (ScoringWorkflow.score llmS) 50)
                         (calculateExternalScore ext) 50))
  /\ (forall w data,
         (15 # 2) <= calculateExternalScore (Some (verifyAllChannels w data))
         /\ (calculateExternalScore (Some (verifyAllChannels w data)) == z ->
             externalWeighted
               (breakdown (ScoringWorkflow.calculateFinalScore this rule llmS
                             (Some (verifyAllChannels w data))))
             == 50 * external (weights this)))
  /\ (forall reason,
         calculateExternalScore (Some (externalView (rejected reason))) = 50
         /\ externalWeighted
              (breakdown (ScoringWorkflow.calculateFinalScore this rule llmS
                            (Some (externalView (rejected reason)))))
            = 50 * external (weights this))
  /\ (forall env id out w,
         (forall r, externalVerification env r = Return (verifyAllChannels w r)
                    \/ exists m, externalVerification env r = Throw m) ->
         ScoringWorkflow.scoreRecruiter this env id = Return out ->
         (15 # 2) <= snd (rawScores (out_breakdown out))
         /\ ~ snd (rawScores (out_breakdown out)) == z).
Proof.
  intros Hz.
  destruct (merge_step_coerces_zero this rule llmS ext z Hz) as [A [B C]].
  split; [exact A |]. split; [exact B |]. split; [exact C |].
  split; [| split].
  - intros w data. pose proof (verifyAllChannels_score_floor w data) as F.
    split; [exact F |]. intros E. rewrite E, Hz in F. exfalso. lra.
  - intros reason. split; reflexivity.
  - intros env id out w Hext Hrun.
    destruct (run_inversion _ _ _ _ Hrun) as [recruiter [llmResults [_ [_ [_ [_ [_ Hb]]]]]]].
    rewrite Hb.
    cbn [breakdown ScoringWorkflow.calculateFinalScore rawScores snd].
    assert (F : (15 # 2) <= calculateExternalScore
                              (Some (externalView (settle (externalVerification env recruiter))))).
    { destruct (Hext recruiter) as [-> | [m ->]]; cbn [settle externalView].
      - apply verifyAllChannels_score_floor.
      - change (calculateExternalScore _) with 50. lra. }
    split; [exact F |]. intros E. rewrite E, Hz in F. lra.
Qed.

Lemma zero_is_taken_for_fifty_witness :
  finalScore (ScoringWorkflow.calculateFinalScore defaultService
                (Samples.withScore (Samples.ruleResult 0) 0) (Samples.llmResult 20 80)
                (Samples.channels 20 20 20 20))
  = finalScore (ScoringWorkflow.calculateFinalScore defaultService
                (Samples.withScore (Samples.ruleResult 0) 50) (Samples.llmResult 20 80)
                (Samples.channels 20 20 20 20)).
Proof.
  destruct (zero_is_taken_for_fifty defaultService (Samples.ruleResult 0)
              (Samples.llmResult 20 80) (Samples.channels 20 20 20 20) 0 (Qeq_refl 0))
    as [[H _] _].
  rewrite H. reflexivity.
Defined.
